(** * Tartube configuration windows ([tartube/config.py])

    A shallow embedding of the edit windows ([GenericEditWin],
    [OptionsEditWin] and the three media edit windows) and of the system
    preference window ([SystemPrefWin]).  A window is a record of the
    instance variables its methods read and write; a method is a function
    from a window to an outcome (a value or a Python exception) and the
    window it leaves behind.  Objects edited by a window live in a store
    and are held by reference, as in Python. *)

From Stdlib Require Import ZArith QArith_base String Ascii List Bool Lia.
From stdpp Require Import base option gmap strings list fin_maps.

Local Open Scope Z_scope.

(** ** Python values and exceptions *)

(** The values that travel between widgets, the pending-changes mapping and
    object attributes: [None], booleans, integers, floats (a spin button's
    value, carried as a rational), strings, and the lists and tuples of
    strings that a text view edits. *)
Inductive pyval : Type :=
  | VNone
  | VBool (b : bool)
  | VInt (n : Z)
  | VFloat (q : Q)
  | VStr (s : string)
  | VList (l : list string)
  | VTuple (l : list string).

Inductive exn : Type :=
  | TypeError
  | NameError
  | AttributeError
  | KeyError
  | ValueError
  | IndexError.

Inductive result (A : Type) : Type :=
  | Ret (a : A)
  | Raise (e : exn).
Arguments Ret {A} a.
Arguments Raise {A} e.

(** Truth value of a Python value, as [if v:] and [not v] see it. *)
Definition truthy (v : pyval) : bool :=
  match v with
  | VNone => false
  | VBool b => b
  | VInt n => negb (n =? 0)
  | VFloat q => negb (Qnum q =? 0)
  | VStr s => negb (String.eqb s "")
  | VList l | VTuple l => match l with [] => false | _ => true end
  end.

(** [s == v] for a string [s]: a string equals only an equal string. *)
Definition str_eq (s : string) (v : pyval) : bool :=
  match v with
  | VStr t => String.eqb s t
  | _ => false
  end.

(** [int(x)] for a float [x]: truncation towards zero. *)
Definition int_of_float (q : Q) : Z := Z.quot (Qnum q) (Z.pos (Qden q)).

(** ** A state-and-exception monad

    A method runs on a state [S]; it returns a value or raises, and in both
    cases leaves a state behind: what a Python method did before it raised
    stays done. *)
Definition M (S A : Type) : Type := S -> result A * S.

Definition ret {S A} (a : A) : M S A := fun s => (Ret a, s).
Definition raise {S A} (e : exn) : M S A := fun s => (Raise e, s).
Definition bind {S A B} (c : M S A) (k : A -> M S B) : M S B :=
  fun s =>
    match c s with
    | (Ret a, s') => k a s'
    | (Raise e, s') => (Raise e, s')
    end.
Definition get {S} : M S S := fun s => (Ret s, s).
Definition modify {S} (f : S -> S) : M S unit := fun s => (Ret tt, f s).

Notation "'let!' x ':=' c 'in' k" := (bind c (fun x => k))
  (at level 10, x name, c at level 100, k at level 200).
Notation "'do!' c 'in' k" := (bind c (fun _ => k))
  (at level 10, c at level 100, k at level 200).

(** [for x in l: body(x)]: the first exception ends the loop. *)
Fixpoint for_each {S A} (l : list A) (body : A -> M S unit) : M S unit :=
  match l with
  | [] => ret tt
  | x :: l' => do! body x in for_each l' body
  end.

(** ** Widgets, as far as the callbacks read them *)

Record ToggleButton := { get_active : bool }.
Record Entry := { get_text : string }.
Record SpinButton := { get_value : Q }.
Record TextBuffer := { buffer_text : string }.

(** A combo box: the rows of its model and the active row, if any. *)
Record ComboBox := {
  get_model : list (list pyval);
  get_active_iter : option nat
}.

(** [model[tree_iter][col]]: indexing the model with [None] (no active row)
    is a [TypeError]; a column out of range is an [IndexError]. *)
Definition model_cell (combo : ComboBox) (col : nat) : result pyval :=
  match get_active_iter combo with
  | None => Raise TypeError
  | Some i =>
      match get_model combo !! i with
      | None => Raise ValueError
      | Some row =>
          match row !! col with
          | Some v => Ret v
          | None => Raise IndexError
          end
      end
  end.

(** ** Objects and the store *)

Definition loc := nat.

(** An object: its attributes, and (for an [options.OptionsManager]) the
    dictionary held in its [options_dict] attribute.  The dictionary is kept
    apart from the scalar attributes because it is read and written by key. *)
Record pyobj := PyObj {
  attrs : gmap string pyval;
  options_dict : option (gmap string pyval)
}.

(** [mainapp.TartubeApp], as far as the edit windows use it.  The class is
    not part of [config.py]; [system_error] is held as the method it is, and
    every call to it is recorded in the window's [system_error_calls]. *)
Record TartubeApp := {
  system_error : Z -> string -> pyval;
  simple_options_flag : bool
}.

(** ** Edit windows *)

(** The four concrete edit windows: [OptionsEditWin], [VideoEditWin],
    [ChannelPlaylistEditWin] and [FolderEditWin]. *)
Inductive edit_class : Type :=
  | COptions
  | CVideo
  | CChannelPlaylist
  | CFolder.

Record EditWin := MkEditWin {
  win_class : edit_class;
  store : gmap loc pyobj;
  app_obj : TartubeApp;
  system_error_calls : list (Z * string);
  edit_obj : loc;
  edit_dict : gmap string pyval;
  notebook : list string;
  shown : bool;
  destroyed : bool
}.

Definition set_store (f : gmap loc pyobj -> gmap loc pyobj) (w : EditWin) : EditWin :=
  MkEditWin (win_class w) (f (store w)) (app_obj w) (system_error_calls w)
    (edit_obj w) (edit_dict w) (notebook w) (shown w) (destroyed w).
Definition set_system_error_calls (f : list (Z * string) -> list (Z * string))
    (w : EditWin) : EditWin :=
  MkEditWin (win_class w) (store w) (app_obj w) (f (system_error_calls w))
    (edit_obj w) (edit_dict w) (notebook w) (shown w) (destroyed w).
Definition set_edit_obj (o : loc) (w : EditWin) : EditWin :=
  MkEditWin (win_class w) (store w) (app_obj w) (system_error_calls w)
    o (edit_dict w) (notebook w) (shown w) (destroyed w).
Definition set_edit_dict (f : gmap string pyval -> gmap string pyval)
    (w : EditWin) : EditWin :=
  MkEditWin (win_class w) (store w) (app_obj w) (system_error_calls w)
    (edit_obj w) (f (edit_dict w)) (notebook w) (shown w) (destroyed w).
Definition set_notebook (f : list string -> list string) (w : EditWin) : EditWin :=
  MkEditWin (win_class w) (store w) (app_obj w) (system_error_calls w)
    (edit_obj w) (edit_dict w) (f (notebook w)) (shown w) (destroyed w).
Definition set_shown (b : bool) (w : EditWin) : EditWin :=
  MkEditWin (win_class w) (store w) (app_obj w) (system_error_calls w)
    (edit_obj w) (edit_dict w) (notebook w) b (destroyed w).
Definition set_destroyed (b : bool) (w : EditWin) : EditWin :=
  MkEditWin (win_class w) (store w) (app_obj w) (system_error_calls w)
    (edit_obj w) (edit_dict w) (notebook w) (shown w) b.

(** [self.edit_dict[prop] = v] *)
Definition stage (prop : string) (v : pyval) : M EditWin unit :=
  modify (set_edit_dict (insert prop v)).

(** *** Built-ins *)

(** An argument of a call: an object reference or a value. *)
Inductive pyarg : Type :=
  | ARef (o : loc)
  | AVal (v : pyval).

(** [getattr(o, name)] *)
Definition builtin_getattr (o : loc) (name : string) : M EditWin pyval :=
  fun w =>
    match store w !! o with
    | Some ob =>
        match attrs ob !! name with
        | Some v => (Ret v, w)
        | None => (Raise AttributeError, w)
        end
    | None => (Raise AttributeError, w)
    end.

(** [setattr(...)]: the built-in takes exactly three arguments, the object,
    the attribute name (a string) and the value; any other call is a
    [TypeError]. *)
Definition builtin_setattr (args : list pyarg) : M EditWin unit :=
  fun w =>
    match args with
    | [ARef o; AVal (VStr name); AVal v] =>
        match store w !! o with
        | Some ob =>
            (Ret tt,
             set_store (insert o (PyObj (<[name := v]> (attrs ob)) (options_dict ob))) w)
        | None => (Raise AttributeError, w)
        end
    | _ => (Raise TypeError, w)
    end.

(** [d[key]] on a dictionary *)
Definition dict_get {S} (d : gmap string pyval) (key : string) : M S pyval :=
  match d !! key with
  | Some v => ret v
  | None => raise KeyError
  end.


(** *** [OptionsEditWin]: the methods it overrides *)

Module OptionsEditWin.

(** [self.edit_obj.options_dict[key] = v] *)
Definition options_dict_setitem (o : loc) (key : string) (v : pyval) : M EditWin unit :=
  fun w =>
    match store w !! o with
    | Some ob =>
        match options_dict ob with
        | Some d =>
            (Ret tt, set_store (insert o (PyObj (attrs ob) (Some (<[key := v]> d)))) w)
        | None => (Raise AttributeError, w)
        end
    | None => (Raise AttributeError, w)
    end.

(** [self.edit_obj.options_dict] *)
Definition get_options_dict (o : loc) : M EditWin (gmap string pyval) :=
  fun w =>
    match store w !! o with
    | Some ob =>
        match options_dict ob with
        | Some d => (Ret d, w)
        | None => (Raise AttributeError, w)
        end
    | None => (Raise AttributeError, w)
    end.

(** [for key in self.edit_dict.keys():
         self.edit_obj.options_dict[key] = self.edit_dict[key]
     self.edit_dict = {}] *)
Definition apply_changes : M EditWin unit :=
  let! w := get in
  do! for_each (map_to_list (edit_dict w)).*1 (fun key =>
        let! w' := get in
        let! v := dict_get (edit_dict w') key in
        options_dict_setitem (edit_obj w') key v) in
  modify (set_edit_dict (fun _ => ∅)).

(** The message of system error 404. *)
Definition unrecognised (name : string) : string :=
  "Unrecognised property name '" +:+ name +:+ "'".

(** [self.app_obj.system_error(code, msg)]: the call is recorded and its
    result handed back. *)
Definition call_system_error (code : Z) (msg : string) : M EditWin pyval :=
  fun w =>
    (Ret (system_error (app_obj w) code msg),
     set_system_error_calls (fun l => l ++ [(code, msg)]) w).

(** [if name in self.edit_dict: return self.edit_dict[name]
     elif name in self.edit_obj.options_dict:
         return self.edit_obj.options_dict[name]
     else: return self.app_obj.system_error(404, ...)] *)
Definition retrieve_val (name : string) : M EditWin pyval :=
  let! w := get in
  match edit_dict w !! name with
  | Some _ => dict_get (edit_dict w) name
  | None =>
      let! d := get_options_dict (edit_obj w) in
      match d !! name with
      | Some _ => dict_get d name
      | None => call_system_error 404 (unrecognised name)
      end
  end.

(** **** The Formats tab

    The widgets [setup_formats_tab] creates and hands to the four button
    handlers: the list of available formats on the left, the preference
    list on the right, the four buttons and the label above the left
    list. *)
Record FormatsTab := MkFormatsTab {
  liststore : list string;
  liststore2 : list string;
  add_button : bool;
  remove_button : bool;
  up_button : bool;
  down_button : bool;
  label : string
}.

Definition video_only_text : string := "Available video formats".
Definition video_audio_text : string := "Available video/audio formats".

Definition on_window {A} (c : M EditWin A) : M (EditWin * FormatsTab) A :=
  fun s => let (r, w) := c s.1 in (r, (w, s.2)).
Definition on_tab (f : FormatsTab -> FormatsTab) : M (EditWin * FormatsTab) unit :=
  modify (fun s => (s.1, f s.2)).

Definition set_liststore (l : list string) (t : FormatsTab) : FormatsTab :=
  MkFormatsTab l (liststore2 t) (add_button t) (remove_button t) (up_button t)
    (down_button t) (label t).
Definition set_liststore2 (f : list string -> list string) (t : FormatsTab)
    : FormatsTab :=
  MkFormatsTab (liststore t) (f (liststore2 t)) (add_button t) (remove_button t)
    (up_button t) (down_button t) (label t).
Definition set_add_sensitive (b : bool) (t : FormatsTab) : FormatsTab :=
  MkFormatsTab (liststore t) (liststore2 t) b (remove_button t) (up_button t)
    (down_button t) (label t).
Definition set_others_sensitive (b : bool) (t : FormatsTab) : FormatsTab :=
  MkFormatsTab (liststore t) (liststore2 t) (add_button t) b b b (label t).
Definition set_label (s : string) (t : FormatsTab) : FormatsTab :=
  MkFormatsTab (liststore t) (liststore2 t) (add_button t) (remove_button t)
    (up_button t) (down_button t) s.

(** [model.get_iter(path)] for an integer path: a path that is not a row of
    the model is refused. *)
Definition get_iter (model : list string) (path : Z) : result nat :=
  if path <? 0 then Raise TypeError
  else if path <? Z.of_nat (length model) then Ret (Z.to_nat path)
  else Raise ValueError.

(** Rows [i] and [i + 1] change places. *)
Definition swap_rows (i : nat) (model : list string) : list string :=
  match model !! i, model !! S i with
  | Some a, Some b => <[i := b]> (<[S i := a]> model)
  | _, _ => model
  end.

Section Formats.

(** The tables of the [formats] module, which is not part of [config.py]:
    the extractor code of every format name, and the two lists of names
    shown on the left. *)
Variable VIDEO_OPTION_DICT : gmap string string.
Variable VIDEO_OPTION_LIST : list string.
Variable VIDEO_ONLY_OPTION_LIST : list string.

(** [name = model[iter][0]; extract_code = formats.VIDEO_OPTION_DICT[name]] *)
Definition selected_code (model : list string) (row : nat)
    : M (EditWin * FormatsTab) (string * string) :=
  match model !! row with
  | None => raise ValueError
  | Some name =>
      match VIDEO_OPTION_DICT !! name with
      | Some extract_code => ret (name, extract_code)
      | None => raise KeyError
      end
  end.

(** [selected] is the row [treeview.get_selection()] reports, if any. *)
Definition on_formats_tab_add_clicked (selected : option nat)
    : M (EditWin * FormatsTab) unit :=
  match selected with
  | None => ret tt
  | Some row =>
      let! s := get in
      let! sel := selected_code (liststore s.2) row in
      let (name, extract_code) := sel : string * string in
      let! val1 := on_window (retrieve_val "video_format") in
      let! val2 := on_window (retrieve_val "second_video_format") in
      let! val3 := on_window (retrieve_val "third_video_format") in
      if str_eq extract_code val1 || str_eq extract_code val2
         || str_eq extract_code val3
      then ret tt
      else
        let rest :=
          do! on_tab (set_liststore2 (fun l => l ++ [name])) in
          do! on_tab (set_others_sensitive true) in
          do! on_tab (set_label video_audio_text) in
          let! second := on_window (retrieve_val "second_video_format") in
          if str_eq "0" second
          then on_tab (set_liststore VIDEO_OPTION_LIST)
          else ret tt in
        if str_eq "0" val1 then
          do! on_window (stage "video_format" (VStr extract_code)) in rest
        else if str_eq "0" val2 then
          do! on_window (stage "second_video_format" (VStr extract_code)) in rest
        else if str_eq "0" val3 then
          do! on_window (stage "third_video_format" (VStr extract_code)) in
          do! on_tab (set_add_sensitive false) in rest
        else ret tt
  end.

(** [selected] is the first of [selection.get_selected_rows()], if any. *)
Definition on_formats_tab_down_clicked (selected : option nat)
    : M (EditWin * FormatsTab) unit :=
  match selected with
  | None => ret tt
  | Some row =>
      let! s := get in
      let! sel := selected_code (liststore2 s.2) row in
      let extract_code := sel.2 in
      let! val1 := on_window (retrieve_val "video_format") in
      let! val2 := on_window (retrieve_val "second_video_format") in
      let! val3 := on_window (retrieve_val "third_video_format") in
      let move :=
        let! s' := get in
        let model := liststore2 s'.2 in
        match get_iter model (Z.of_nat row), get_iter model (Z.of_nat row + 1) with
        | Ret this, Ret _ => on_tab (set_liststore2 (swap_rows this))
        | Raise e, _ => raise e
        | _, Raise e => raise e
        end in
      if str_eq extract_code val3 then ret tt
      else if str_eq extract_code val2 then
        do! on_window (stage "second_video_format" val3) in
        do! on_window (stage "third_video_format" val2) in move
      else if str_eq extract_code val1 then
        do! on_window (stage "video_format" val2) in
        do! on_window (stage "second_video_format" val1) in move
      else ret tt
  end.

Definition on_formats_tab_remove_clicked (selected : option nat)
    : M (EditWin * FormatsTab) unit :=
  match selected with
  | None => ret tt
  | Some row =>
      let! s := get in
      let! sel := selected_code (liststore2 s.2) row in
      let extract_code := sel.2 in
      let! val1 := on_window (retrieve_val "video_format") in
      let! val2 := on_window (retrieve_val "second_video_format") in
      let! val3 := on_window (retrieve_val "third_video_format") in
      let rest :=
        do! on_tab (set_liststore2 (delete row)) in
        do! on_tab (set_add_sensitive true) in
        let! first := on_window (retrieve_val "video_format") in
        if str_eq "0" first then
          do! on_tab (set_others_sensitive false) in
          do! on_tab (set_label video_only_text) in
          on_tab (set_liststore VIDEO_ONLY_OPTION_LIST)
        else ret tt in
      if str_eq extract_code val1 then
        do! on_window (stage "video_format" val2) in
        do! on_window (stage "second_video_format" val3) in
        do! on_window (stage "third_video_format" (VStr "0")) in rest
      else if str_eq extract_code val2 then
        do! on_window (stage "second_video_format" val3) in
        do! on_window (stage "third_video_format" (VStr "0")) in rest
      else if str_eq extract_code val3 then
        do! on_window (stage "third_video_format" (VStr "0")) in rest
      else ret tt
  end.

Definition on_formats_tab_up_clicked (selected : option nat)
    : M (EditWin * FormatsTab) unit :=
  match selected with
  | None => ret tt
  | Some row =>
      let! s := get in
      let! sel := selected_code (liststore2 s.2) row in
      let extract_code := sel.2 in
      let! val1 := on_window (retrieve_val "video_format") in
      let! val2 := on_window (retrieve_val "second_video_format") in
      let! val3 := on_window (retrieve_val "third_video_format") in
      let move :=
        let! s' := get in
        let model := liststore2 s'.2 in
        match get_iter model (Z.of_nat row), get_iter model (Z.of_nat row - 1) with
        | Ret _, Ret prev => on_tab (set_liststore2 (swap_rows prev))
        | Raise e, _ => raise e
        | _, Raise e => raise e
        end in
      if str_eq extract_code val1 then ret tt
      else if str_eq extract_code val2 then
        do! on_window (stage "video_format" val2) in
        do! on_window (stage "second_video_format" val1) in move
      else if str_eq extract_code val3 then
        do! on_window (stage "second_video_format" val3) in
        do! on_window (stage "third_video_format" val2) in move
      else ret tt
  end.

End Formats.

(** The three format slots as [retrieve_val] shows them. *)
Definition slots (w : EditWin) : result pyval * result pyval * result pyval :=
  ((retrieve_val "video_format" w).1,
   (retrieve_val "second_video_format" w).1,
   (retrieve_val "third_video_format" w).1).

(** Packed left to right: a slot holding ['0'] is followed by slots holding
    ['0'] only. *)
Definition packed (v1 v2 v3 : pyval) : bool :=
  (if str_eq "0" v1 then str_eq "0" v2 && str_eq "0" v3 else true)
  && (if str_eq "0" v2 then str_eq "0" v3 else true).

Definition packed_slots (w : EditWin) : bool :=
  match slots w with
  | (Ret v1, Ret v2, Ret v3) => packed v1 v2 v3
  | _ => false
  end.

End OptionsEditWin.

(** *** [GenericEditWin] *)

Module GenericEditWin.

(** [for key in self.edit_dict.keys():
         setattr(self.edit_obj, self.edit_dict[key])
     self.edit_dict = {}] *)
Definition apply_changes : M EditWin unit :=
  let! w := get in
  do! for_each (map_to_list (edit_dict w)).*1 (fun key =>
        let! w' := get in
        let! v := dict_get (edit_dict w') key in
        builtin_setattr [ARef (edit_obj w'); AVal v]) in
  modify (set_edit_dict (fun _ => ∅)).

(** [if name in self.edit_dict: return self.edit_dict[name]
     else: return getattr(self.edit_obj, name)] *)
Definition retrieve_val (name : string) : M EditWin pyval :=
  let! w := get in
  match edit_dict w !! name with
  | Some _ => dict_get (edit_dict w) name
  | None => builtin_getattr (edit_obj w) name
  end.


(** **** Method resolution

    [self.apply_changes()] and [self.retrieve_val()] run the method of the
    window's own class: [OptionsEditWin] overrides both. *)

Definition self_apply_changes : M EditWin unit :=
  let! w := get in
  match win_class w with
  | COptions => OptionsEditWin.apply_changes
  | _ => GenericEditWin.apply_changes
  end.

Definition self_retrieve_val (name : string) : M EditWin pyval :=
  let! w := get in
  match win_class w with
  | COptions => OptionsEditWin.retrieve_val name
  | _ => GenericEditWin.retrieve_val name
  end.

(** [number = self.notebook.get_n_pages()
     if number:
         for count in range(0, number): self.notebook.remove_page(0)] *)
Definition remove_all_pages : M EditWin unit :=
  let! w := get in
  let number := length (notebook w) in
  if (0 <? number)%nat
  then for_each (seq 0 number) (fun _ => modify (set_notebook (drop 1)))
  else ret tt.

Definition show_all : M EditWin unit := modify (set_shown true).
Definition destroy : M EditWin unit := modify (set_destroyed true).

(** **** Python's [str.split()] and name lookup

    A [str] is held as the bytes of its UTF-8 encoding.  White space is
    what [str.isspace()] accepts: U+0009 to U+000D, U+001C to U+0020,
    U+0085, U+00A0, U+1680, U+2000 to U+200A, U+2028, U+2029, U+202F,
    U+205F and U+3000. *)

(** The white space of one byte. *)
Definition is_space (c : ascii) : bool :=
  let n := nat_of_ascii c in
  ((9 <=? n) && (n <=? 13) || (28 <=? n) && (n <=? 32))%nat.

(** U+0085 and U+00A0: [C2 85] and [C2 A0]. *)
Definition is_space2 (a b : ascii) : bool :=
  let x := nat_of_ascii a in
  let y := nat_of_ascii b in
  ((x =? 194) && ((y =? 133) || (y =? 160)))%nat.

(** U+1680 is [E1 9A 80]; U+2000 to U+200A, U+2028, U+2029 and U+202F are
    [E2 80 80] to [E2 80 8A], [E2 80 A8], [E2 80 A9] and [E2 80 AF];
    U+205F is [E2 81 9F]; U+3000 is [E3 80 80]. *)
Definition is_space3 (a b c : ascii) : bool :=
  let x := nat_of_ascii a in
  let y := nat_of_ascii b in
  let z := nat_of_ascii c in
  ((x =? 225) && (y =? 154) && (z =? 128)
   || (x =? 226) && (y =? 128)
      && ((128 <=? z) && (z <=? 138) || (z =? 168) || (z =? 169) || (z =? 175))
   || (x =? 226) && (y =? 129) && (z =? 159)
   || (x =? 227) && (y =? 128) && (z =? 128))%nat.

(** The number of bytes of the white-space character [s] begins with; 0
    when it begins with none. *)
Definition space_width (s : string) : nat :=
  match s with
  | String a s1 =>
      if is_space a then 1%nat
      else
        match s1 with
        | String b s2 =>
            if is_space2 a b then 2%nat
            else
              match s2 with
              | String c _ => if is_space3 a b c then 3%nat else 0%nat
              | EmptyString => 0%nat
              end
        | EmptyString => 0%nat
        end
  | EmptyString => 0%nat
  end.

(** [skip] counts the bytes still to pass of a white-space character;
    [word] is the word read so far. *)
Fixpoint split_from (s : string) (skip : nat) (word : string) : list string :=
  match s with
  | EmptyString => if String.eqb word "" then [] else [word]
  | String c s' =>
      match skip with
      | S k => split_from s' k word
      | O =>
          match space_width s with
          | O => split_from s' 0 (word +:+ String c "")
          | S k =>
              if String.eqb word "" then split_from s' k ""
              else word :: split_from s' k ""
          end
      end
  end.

(** [text.split()]: the words between runs of white space. *)
Definition py_split (text : string) : list string := split_from text 0 "".

(** The names bound at module level of [config.py]: its imports and its
    classes. *)
Definition module_globals : list string :=
  ["gi"; "Gtk"; "GObject"; "GdkPixbuf"; "os"; "__main__"; "formats";
   "mainapp"; "mainwin"; "media"; "utils"; "GenericConfigWin";
   "GenericEditWin"; "GenericPrefWin"; "OptionsEditWin"; "VideoEditWin";
   "ChannelPlaylistEditWin"; "FolderEditWin"; "SystemPrefWin"].

(** What a name can be bound to in a callback. *)
Inductive binding : Type :=
  | BSelf
  | BToggle (b : ToggleButton)
  | BValue (v : pyval)
  | BModule.

(** Loading a name: the function's locals first, then the module's
    globals; a name bound in neither (and not a built-in) is a
    [NameError]. *)
Definition load_name (locals : list (string * binding)) (name : string)
    : result binding :=
  match list_find (fun p => p.1 = name) locals with
  | Some (_, (_, b)) => Ret b
  | None =>
      if bool_decide (name ∈ module_globals) then Ret BModule
      else Raise NameError
  end.

(** **** Buttons *)

Definition on_button_cancel_clicked : M EditWin unit := destroy.

(** [self.apply_changes(); self.destroy()] *)
Definition on_button_ok_clicked : M EditWin unit :=
  do! self_apply_changes in
  destroy.

Section Tabs.

(** [self.setup_tabs()], the tab builders of the window's class.  They fill
    the notebook with some two thousand lines of widget construction, read
    the edited object directly and through [retrieve_val], read and change
    lists of the module [formats], and use [media] and [mainapp], none of
    which is part of [config.py]; they can raise (the Files tab reads
    [options_dict['output_format']]).  They are not followed: the builders
    are any computation on the window, returning or raising. *)
Variable setup_tabs : M EditWin unit.

(** [self.edit_obj = new_edit_obj], then as [on_button_reset_clicked]. *)
Definition reset_with_new_edit_obj (new_edit_obj : loc) : M EditWin unit :=
  do! modify (set_edit_obj new_edit_obj) in
  do! remove_all_pages in
  do! modify (set_edit_dict (fun _ => ∅)) in
  do! setup_tabs in
  show_all.


End Tabs.

(** **** Widget-change callbacks *)

Definition on_checkbutton_toggled (checkbutton : ToggleButton) (prop : string)
    : M EditWin unit :=
  if negb (get_active checkbutton)
  then stage prop (VBool false)
  else stage prop (VBool true).

(** [self.edit_dict[prop] = model[tree_iter][0]] *)
Definition on_combo_changed (combo : ComboBox) (prop : string) : M EditWin unit :=
  match model_cell combo 0 with
  | Ret v => stage prop v
  | Raise e => raise e
  end.

(** [self.edit_dict[prop] = model[tree_iter][1]] *)
Definition on_combo_with_data_changed (combo : ComboBox) (prop : string)
    : M EditWin unit :=
  match model_cell combo 1 with
  | Ret v => stage prop v
  | Raise e => raise e
  end.

Definition on_entry_changed (entry : Entry) (prop : string) : M EditWin unit :=
  stage prop (VStr (get_text entry)).

(** The parameters are [self, checkbutton, prop, value]; the body reads the
    name [radiobutton]. *)
Definition on_radiobutton_toggled (checkbutton : ToggleButton) (prop : string)
    (value : pyval) : M EditWin unit :=
  let locals :=
    [("self", BSelf); ("checkbutton", BToggle checkbutton);
     ("prop", BValue (VStr prop)); ("value", BValue value)] in
  match load_name locals "radiobutton" with
  | Raise e => raise e
  | Ret (BToggle radiobutton) =>
      if get_active radiobutton then stage prop value else ret tt
  | Ret _ => raise AttributeError
  end.

Definition on_spinbutton_changed (spinbutton : SpinButton) (prop : string)
    : M EditWin unit :=
  stage prop (VInt (int_of_float (get_value spinbutton))).

Definition on_textview_changed (textbuffer : TextBuffer) (prop : string)
    : M EditWin unit :=
  let text := buffer_text textbuffer in
  let! old_value := self_retrieve_val prop in
  match old_value with
  | VList _ => stage prop (VList (py_split text))
  | VTuple _ => stage prop (VList (py_split text))
  | _ => stage prop (VStr text)
  end.

End GenericEditWin.

(** ** Sequences of widget changes

    The widget-change callbacks an edit window connects, each with the
    widget as the toolkit hands it over. *)
Inductive change_event : Type :=
  | CheckbuttonToggled (checkbutton : ToggleButton) (prop : string)
  | ComboChanged (combo : ComboBox) (prop : string)
  | ComboWithDataChanged (combo : ComboBox) (prop : string)
  | EntryChanged (entry : Entry) (prop : string)
  | RadiobuttonToggled (radiobutton : ToggleButton) (prop : string) (value : pyval)
  | SpinbuttonChanged (spinbutton : SpinButton) (prop : string)
  | TextviewChanged (textbuffer : TextBuffer) (prop : string).

Definition callback (e : change_event) : M EditWin unit :=
  match e with
  | CheckbuttonToggled b p => GenericEditWin.on_checkbutton_toggled b p
  | ComboChanged c p => GenericEditWin.on_combo_changed c p
  | ComboWithDataChanged c p => GenericEditWin.on_combo_with_data_changed c p
  | EntryChanged t p => GenericEditWin.on_entry_changed t p
  | RadiobuttonToggled b p v => GenericEditWin.on_radiobutton_toggled b p v
  | SpinbuttonChanged s p => GenericEditWin.on_spinbutton_changed s p
  | TextviewChanged t p => GenericEditWin.on_textview_changed t p
  end.

(** The main loop runs one handler after the other; a handler that raises
    is reported and the loop goes on with the window as the handler left
    it. *)
Definition run_callbacks (events : list change_event) (w : EditWin) : EditWin :=
  fold_left (fun w e => (callback e w).2) events w.

(** ** Preference windows *)

(** A preference window and the application object it acts on.  The
    window has no pending-changes mapping: [SystemPrefWin.__init__] sets
    none.  [app_attrs] are the attributes of [self.app_obj];
    [main_win_widgets] is the state of the widgets of
    [self.app_obj.main_win_obj] (a check button's [get_active()], a spin
    button's [get_value()]); [main_win_calls] records the methods called
    on the main window; [spinbutton] and [spinbutton2] are the values of
    [self.spinbutton] and [self.spinbutton2]. *)
Record PrefWin := MkPrefWin {
  app_attrs : gmap string pyval;
  main_win_widgets : gmap string pyval;
  main_win_calls : list (string * list pyval);
  spinbutton : Q;
  spinbutton2 : Q;
  pref_destroyed : bool
}.

Definition set_app_attrs (f : gmap string pyval -> gmap string pyval)
    (p : PrefWin) : PrefWin :=
  MkPrefWin (f (app_attrs p)) (main_win_widgets p) (main_win_calls p)
    (spinbutton p) (spinbutton2 p) (pref_destroyed p).
Definition set_main_win_widgets (f : gmap string pyval -> gmap string pyval)
    (p : PrefWin) : PrefWin :=
  MkPrefWin (app_attrs p) (f (main_win_widgets p)) (main_win_calls p)
    (spinbutton p) (spinbutton2 p) (pref_destroyed p).
Definition set_main_win_calls
    (f : list (string * list pyval) -> list (string * list pyval))
    (p : PrefWin) : PrefWin :=
  MkPrefWin (app_attrs p) (main_win_widgets p) (f (main_win_calls p))
    (spinbutton p) (spinbutton2 p) (pref_destroyed p).
Definition set_spinbutton (q : Q) (p : PrefWin) : PrefWin :=
  MkPrefWin (app_attrs p) (main_win_widgets p) (main_win_calls p)
    q (spinbutton2 p) (pref_destroyed p).
Definition set_spinbutton2 (q : Q) (p : PrefWin) : PrefWin :=
  MkPrefWin (app_attrs p) (main_win_widgets p) (main_win_calls p)
    (spinbutton p) q (pref_destroyed p).
Definition set_pref_destroyed (b : bool) (p : PrefWin) : PrefWin :=
  MkPrefWin (app_attrs p) (main_win_widgets p) (main_win_calls p)
    (spinbutton p) (spinbutton2 p) b.

(** What a handler of the preference window meets outside [config.py]:
    Python's [str.isdigit()] on a text with a character outside ASCII,
    which depends on the interpreter's Unicode tables; [int(text)] on a text
    that is not a run of at most 4300 ASCII digits (beyond that length
    recent interpreters raise [ValueError]); the ranges of the spin buttons
    of the main window, which [mainwin] sets; and the handlers the main
    window connected to its own check buttons and spin buttons, also of
    [mainwin].  Of such a handler the docstrings of [config.py] say that it
    "sets the IV": it is taken to return, and to act on the attributes of
    the application object only, which it maps to new ones given the widget
    and its new state.  A theorem holds for whatever these four are. *)
Record Outside := MkOutside {
  isdigit_unicode : string -> bool;
  int_other : string -> result Z;
  main_win_clamp : string -> Q -> Q;
  main_win_handler : string -> pyval -> gmap string pyval -> gmap string pyval
}.

(** [CLAMP (value, lower, upper)] of [Gtk.SpinButton.set_value]. *)
Definition clamp (lower upper value : Q) : Q :=
  if Qle_bool value lower then lower
  else if Qle_bool upper value then upper
  else value.

Module GenericPrefWin.

(** [GenericConfigWin.close], which [GenericConfigWin.setup] connects to the
    window's [destroy] signal:
    [self.app_obj.main_win_obj.del_child_window(self)].  (The argument, the
    window itself, is not kept.) *)
Definition close : M PrefWin unit :=
  modify (set_main_win_calls (fun l => l ++ [("del_child_window", [])])).

(** [self.destroy()], on which the [destroy] handler runs. *)
Definition on_button_ok_clicked : M PrefWin unit :=
  do! modify (set_pref_destroyed true) in
  close.

End GenericPrefWin.

Module SystemPrefWin.

(** [self.app_obj.<attr>] *)
Definition app_get (attr : string) : M PrefWin pyval :=
  fun p =>
    match app_attrs p !! attr with
    | Some v => (Ret v, p)
    | None => (Raise AttributeError, p)
    end.

(** Modelled from the spec: the setters [set_<attr>(value)] of
    [mainapp.TartubeApp], a class that is not part of [config.py].  A
    preference window is "a dialog where changes are applied immediately to
    global application state": the call assigns the attribute. *)
Definition app_set (attr : string) (value : pyval) : M PrefWin unit :=
  modify (set_app_attrs (insert attr value)).

(** [self.app_obj.main_win_obj.<widget>.get_active()] or [.get_value()] *)
Definition main_win_get (widget : string) : M PrefWin pyval :=
  fun p =>
    match main_win_widgets p !! widget with
    | Some v => (Ret v, p)
    | None => (Raise AttributeError, p)
    end.

(** A number as the float a spin button holds. *)
Definition as_float (v : pyval) : option Q :=
  match v with
  | VInt n => Some (inject_Z n)
  | VFloat q => Some q
  | VBool b => Some (inject_Z (if b then 1 else 0))
  | _ => None
  end.

(** [self.app_obj.main_win_obj.<method>(args)] *)
Definition main_win_call (method : string) (args : list pyval) : M PrefWin unit :=
  modify (set_main_win_calls (fun l => l ++ [(method, args)])).

(** The decimal digits of ASCII. *)
Definition is_digit (c : ascii) : bool :=
  let n := nat_of_ascii c in ((48 <=? n) && (n <=? 57))%nat.

Fixpoint all_digits (s : string) : bool :=
  match s with
  | EmptyString => true
  | String c s' => is_digit c && all_digits s'
  end.

(** Not empty, and ASCII decimal digits only. *)
Definition ascii_digits (text : string) : bool :=
  negb (String.eqb text "") && all_digits text.

(** Every byte is below 128: the text is in ASCII. *)
Fixpoint is_ascii (s : string) : bool :=
  match s with
  | EmptyString => true
  | String c s' => (nat_of_ascii c <? 128)%nat && is_ascii s'
  end.

Fixpoint int_from (s : string) (acc : Z) : Z :=
  match s with
  | EmptyString => acc
  | String c s' => int_from s' (10 * acc + (Z.of_nat (nat_of_ascii c) - 48))
  end.

Section Handlers.

Variable outside : Outside.

(** [self.app_obj.main_win_obj.<widget>.set_active(flag)]: the check button
    takes the state and, when that changes it, the main window's handler
    runs. *)
Definition main_win_set_active (widget : string) (flag : bool)
    : M PrefWin unit :=
  let! old := main_win_get widget in
  do! modify (set_main_win_widgets (insert widget (VBool flag))) in
  if Bool.eqb (truthy old) flag then ret tt
  else modify (set_app_attrs (main_win_handler outside widget (VBool flag))).

(** [self.app_obj.main_win_obj.<widget>.set_value(value)]: the spin button
    takes the value, kept within its range, and, when that changes it, the
    main window's handler runs. *)
Definition main_win_set_value (widget : string) (value : Q)
    : M PrefWin unit :=
  let! old := main_win_get widget in
  let new := main_win_clamp outside widget value in
  do! modify (set_main_win_widgets (insert widget (VFloat new))) in
  match as_float old with
  | Some q =>
      if Qeq_bool q new then ret tt
      else modify (set_app_attrs (main_win_handler outside widget (VFloat new)))
  | None => modify (set_app_attrs (main_win_handler outside widget (VFloat new)))
  end.

(** [text.isdigit()]: for a text in ASCII, not empty and decimal digits
    only. *)
Definition isdigit (text : string) : bool :=
  if is_ascii text then ascii_digits text else isdigit_unicode outside text.

(** [int(text)]: the number a run of ASCII digits writes. *)
Definition py_int (text : string) : result Z :=
  if ascii_digits text && (String.length text <=? 4300)%nat
  then Ret (int_from text 0)
  else int_other outside text.

(** The check buttons that switch a flag of the application object. *)
Inductive flag_callback : Type :=
  | on_archive_button_toggled
  | on_auto_clone_button_toggled
  | on_auto_delete_button_toggled
  | on_auto_update_button_toggled
  | on_complex_button_toggled
  | on_child_process_button_toggled
  | on_clipboard_button_toggled
  | on_close_to_tray_toggled
  | on_copyright_button_toggled
  | on_delete_shutdown_button_toggled
  | on_delete_watched_button_toggled
  | on_disable_dl_all_toggled
  | on_disk_stop_button_toggled
  | on_disk_warn_button_toggled
  | on_expand_tree_toggled
  | on_json_button_toggled
  | on_keep_open_button_toggled
  | on_limit_button_toggled
  | on_merge_button_toggled
  | on_moviepy_button_toggled
  | on_no_annotations_button_toggled
  | on_no_subtitles_button_toggled
  | on_output_empty_button_toggled
  | on_output_summary_button_toggled
  | on_output_stderr_button_toggled
  | on_output_stdout_button_toggled
  | on_output_json_button_toggled
  | on_output_progress_button_toggled
  | on_output_system_button_toggled
  | on_refresh_videos_button_toggled
  | on_refresh_verbose_button_toggled
  | on_reverse_button_toggled
  | on_save_button_toggled
  | on_scheduled_stop_button_toggled
  | on_show_small_icons_toggled
  | on_show_status_icon_toggled
  | on_show_tooltips_toggled
  | on_squeeze_button_toggled
  | on_system_keep_button_toggled
  | on_terminal_stderr_button_toggled
  | on_terminal_stdout_button_toggled
  | on_terminal_json_button_toggled
  | on_terminal_progress_button_toggled
  | on_terminal_system_button_toggled
  | on_verbose_button_toggled.

(** The flag a check button's handler reads and sets: [self.app_obj.<flag>] and [self.app_obj.set_<flag>()]. *)
Definition flag_attr (cb : flag_callback) : string :=
  match cb with
  | on_archive_button_toggled => "allow_ytdl_archive_flag"
  | on_auto_clone_button_toggled => "auto_clone_options_flag"
  | on_auto_delete_button_toggled => "auto_delete_flag"
  | on_auto_update_button_toggled => "operation_auto_update_flag"
  | on_complex_button_toggled => "complex_index_flag"
  | on_child_process_button_toggled => "ignore_child_process_exit_flag"
  | on_clipboard_button_toggled => "dialogue_copy_clipboard_flag"
  | on_close_to_tray_toggled => "close_to_tray_flag"
  | on_copyright_button_toggled => "ignore_yt_copyright_flag"
  | on_delete_shutdown_button_toggled => "delete_on_shutdown_flag"
  | on_delete_watched_button_toggled => "auto_delete_watched_flag"
  | on_disable_dl_all_toggled => "disable_dl_all_flag"
  | on_disk_stop_button_toggled => "disk_space_stop_flag"
  | on_disk_warn_button_toggled => "disk_space_warn_flag"
  | on_expand_tree_toggled => "auto_expand_video_index_flag"
  | on_json_button_toggled => "apply_json_timeout_flag"
  | on_keep_open_button_toggled => "dialogue_keep_open_flag"
  | on_limit_button_toggled => "operation_limit_flag"
  | on_merge_button_toggled => "ignore_merge_warning_flag"
  | on_moviepy_button_toggled => "use_module_moviepy_flag"
  | on_no_annotations_button_toggled => "ignore_no_annotations_flag"
  | on_no_subtitles_button_toggled => "ignore_no_subtitles_flag"
  | on_output_empty_button_toggled => "ytdl_output_start_empty_flag"
  | on_output_summary_button_toggled => "ytdl_output_show_summary_flag"
  | on_output_stderr_button_toggled => "ytdl_output_stderr_flag"
  | on_output_stdout_button_toggled => "ytdl_output_stdout_flag"
  | on_output_json_button_toggled => "ytdl_output_ignore_json_flag"
  | on_output_progress_button_toggled => "ytdl_output_ignore_progress_flag"
  | on_output_system_button_toggled => "ytdl_output_system_cmd_flag"
  | on_refresh_videos_button_toggled => "refresh_output_videos_flag"
  | on_refresh_verbose_button_toggled => "refresh_output_verbose_flag"
  | on_reverse_button_toggled => "results_list_reverse_flag"
  | on_save_button_toggled => "operation_save_flag"
  | on_scheduled_stop_button_toggled => "scheduled_stop_flag"
  | on_show_small_icons_toggled => "show_small_icons_in_index"
  | on_show_status_icon_toggled => "show_status_icon_flag"
  | on_show_tooltips_toggled => "show_tooltips_flag"
  | on_squeeze_button_toggled => "toolbar_squeeze_flag"
  | on_system_keep_button_toggled => "system_msg_keep_totals_flag"
  | on_terminal_stderr_button_toggled => "ytdl_write_stderr_flag"
  | on_terminal_stdout_button_toggled => "ytdl_write_stdout_flag"
  | on_terminal_json_button_toggled => "ytdl_write_ignore_json_flag"
  | on_terminal_progress_button_toggled => "ytdl_write_ignore_progress_flag"
  | on_terminal_system_button_toggled => "ytdl_write_system_cmd_flag"
  | on_verbose_button_toggled => "ytdl_write_verbose_flag"
  end.

(** The spin buttons whose handler is [self.app_obj.set_<attr>(spinbutton.get_value())]. *)
Inductive spin_callback : Type :=
  | on_auto_delete_spinbutton_changed
  | on_check_wait_spinbutton_changed
  | on_disk_stop_spinbutton_changed
  | on_disk_warn_spinbutton_changed
  | on_dl_wait_spinbutton_changed
  | on_moviepy_timeout_spinbutton_changed.

(** The attribute a spin button's handler sets. *)
Definition spin_attr (cb : spin_callback) : string :=
  match cb with
  | on_auto_delete_spinbutton_changed => "auto_delete_days"
  | on_check_wait_spinbutton_changed => "scheduled_check_wait_hours"
  | on_disk_stop_spinbutton_changed => "disk_space_stop_limit"
  | on_disk_warn_spinbutton_changed => "disk_space_warn_limit"
  | on_dl_wait_spinbutton_changed => "scheduled_dl_wait_hours"
  | on_moviepy_timeout_spinbutton_changed => "refresh_moviepy_timeout"
  end.

(** The radio buttons whose handler is [if radiobutton.get_active(): self.app_obj.set_<attr>(value)]. *)
Inductive radio_callback : Type :=
  | on_backup_button_toggled
  | on_convert_from_button_toggled
  | on_dialogue_button_toggled.

(** The attribute a radio button's handler sets. *)
Definition radio_attr (cb : radio_callback) : string :=
  match cb with
  | on_backup_button_toggled => "db_backup_mode"
  | on_convert_from_button_toggled => "operation_convert_mode"
  | on_dialogue_button_toggled => "operation_dialogue_mode"
  end.

(** The check buttons that follow a check button of the main window. *)
Inductive mirror_callback : Type :=
  | on_bandwidth_button_toggled
  | on_error_button_toggled
  | on_warning_button_toggled
  | on_worker_button_toggled
  | on_video_res_button_toggled.

(** The main window's check button: [self.app_obj.main_win_obj.<widget>]. *)
Definition mirror_widget (cb : mirror_callback) : string :=
  match cb with
  | on_bandwidth_button_toggled => "bandwidth_checkbutton"
  | on_error_button_toggled => "show_error_checkbutton"
  | on_warning_button_toggled => "show_warning_checkbutton"
  | on_worker_button_toggled => "num_worker_checkbutton"
  | on_video_res_button_toggled => "video_res_checkbutton"
  end.

(** The spin buttons that follow a spin button of the main window. *)
Inductive mirror_spin_callback : Type :=
  | on_bandwidth_spinbutton_changed
  | on_worker_spinbutton_changed.

(** The main window's spin button. *)
Definition mirror_spin_widget (cb : mirror_spin_callback) : string :=
  match cb with
  | on_bandwidth_spinbutton_changed => "bandwidth_spinbutton"
  | on_worker_spinbutton_changed => "num_worker_spinbutton"
  end.

(** The two entries that hold a number of videos. *)
Inductive limit_callback : Type :=
  | on_check_limit_changed
  | on_download_limit_changed.

(** The attribute a limit entry's handler sets. *)
Definition limit_attr (cb : limit_callback) : string :=
  match cb with
  | on_check_limit_changed => "operation_check_limit"
  | on_download_limit_changed => "operation_download_limit"
  end.

(** The combo boxes whose handler is [self.app_obj.set_<attr>(model[tree_iter][col])]. *)
Inductive combo_callback : Type :=
  | on_check_mode_combo_changed
  | on_dl_mode_combo_changed
  | on_update_combo_changed
  | on_ytdl_path_combo_changed.

(** The attribute a combo box's handler sets. *)
Definition combo_attr (cb : combo_callback) : string :=
  match cb with
  | on_check_mode_combo_changed => "scheduled_check_mode"
  | on_dl_mode_combo_changed => "scheduled_dl_mode"
  | on_update_combo_changed => "ytdl_update_current"
  | on_ytdl_path_combo_changed => "ytdl_path"
  end.

(** The column of the model that holds the value. *)
Definition combo_col (cb : combo_callback) : nat :=
  match cb with
  | on_check_mode_combo_changed => 0
  | on_dl_mode_combo_changed => 0
  | on_update_combo_changed => 0
  | on_ytdl_path_combo_changed => 1
  end%nat.

(** **** The handlers, by shape *)

(** [if checkbutton.get_active() and not self.app_obj.<flag>:
         self.app_obj.set_<flag>(True)
     elif not checkbutton.get_active() and self.app_obj.<flag>:
         self.app_obj.set_<flag>(False)]
    Several of these handlers also (de)sensitise widgets of their tab,
    which is not part of the state kept here. *)
Definition toggle_flag (flag : string) (checkbutton : ToggleButton)
    : M PrefWin bool :=
  let! current := app_get flag in
  if get_active checkbutton && negb (truthy current) then
    do! app_set flag (VBool true) in ret true
  else if negb (get_active checkbutton) && truthy current then
    do! app_set flag (VBool false) in ret true
  else ret false.

(** [on_complex_button_toggled] redraws the main window when the flag
    changed. *)
Definition on_flag_toggled (cb : flag_callback) (checkbutton : ToggleButton)
    : M PrefWin unit :=
  let! redraw_flag := toggle_flag (flag_attr cb) checkbutton in
  match cb with
  | on_complex_button_toggled =>
      if redraw_flag then
        do! main_win_call "video_index_reset" [] in
        do! main_win_call "video_catalogue_reset" [] in
        main_win_call "video_index_populate" []
      else ret tt
  | _ => ret tt
  end.

Definition on_spin_changed (cb : spin_callback) (spin : SpinButton)
    : M PrefWin unit :=
  app_set (spin_attr cb) (VFloat (get_value spin)).

Definition on_radio_toggled (cb : radio_callback) (radiobutton : ToggleButton)
    (value : pyval) : M PrefWin unit :=
  if get_active radiobutton then app_set (radio_attr cb) value else ret tt.

(** [other_flag = self.app_obj.main_win_obj.<widget>.get_active()
     if checkbutton.get_active() and not other_flag: <widget>.set_active(True)
     elif not checkbutton.get_active() and other_flag: <widget>.set_active(False)] *)
Definition on_mirror_toggled (cb : mirror_callback) (checkbutton : ToggleButton)
    : M PrefWin unit :=
  let! other_flag := main_win_get (mirror_widget cb) in
  if get_active checkbutton && negb (truthy other_flag) then
    main_win_set_active (mirror_widget cb) true
  else if negb (get_active checkbutton) && truthy other_flag then
    main_win_set_active (mirror_widget cb) false
  else ret tt.

Definition on_mirror_spin_changed (cb : mirror_spin_callback) (spin : SpinButton)
    : M PrefWin unit :=
  main_win_set_value (mirror_spin_widget cb) (get_value spin).

(** [text = entry.get_text()
     if text.isdigit() and int(text) >= 0:
         self.app_obj.set_<attr>(int(text))] *)
Definition on_limit_changed (cb : limit_callback) (entry : Entry)
    : M PrefWin unit :=
  let text := get_text entry in
  if isdigit text then
    match py_int text with
    | Ret n =>
        if 0 <=? n then
          match py_int text with
          | Ret m => app_set (limit_attr cb) (VInt m)
          | Raise e => raise e
          end
        else ret tt
    | Raise e => raise e
    end
  else ret tt.

(** [self.app_obj.set_<attr>(model[tree_iter][col])]; the two scheduling
    combos then (de)sensitise a spin button. *)
Definition on_combo_changed (cb : combo_callback) (combo : ComboBox)
    : M PrefWin unit :=
  match model_cell combo (combo_col cb) with
  | Ret v => app_set (combo_attr cb) v
  | Raise e => raise e
  end.

(** [self.app_obj.main_win_obj.set_video_res(model[tree_iter][0])] *)
Definition on_video_res_combo_changed (combo : ComboBox) : M PrefWin unit :=
  match model_cell combo 0 with
  | Ret v => main_win_call "set_video_res" [v]
  | Raise e => raise e
  end.

(** The two spin buttons of the Videos tab. *)
Inductive match_spin : Type := Spinbutton | Spinbutton2.

(** [if spinbutton == self.spinbutton: self.app_obj.set_match_first_chars(v)
     else: self.app_obj.set_match_ignore_chars(v)] *)
Definition on_match_spinbutton_changed (which : match_spin) (value : Q)
    : M PrefWin unit :=
  match which with
  | Spinbutton => app_set "match_first_chars" (VFloat value)
  | Spinbutton2 => app_set "match_ignore_chars" (VFloat value)
  end.

(** [self.spinbutton.set_value(v)].  Both spin buttons are made with
    [add_spinbutton(grid, 1, 999, 1, ...)]: the button takes the value, kept
    within 1 and 999, and, when that changes it, its [value-changed] handler
    runs. *)
Definition spin_set_value (which : match_spin) (v : pyval) : M PrefWin unit :=
  match as_float v with
  | Some value =>
      let q := clamp (inject_Z 1) (inject_Z 999) value in
      let! p := get in
      let old := match which with
                 | Spinbutton => spinbutton p
                 | Spinbutton2 => spinbutton2 p
                 end in
      if Qeq_bool old q then ret tt
      else
        do! modify (match which with
                    | Spinbutton => set_spinbutton q
                    | Spinbutton2 => set_spinbutton2 q
                    end) in
        on_match_spinbutton_changed which q
  | None => raise TypeError
  end.

(** The three radio buttons of the Videos tab: [self.radiobutton],
    [self.radiobutton2], and the third. *)
Inductive match_radio : Type := Radiobutton | Radiobutton2 | Radiobutton3.

Definition on_match_button_toggled (which : match_radio)
    (radiobutton : ToggleButton) : M PrefWin unit :=
  let! default_val := app_get "match_default_chars" in
  if get_active radiobutton then
    match which with
    | Radiobutton =>
        do! app_set "match_method" (VStr "exact_match") in
        do! spin_set_value Spinbutton default_val in
        spin_set_value Spinbutton2 default_val
    | Radiobutton2 =>
        do! app_set "match_method" (VStr "match_first") in
        spin_set_value Spinbutton2 default_val
    | Radiobutton3 =>
        do! app_set "match_method" (VStr "ignore_last") in
        spin_set_value Spinbutton default_val
    end
  else ret tt.

(** **** Widget changes in the preference window

    Every handler [SystemPrefWin] connects to a [toggled], [changed] or
    [value-changed] signal.  (The three [clicked] handlers,
    [on_data_dir_button_clicked], [on_set_ffmpeg_button_clicked] and
    [on_reset_ffmpeg_button_clicked], open dialogues or reset a path and
    are not widget changes.) *)
Inductive pref_event : Type :=
  | FlagToggled (cb : flag_callback) (checkbutton : ToggleButton)
  | SpinChanged (cb : spin_callback) (spin : SpinButton)
  | RadioToggled (cb : radio_callback) (radiobutton : ToggleButton) (value : pyval)
  | MirrorToggled (cb : mirror_callback) (checkbutton : ToggleButton)
  | MirrorSpinChanged (cb : mirror_spin_callback) (spin : SpinButton)
  | LimitChanged (cb : limit_callback) (entry : Entry)
  | ComboChanged (cb : combo_callback) (combo : ComboBox)
  | VideoResComboChanged (combo : ComboBox)
  | MatchButtonToggled (which : match_radio) (radiobutton : ToggleButton)
  | MatchSpinChanged (which : match_spin) (spin : SpinButton).

Definition pref_callback (e : pref_event) : M PrefWin unit :=
  match e with
  | FlagToggled cb b => on_flag_toggled cb b
  | SpinChanged cb s => on_spin_changed cb s
  | RadioToggled cb b v => on_radio_toggled cb b v
  | MirrorToggled cb b => on_mirror_toggled cb b
  | MirrorSpinChanged cb s => on_mirror_spin_changed cb s
  | LimitChanged cb t => on_limit_changed cb t
  | ComboChanged cb c => on_combo_changed cb c
  | VideoResComboChanged c => on_video_res_combo_changed c
  | MatchButtonToggled which b => on_match_button_toggled which b
  | MatchSpinChanged which s => on_match_spinbutton_changed which (get_value s)
  end.

End Handlers.

End SystemPrefWin.

(** ** Further methods of the edit windows *)

(** A method of the window run on a state that also holds a widget. *)
Definition on_fst {T A} (c : M EditWin A) : M (EditWin * T) A :=
  fun s => let (r, w) := c s.1 in (r, (w, s.2)).
Definition on_snd {T} (f : T -> T) : M (EditWin * T) unit :=
  modify (fun s => (s.1, f s.2)).

Definition set_app_obj (a : TartubeApp) (w : EditWin) : EditWin :=
  MkEditWin (win_class w) (store w) a (system_error_calls w)
    (edit_obj w) (edit_dict w) (notebook w) (shown w) (destroyed w).

(** [str(n)] for a natural number: its decimal digits. *)
Definition digit_char (d : nat) : ascii := ascii_of_nat (48 + d).

Fixpoint str_nat_fuel (fuel n : nat) (acc : string) : string :=
  match fuel with
  | O => acc
  | S fuel' =>
      let acc' := String (digit_char (n mod 10)) acc in
      if (n <? 10)%nat then acc' else str_nat_fuel fuel' (n / 10) acc'
  end.

Definition str_nat (n : nat) : string := str_nat_fuel (S n) n "".

(** [s.zfill(width)] for a string without sign. *)
Definition zfill (width : nat) (s : string) : string :=
  String.concat "" (replicate (width - String.length s) "0") +:+ s.

(** [str.join('\n', l)] *)
Definition join_lines (l : list string) : string :=
  String.concat (String (ascii_of_nat 10) "") l.

(** An entry and the property [add_entry] connected it to, if any. *)
Record EntryBox := MkEntryBox {
  entry_text : string;
  entry_prop : option string
}.

(** [entry.set_text(text)] on an entry made by [add_entry]: a text that
    differs from the entry's replaces it, and the entry's [changed] handler,
    [on_entry_changed], runs. *)
Definition entry_set_text (text : string) : M (EditWin * EntryBox) unit :=
  let! s := get in
  if String.eqb (entry_text s.2) text then ret tt
  else
    do! on_snd (fun e => MkEntryBox text (entry_prop e)) in
    match entry_prop s.2 with
    | Some prop => on_fst (GenericEditWin.on_entry_changed {| get_text := text |} prop)
    | None => ret tt
    end.

Module EditWidgets.

(** [combo_list.index(val)] for a list of strings: the first position that
    holds [val]. *)
Fixpoint list_index (l : list string) (val : pyval) : option nat :=
  match l with
  | [] => None
  | x :: l' => if str_eq x val then Some 0%nat else S <$> list_index l' val
  end.

(** [GenericEditWin.add_combo]: the combo box it returns.  With a property,
    the active row is the one that shows the property's value. *)
Definition add_combo (combo_list : list string) (prop : option string)
    : M EditWin ComboBox :=
  let store := (fun s => [VStr s]) <$> combo_list in
  match prop with
  | None => ret {| get_model := store; get_active_iter := None |}
  | Some p =>
      let! val := GenericEditWin.self_retrieve_val p in
      match list_index combo_list val with
      | Some index => ret {| get_model := store; get_active_iter := Some index |}
      | None => raise ValueError
      end
  end.

(** [GenericEditWin.add_combo_with_data]: [combo_list] pairs what is shown
    with the value it stands for. *)
Definition add_combo_with_data (combo_list : list (string * string))
    (prop : option string) : M EditWin ComboBox :=
  let store := (fun m => [VStr m.1; VStr m.2]) <$> combo_list in
  let index_list := snd <$> combo_list in
  match prop with
  | None => ret {| get_model := store; get_active_iter := None |}
  | Some p =>
      let! val := GenericEditWin.self_retrieve_val p in
      match list_index index_list val with
      | Some index => ret {| get_model := store; get_active_iter := Some index |}
      | None => raise ValueError
      end
  end.

End EditWidgets.

Module OptionsTabs.

(** [OptionsEditWin.formats_tab_count_formats] *)
Definition formats_tab_count_formats : M EditWin nat :=
  let! val1 := OptionsEditWin.retrieve_val "video_format" in
  if str_eq "0" val1 then ret 0%nat
  else
    let! val2 := OptionsEditWin.retrieve_val "second_video_format" in
    if str_eq "0" val2 then ret 1%nat
    else
      let! val3 := OptionsEditWin.retrieve_val "third_video_format" in
      if str_eq "0" val3 then ret 2%nat else ret 3%nat.

(** [OptionsEditWin.on_subtitles_toggled]; the widget of the state is the
    language combo, [true] when sensitive. *)
Definition on_subtitles_toggled (radiobutton : ToggleButton) (prop : string)
    : M (EditWin * bool) unit :=
  let set (subs auto all sensitive : bool) : M (EditWin * bool) unit :=
    do! on_fst (stage "write_subs" (VBool subs)) in
    do! on_fst (stage "write_auto_subs" (VBool auto)) in
    do! on_fst (stage "write_all_subs" (VBool all)) in
    on_snd (fun _ => sensitive) in
  if get_active radiobutton then
    if String.eqb prop "write_subs" then set false false false false
    else if String.eqb prop "write_auto_subs" then set true true false false
    else if String.eqb prop "write_all_subs" then set true false true false
    else if String.eqb prop "subs_lang" then set true false false true
    else ret tt
  else ret tt.

(** [OptionsEditWin.on_button_set_date_clicked].  [response] is the date the
    calendar dialogue returned, [None] when it was not closed with OK; the
    month counts from 0. *)
Definition on_button_set_date_clicked (response : option (nat * nat * nat))
    (prop : string) : M (EditWin * EntryBox) unit :=
  let! _ := on_fst (OptionsEditWin.retrieve_val prop) in
  match response with
  | Some (year, month, day) =>
      entry_set_text
        (zfill 4 (str_nat year) +:+ zfill 2 (str_nat (month + 1))
         +:+ zfill 2 (str_nat day))
  | None => entry_set_text ""
  end.

(** **** The Files tab: the flag [self.template_flag], the sensitivity of
    the widgets of [self.template_widget_list], and the text of the
    template entry. *)
Record FilesTab := MkFilesTab {
  template_flag : bool;
  template_widgets : bool;
  template_entry : string
}.

(** [OptionsEditWin.file_tab_sensitise_widgets] *)
Definition file_tab_sensitise_widgets (flag : bool) : M (EditWin * FilesTab) unit :=
  on_snd (fun t => MkFilesTab flag flag (template_entry t)).

(** [OptionsEditWin.on_file_tab_entry_changed] *)
Definition on_file_tab_entry_changed : M (EditWin * FilesTab) unit :=
  let! s := get in
  if template_flag s.2
  then on_fst (stage "output_template" (VStr (template_entry s.2)))
  else ret tt.

(** [entry.set_text(text)] on the template entry, whose [changed] handler is
    [on_file_tab_entry_changed]; only a string is a text. *)
Definition template_set_text (text : option pyval) : M (EditWin * FilesTab) unit :=
  match text with
  | Some (VStr t) =>
      let! s := get in
      if String.eqb (template_entry s.2) t then ret tt
      else
        do! on_snd (fun f => MkFilesTab (template_flag f) (template_widgets f) t) in
        on_file_tab_entry_changed
  | _ => raise TypeError
  end.

Section Files.

(** [formats.FILE_OUTPUT_CONVERT_DICT], which is not part of [config.py]:
    the template of every format number, [None] for the custom format. *)
Variable FILE_OUTPUT_CONVERT_DICT : gmap Z (option string).

(** [OptionsEditWin.on_file_tab_combo_changed].  [active] is the active row
    of the combo, a number and a name, if there is one. *)
Definition on_file_tab_combo_changed (active : option (Z * string))
    : M (EditWin * FilesTab) unit :=
  match active with
  | None => raise TypeError
  | Some (row_id, _) =>
      do! on_fst (stage "output_format" (VInt row_id)) in
      if row_id =? 3 then
        do! file_tab_sensitise_widgets true in
        let! template := on_fst (OptionsEditWin.retrieve_val "output_template") in
        template_set_text (Some template)
      else
        do! file_tab_sensitise_widgets false in
        match FILE_OUTPUT_CONVERT_DICT !! row_id with
        | None => raise KeyError
        | Some t => template_set_text (VStr <$> t)
        end
  end.

End Files.

Section SimpleOptions.

(** [mainapp.TartubeApp.set_simple_options_flag], which is not part of
    [config.py]. *)
Variable set_simple_options_flag : bool -> TartubeApp -> TartubeApp.

(** [self.app_obj.dialogue_manager_obj.show_msg_dialogue(msg, 'info', 'ok',
    self)], of [mainapp]: it returns or raises, given the message. *)
Variable show_msg_dialogue : string -> result unit.

(** [self.setup_tabs()], as in [GenericEditWin]. *)
Variable setup_tabs : M EditWin unit.

(** [OptionsEditWin.on_simple_options_clicked]; the widget of the state is
    the label of the button that was clicked. *)
Definition on_simple_options_clicked : M (EditWin * string) unit :=
  let! s := get in
  if negb (simple_options_flag (app_obj s.1)) then
    do! on_fst (modify (fun w => set_app_obj (set_simple_options_flag true (app_obj w)) w)) in
    let! s' := get in
    if bool_decide (edit_dict s'.1 = ∅)
    then on_fst (GenericEditWin.reset_with_new_edit_obj setup_tabs (edit_obj s'.1))
    else
      do! (fun s => (show_msg_dialogue
                       ("When the window is re-opened, some"
                        +:+ String (ascii_of_nat 10)
                              "download options will be hidden"), s)) in
      on_snd (fun _ => "Show advanced download options (when window re-opens)")
  else
    do! on_fst (modify (fun w => set_app_obj (set_simple_options_flag false (app_obj w)) w)) in
    let! s' := get in
    if bool_decide (edit_dict s'.1 = ∅)
    then on_fst (GenericEditWin.reset_with_new_edit_obj setup_tabs (edit_obj s'.1))
    else
      do! (fun s => (show_msg_dialogue
                       ("When the window is re-opened, all"
                        +:+ String (ascii_of_nat 10)
                              "download options will bevisible"), s)) in
      on_snd (fun _ => "Hide advanced download options (when window re-opens)")
  .

End SimpleOptions.

End OptionsTabs.

(** ** What the statements below speak of *)

(** The value the edited object [o] itself holds under [name], as the
    window's class reads it: an attribute for the media edit windows, an
    entry of [options_dict] for the download-options window (whose
    [retrieve_val] answers with the result of system error 404 when there is
    no such entry). *)
Definition object_value (w : EditWin) (o : loc) (name : string) : result pyval :=
  match store w !! o with
  | None => Raise AttributeError
  | Some ob =>
      match win_class w with
      | COptions =>
          match options_dict ob with
          | None => Raise AttributeError
          | Some d =>
              match d !! name with
              | Some v => Ret v
              | None =>
                  Ret (system_error (app_obj w) 404 (OptionsEditWin.unrecognised name))
              end
          end
      | _ =>
          match attrs ob !! name with
          | Some v => Ret v
          | None => Raise AttributeError
          end
      end
  end.

(** What no widget-change handler touches: the store, the reference to the
    edited object, the class and the application object. *)
Definition same_objects (w w' : EditWin) : Prop :=
  store w' = store w /\ edit_obj w' = edit_obj w
  /\ win_class w' = win_class w /\ app_obj w' = app_obj w.





(** "The callback applies its new value to the application object": after
    the handler, the application (or its main window) holds what the widget
    now shows.  A radio button that was switched off and a combo box without
    an active row show no value; the text of a limit entry is a value when
    it is a number; a spin button of the main window shows the value as far
    as its range allows. *)
Definition applied (outside : Outside) (e : SystemPrefWin.pref_event)
    (p : PrefWin) : Prop :=
  match e with
  | SystemPrefWin.FlagToggled cb b =>
      app_attrs p !! SystemPrefWin.flag_attr cb = Some (VBool (get_active b))
  | SystemPrefWin.SpinChanged cb s =>
      app_attrs p !! SystemPrefWin.spin_attr cb = Some (VFloat (get_value s))
  | SystemPrefWin.RadioToggled cb b v =>
      get_active b = true -> app_attrs p !! SystemPrefWin.radio_attr cb = Some v
  | SystemPrefWin.MirrorToggled cb b =>
      main_win_widgets p !! SystemPrefWin.mirror_widget cb
      = Some (VBool (get_active b))
  | SystemPrefWin.MirrorSpinChanged cb s =>
      main_win_widgets p !! SystemPrefWin.mirror_spin_widget cb
      = Some (VFloat (main_win_clamp outside
                        (SystemPrefWin.mirror_spin_widget cb) (get_value s)))
  | SystemPrefWin.LimitChanged cb t =>
      SystemPrefWin.isdigit outside (get_text t) = true
      /\ exists n, SystemPrefWin.py_int outside (get_text t) = Ret n
           /\ 0 <= n
           /\ app_attrs p !! SystemPrefWin.limit_attr cb = Some (VInt n)
  | SystemPrefWin.ComboChanged cb c =>
      forall v, model_cell c (SystemPrefWin.combo_col cb) = Ret v ->
        app_attrs p !! SystemPrefWin.combo_attr cb = Some v
  | SystemPrefWin.VideoResComboChanged c =>
      forall v, model_cell c 0 = Ret v ->
        last (main_win_calls p) = Some ("set_video_res", [v])
  | SystemPrefWin.MatchButtonToggled which b =>
      get_active b = true ->
      app_attrs p !! "match_method"
      = Some (VStr match which with
                   | SystemPrefWin.Radiobutton => "exact_match"
                   | SystemPrefWin.Radiobutton2 => "match_first"
                   | SystemPrefWin.Radiobutton3 => "ignore_last"
                   end)
  | SystemPrefWin.MatchSpinChanged which s =>
      app_attrs p !! match which with
                     | SystemPrefWin.Spinbutton => "match_first_chars"
                     | SystemPrefWin.Spinbutton2 => "match_ignore_chars"
                     end
      = Some (VFloat (get_value s))
  end.

(** The application object is as the handler of [e] expects it: the flag it
    switches is a boolean, the main-window widget it follows exists, the
    default number of characters is an integer. *)
Definition ready (e : SystemPrefWin.pref_event) (p : PrefWin) : Prop :=
  match e with
  | SystemPrefWin.FlagToggled cb _ =>
      exists b, app_attrs p !! SystemPrefWin.flag_attr cb = Some (VBool b)
  | SystemPrefWin.MirrorToggled cb _ =>
      exists b, main_win_widgets p !! SystemPrefWin.mirror_widget cb = Some (VBool b)
  | SystemPrefWin.MirrorSpinChanged cb _ =>
      is_Some (main_win_widgets p !! SystemPrefWin.mirror_spin_widget cb)
  | SystemPrefWin.MatchButtonToggled _ _ =>
      exists n, app_attrs p !! "match_default_chars" = Some (VInt n)
  | _ => True
  end.

(** The gate of the two limit entries:
    [text.isdigit() and int(text) >= 0], false also when [int] raises. *)
Definition accepted (outside : Outside) (e : SystemPrefWin.pref_event) : bool :=
  match e with
  | SystemPrefWin.LimitChanged _ t =>
      SystemPrefWin.isdigit outside (get_text t)
      && match SystemPrefWin.py_int outside (get_text t) with
         | Ret n => 0 <=? n
         | Raise _ => false
         end
  | _ => true
  end.

(** [w'] is [w] with [ed] for pending-changes mapping: same class, same
    objects, same application object, same edited object. *)
Definition staged_from (w w' : EditWin) (ed : gmap string pyval) : Prop :=
  win_class w' = win_class w /\ store w' = store w /\ app_obj w' = app_obj w
  /\ edit_obj w' = edit_obj w /\ edit_dict w' = ed.

(** What [OptionsEditWin.retrieve_val] answers on [w] when [ed] is staged. *)
Definition peek_with (w : EditWin) (ed : gmap string pyval) (name : string)
    : result pyval :=
  match ed !! name with
  | Some v => Ret v
  | None =>
      match store w !! edit_obj w with
      | Some ob =>
          match options_dict ob with
          | Some d =>
              match d !! name with
              | Some v => Ret v
              | None =>
                  Ret (system_error (app_obj w) 404 (OptionsEditWin.unrecognised name))
              end
          | None => Raise AttributeError
          end
      | None => Raise AttributeError
      end
  end.

(** The three slots are packed on [w] when [ed] is staged. *)
Definition packed_with (w : EditWin) (ed : gmap string pyval) : bool :=
  match peek_with w ed "video_format", peek_with w ed "second_video_format",
        peek_with w ed "third_video_format" with
  | Ret v1, Ret v2, Ret v3 => OptionsEditWin.packed v1 v2 v3
  | _, _, _ => false
  end.

(** ** Windows used as examples *)

Definition example_app : TartubeApp :=
  {| system_error := fun _ _ => VNone; simple_options_flag := false |}.

(** A video edit window whose description has been edited. *)
Definition example_video_win : EditWin :=
  MkEditWin CVideo
    {[ 1%nat := PyObj {[ "name" := VStr "Video"; "descrip" := VStr "old text" ]} None ]}
    example_app [] 1%nat {[ "descrip" := VStr "new text" ]}
    ["_General"; "_Download options"; "_Description"; "_Errors / Warnings"]
    true false.

(** Two options managers: object 1 with two formats chosen, object 2 with
    none. *)
Definition example_options_1 : gmap string pyval :=
  {[ "video_format" := VStr "18"; "second_video_format" := VStr "22";
     "third_video_format" := VStr "0" ]}.
Definition example_options_2 : gmap string pyval :=
  {[ "video_format" := VStr "0"; "second_video_format" := VStr "0";
     "third_video_format" := VStr "0" ]}.

(** A download-options window on object 1, nothing staged. *)
Definition example_options_win : EditWin :=
  MkEditWin COptions
    {[ 1%nat := PyObj ∅ (Some example_options_1);
       2%nat := PyObj ∅ (Some example_options_2) ]}
    example_app [] 1%nat ∅
    ["_General"; "_Files"; "F_ormats"; "_Downloads"; "_Post-processing";
     "_Subtitles"; "O_ther files"; "_Advanced"]
    true false.

(** The same window with a third format staged. *)
Definition example_staged_win : EditWin :=
  set_edit_dict (insert "third_video_format" (VStr "137")) example_options_win.

(** Extractor codes of three formats, and the Formats tab as
    [setup_formats_tab] draws it for [example_options_win]. *)
Definition example_codes : gmap string string :=
  {[ "mp4 [360p]" := "18"; "mp4 [720p]" := "22"; "mp4 [1080p]" := "137" ]}.
Definition example_tab : OptionsEditWin.FormatsTab :=
  OptionsEditWin.MkFormatsTab
    ["mp4 [360p]"; "mp4 [720p]"; "mp4 [1080p]"]
    ["mp4 [360p]"; "mp4 [720p]"]
    true true true true OptionsEditWin.video_audio_text.

(** A preference window; the check limit is 5. *)
Definition example_pref_win : PrefWin :=
  MkPrefWin
    {[ "operation_check_limit" := VInt 5; "allow_ytdl_archive_flag" := VBool false;
       "match_default_chars" := VInt 10 ]}
    {[ "bandwidth_checkbutton" := VBool false ]}
    [] (inject_Z 10) (inject_Z 10) false.

(** An interpreter that takes no character outside ASCII for a digit and
    whose [int] refuses what is not a run of ASCII digits; a main window
    whose spin buttons accept every value and whose handlers leave the
    application object alone. *)
Definition example_outside : Outside :=
  MkOutside (fun _ => false) (fun _ => Raise ValueError) (fun _ q => q)
    (fun _ _ attributes => attributes).

(** What the tab builders of [OptionsEditWin] do to the window when the
    options manager has no ['output_format'], as the managers of the
    examples: [setup_general_tab] adds its page, and its text view reads
    ['extra_cmd_string']; [setup_files_tab] adds its page and raises
    [KeyError] at [self.edit_obj.options_dict['output_format']]. *)
Definition example_setup_tabs : M EditWin unit :=
  do! modify (set_notebook (fun pages => pages ++ ["_General"])) in
  let! _ := OptionsEditWin.retrieve_val "extra_cmd_string" in
  do! modify (set_notebook (fun pages => pages ++ ["_Files"])) in
  raise KeyError.

(** ** Further notions and examples *)

(** The property a widget change is about. *)
Definition prop_of (e : change_event) : string :=
  match e with
  | CheckbuttonToggled _ p | ComboChanged _ p | ComboWithDataChanged _ p
  | EntryChanged _ p | RadiobuttonToggled _ p _ | SpinbuttonChanged _ p
  | TextviewChanged _ p => p
  end.

(** No white-space character begins at any byte of [word] when [rest]
    follows it. *)
Fixpoint no_space_before (word rest : string) : bool :=
  match word with
  | EmptyString => true
  | String c word' =>
      (GenericEditWin.space_width (String c (word' +:+ rest)) =? 0)%nat
      && no_space_before word' rest
  end.

(** A string without white space. *)
Definition no_space (s : string) : bool := no_space_before s "".

(** A word: not empty, no white space. *)
Definition is_word (s : string) : Prop := s ≠ "" /\ no_space s = true.

(** The Formats tab of [example_staged_win], three formats chosen. *)
Definition example_full_tab : OptionsEditWin.FormatsTab :=
  OptionsEditWin.MkFormatsTab
    ["mp4 [360p]"; "mp4 [720p]"; "mp4 [1080p]"]
    ["mp4 [360p]"; "mp4 [720p]"; "mp4 [1080p]"]
    false true true true OptionsEditWin.video_audio_text.

(** * Properties *)

(** ** Applying staged changes: [apply_changes] and the OK button *)

Lemma setattr_two_arguments (o : loc) (v : pyval) (w : EditWin) :
  builtin_setattr [ARef o; AVal v] w = (Raise TypeError, w).
Proof. destruct v; reflexivity. Qed.

(** With anything staged, the generic [apply_changes] stops at the first
    key: the call of [setattr] is one argument short. *)
Lemma generic_apply_changes_raises (w : EditWin) :
  edit_dict w ≠ ∅ ->
  GenericEditWin.apply_changes w = (Raise TypeError, w).
Proof.
  intros Hne.
  unfold GenericEditWin.apply_changes, bind, get.
  destruct (map_to_list (edit_dict w)) as [|[k v] l] eqn:Hl.
  - apply map_to_list_empty_iff in Hl. contradiction.
  - assert (Hk : edit_dict w !! k = Some v).
    { apply elem_of_map_to_list. rewrite Hl. left. }
    simpl. unfold bind, get, dict_get. rewrite Hk.
    destruct v; reflexivity.
Qed.

Lemma generic_ok_raises (w : EditWin) :
  win_class w ≠ COptions -> edit_dict w ≠ ∅ ->
  GenericEditWin.on_button_ok_clicked w = (Raise TypeError, w).
Proof.
  intros Hc Hne.
  unfold GenericEditWin.on_button_ok_clicked, GenericEditWin.self_apply_changes,
    bind, get.
  destruct (win_class w); try contradiction;
    rewrite (generic_apply_changes_raises w Hne); reflexivity.
Qed.

(** C1 (the code departs from it).  In a video edit window whose
    description was edited, clicking OK raises [TypeError] out of
    [GenericEditWin.apply_changes]: no attribute of the edited object is
    set, the pending-changes mapping keeps its entry and the window is not
    closed. *)
Theorem ok_click_on_staged_video_window :
  GenericEditWin.on_button_ok_clicked example_video_win
  = (Raise TypeError, example_video_win)
  /\ edit_dict example_video_win !! "descrip" = Some (VStr "new text")
  /\ object_value example_video_win 1%nat "descrip" = Ret (VStr "old text").
Proof.
  split; [|split].
  - apply generic_ok_raises.
    + discriminate.
    + intros H. apply (f_equal (fun m => m !! "descrip")) in H.
      vm_compute in H. discriminate.
  - reflexivity.
  - reflexivity.
Qed.

(** ** The radio button handler *)

Lemma radiobutton_name_unbound (checkbutton : ToggleButton) (prop : string)
    (value : pyval) (w : EditWin) :
  GenericEditWin.on_radiobutton_toggled checkbutton prop value w
  = (Raise NameError, w).
Proof. reflexivity. Qed.

(** C2 (the code departs from it).  Whatever the button, the property and
    the value, [on_radiobutton_toggled] raises [NameError] and stores
    nothing: its body reads [radiobutton], a name that is neither a
    parameter of the handler nor bound in the module. *)
Theorem on_radiobutton_toggled_raises (checkbutton : ToggleButton)
    (prop : string) (value : pyval) (w : EditWin) :
  let r := GenericEditWin.on_radiobutton_toggled checkbutton prop value w in
  r.1 = Raise NameError /\ edit_dict r.2 = edit_dict w.
Proof. split; reflexivity. Qed.

(** ** Widget changes leave the edited object alone *)

Lemma same_objects_refl (w : EditWin) : same_objects w w.
Proof. repeat split. Qed.

Lemma same_objects_trans (w1 w2 w3 : EditWin) :
  same_objects w1 w2 -> same_objects w2 w3 -> same_objects w1 w3.
Proof.
  intros (A1 & A2 & A3 & A4) (B1 & B2 & B3 & B4).
  repeat split; congruence.
Qed.

Lemma stage_same_objects (prop : string) (v : pyval) (w : EditWin) :
  same_objects w (stage prop v w).2.
Proof. repeat split. Qed.

Lemma generic_retrieve_val_state (name : string) (w : EditWin) :
  (GenericEditWin.retrieve_val name w).2 = w.
Proof.
  unfold GenericEditWin.retrieve_val, bind, get, dict_get, builtin_getattr.
  destruct (edit_dict w !! name) eqn:E.
  - reflexivity.
  - destruct (store w !! edit_obj w) as [ob|]; [|reflexivity].
    destruct (attrs ob !! name); reflexivity.
Qed.

Lemma options_retrieve_val_state (name : string) (w : EditWin) :
  (OptionsEditWin.retrieve_val name w).2 = w
  \/ (OptionsEditWin.retrieve_val name w).2
     = set_system_error_calls
         (fun l => l ++ [(404, OptionsEditWin.unrecognised name)]) w.
Proof.
  unfold OptionsEditWin.retrieve_val, bind, get, dict_get,
    OptionsEditWin.get_options_dict, OptionsEditWin.call_system_error.
  destruct (edit_dict w !! name) eqn:E.
  - left. reflexivity.
  - destruct (store w !! edit_obj w) as [ob|]; [|left; reflexivity].
    destruct (options_dict ob) as [d|]; [|left; reflexivity].
    destruct (d !! name) eqn:D.
    + left. reflexivity.
    + right. reflexivity.
Qed.

(** [retrieve_val] changes neither the pending-changes mapping nor any
    object. *)
Lemma self_retrieve_val_frame (name : string) (w : EditWin) :
  let w' := (GenericEditWin.self_retrieve_val name w).2 in
  same_objects w w' /\ edit_dict w' = edit_dict w.
Proof.
  unfold GenericEditWin.self_retrieve_val, bind, get.
  destruct (win_class w) eqn:C;
    try (rewrite generic_retrieve_val_state; split; [apply same_objects_refl|reflexivity]).
  destruct (options_retrieve_val_state name w) as [H|H]; rewrite H;
    split; try reflexivity; repeat split.
Qed.

Lemma callback_same_objects (e : change_event) (w : EditWin) :
  same_objects w (callback e w).2.
Proof.
  destruct e as [b p|c p|c p|t p|b p v|s p|t p]; unfold callback.
  - unfold GenericEditWin.on_checkbutton_toggled.
    destruct (negb (get_active b)); apply stage_same_objects.
  - unfold GenericEditWin.on_combo_changed.
    destruct (model_cell c 0); [apply stage_same_objects|apply same_objects_refl].
  - unfold GenericEditWin.on_combo_with_data_changed.
    destruct (model_cell c 1); [apply stage_same_objects|apply same_objects_refl].
  - apply stage_same_objects.
  - rewrite radiobutton_name_unbound. apply same_objects_refl.
  - apply stage_same_objects.
  - unfold GenericEditWin.on_textview_changed, bind.
    pose proof (self_retrieve_val_frame p w) as [Hs _].
    destruct (GenericEditWin.self_retrieve_val p w) as [[old|ex] w1]; simpl in *.
    + destruct old; (eapply same_objects_trans; [exact Hs|apply stage_same_objects]).
    + exact Hs.
Qed.

(** C3.  No sequence of widget-change callbacks (check button, combo, entry,
    radio button, spin button, text view) changes the edited object: the
    store of objects and the window's reference to the edited object are
    after the sequence what they were before it. *)
Theorem callbacks_leave_edit_obj_unchanged (events : list change_event)
    (w : EditWin) :
  store (run_callbacks events w) = store w
  /\ edit_obj (run_callbacks events w) = edit_obj w.
Proof.
  assert (H : same_objects w (run_callbacks events w)).
  { revert w. induction events as [|e events IH]; intros w.
    - apply same_objects_refl.
    - simpl. eapply same_objects_trans; [apply callback_same_objects|apply IH]. }
  destruct H as (H1 & H2 & _). split; assumption.
Qed.

(** ** [retrieve_val] *)

(** C4.  [GenericEditWin.retrieve_val] answers with the staged value when
    the name is a key of the pending-changes mapping and otherwise with the
    attribute of that name of the edited object ([AttributeError] when the
    object has none), and leaves the window as it was; a value staged for a
    property, directly or by an entry, a check button or a spin button
    handler, is the value retrieved for that property. *)
Theorem retrieve_val_staged_or_attribute (w : EditWin) (name : string) :
  GenericEditWin.retrieve_val name w
  = (match edit_dict w !! name with
     | Some v => Ret v
     | None =>
         match store w !! edit_obj w with
         | Some ob =>
             match attrs ob !! name with
             | Some v => Ret v
             | None => Raise AttributeError
             end
         | None => Raise AttributeError
         end
     end, w)
  /\ (forall v, (GenericEditWin.retrieve_val name (stage name v w).2).1 = Ret v)
  /\ (forall entry,
        (GenericEditWin.retrieve_val name
           (GenericEditWin.on_entry_changed entry name w).2).1
        = Ret (VStr (get_text entry)))
  /\ (forall checkbutton,
        (GenericEditWin.retrieve_val name
           (GenericEditWin.on_checkbutton_toggled checkbutton name w).2).1
        = Ret (VBool (get_active checkbutton)))
  /\ (forall spin,
        (GenericEditWin.retrieve_val name
           (GenericEditWin.on_spinbutton_changed spin name w).2).1
        = Ret (VInt (int_of_float (get_value spin)))).
Proof.
  assert (Hstage : forall v,
    (GenericEditWin.retrieve_val name (stage name v w).2).1 = Ret v).
  { intros v.
    unfold GenericEditWin.retrieve_val, bind, get, dict_get, stage, modify.
    simpl. rewrite lookup_insert_eq. reflexivity. }
  split; [|split; [|split; [|split]]].
  - unfold GenericEditWin.retrieve_val, bind, get, dict_get, builtin_getattr.
    destruct (edit_dict w !! name); [reflexivity|].
    destruct (store w !! edit_obj w) as [ob|]; [|reflexivity].
    destruct (attrs ob !! name); reflexivity.
  - exact Hstage.
  - intros entry. apply Hstage.
  - intros [[|]]; apply Hstage.
  - intros spin. apply Hstage.
Qed.

(** In every edit window a staged value is the value retrieved. *)
Lemma self_retrieve_val_staged (w : EditWin) (name : string) (v : pyval) :
  edit_dict w !! name = Some v ->
  (GenericEditWin.self_retrieve_val name w).1 = Ret v.
Proof.
  intros H.
  unfold GenericEditWin.self_retrieve_val, GenericEditWin.retrieve_val,
    OptionsEditWin.retrieve_val, bind, get, dict_get.
  destruct (win_class w); rewrite H; reflexivity.
Qed.

(** ** The check button handler *)

(** C8.  [on_checkbutton_toggled] returns normally and stores exactly
    [True] under the property when the check button is active and exactly
    [False] when it is not; every other entry of the pending-changes
    mapping stays, and [retrieve_val] then shows the check button's state
    for the property, in every edit window. *)
Theorem checkbutton_stages_its_state (w : EditWin) (checkbutton : ToggleButton)
    (prop : string) :
  let r := GenericEditWin.on_checkbutton_toggled checkbutton prop w in
  r.1 = Ret tt
  /\ edit_dict r.2 !! prop = Some (VBool (get_active checkbutton))
  /\ (forall other, other ≠ prop -> edit_dict r.2 !! other = edit_dict w !! other)
  /\ (GenericEditWin.self_retrieve_val prop r.2).1
     = Ret (VBool (get_active checkbutton)).
Proof.
  assert (E : GenericEditWin.on_checkbutton_toggled checkbutton prop w
              = stage prop (VBool (get_active checkbutton)) w).
  { unfold GenericEditWin.on_checkbutton_toggled.
    destruct (get_active checkbutton); reflexivity. }
  cbv zeta. rewrite E. unfold stage, modify. simpl.
  split; [reflexivity|]. split; [apply lookup_insert_eq|].
  split; [intros other Hne; apply lookup_insert_ne; congruence|].
  apply self_retrieve_val_staged. apply lookup_insert_eq.
Qed.

Lemma checkbutton_stages_its_state_witness :
  edit_dict
    (GenericEditWin.on_checkbutton_toggled {| get_active := true |} "dl_sim_flag"
       example_video_win).2 !! "descrip"
  = Some (VStr "new text").
Proof.
  pose proof (checkbutton_stages_its_state example_video_win
                {| get_active := true |} "dl_sim_flag") as H.
  cbv zeta in H. destruct H as (_ & _ & H & _).
  rewrite (H "descrip"); [reflexivity|discriminate].
Defined.

(** ** [OptionsEditWin.apply_changes] *)

Lemma set_store_insert_insert (o : loc) (ob1 ob2 : pyobj) (w : EditWin) :
  set_store (insert o ob2) (set_store (insert o ob1) w)
  = set_store (insert o ob2) w.
Proof. unfold set_store. simpl. rewrite insert_insert_eq. reflexivity. Qed.

(** The loop of [apply_changes] over a list of staged entries: one
    assignment to [options_dict] for each. *)
Lemma options_loop (l : list (string * pyval)) :
  forall (w : EditWin) (ob : pyobj) (d : gmap string pyval),
  store w !! edit_obj w = Some ob ->
  options_dict ob = Some d ->
  (forall k v, (k, v) ∈ l -> edit_dict w !! k = Some v) ->
  for_each l.*1 (fun key =>
    let! w' := get in
    let! v := dict_get (edit_dict w') key in
    OptionsEditWin.options_dict_setitem (edit_obj w') key v) w
  = (Ret tt,
     set_store
       (insert (edit_obj w)
          (PyObj (attrs ob) (Some (foldl (fun d kv => <[kv.1 := kv.2]> d) d l))))
       w).
Proof.
  induction l as [|[k v] l IH]; intros w ob d Hob Hd Hl.
  - simpl. unfold ret. f_equal. destruct w as [c st a calls o ed nb sh de].
    unfold set_store. simpl in *. f_equal.
    rewrite insert_id; [reflexivity|]. rewrite Hob. destruct ob. simpl in *.
    congruence.
  - cbn [fmap list_fmap for_each foldl fst snd].
    unfold bind at 1. unfold bind at 1. unfold get at 1.
    unfold bind at 1. unfold dict_get at 1.
    rewrite (Hl k v) by left. unfold ret at 1.
    unfold OptionsEditWin.options_dict_setitem at 1. rewrite Hob, Hd.
    set (ob1 := PyObj (attrs ob) (Some (<[k:=v]> d))).
    set (w1 := set_store (insert (edit_obj w) ob1) w).
    specialize (IH w1 ob1 (<[k:=v]> d)).
    assert (Hw1 : edit_obj w1 = edit_obj w) by reflexivity.
    rewrite Hw1 in IH. rewrite IH.
    + unfold w1. rewrite set_store_insert_insert. reflexivity.
    + unfold w1, set_store. simpl. apply lookup_insert_eq.
    + reflexivity.
    + intros k' v' Hin. unfold w1, set_store. simpl. apply Hl. right. exact Hin.
Qed.

Lemma foldl_insert_lookup (l : list (string * pyval)) :
  forall (d : gmap string pyval) (k : string),
  NoDup l.*1 ->
  foldl (fun d kv => <[kv.1 := kv.2]> d) d l !! k
  = match list_to_map (M := gmap string pyval) l !! k with
    | Some v => Some v
    | None => d !! k
    end.
Proof.
  induction l as [|[k0 v0] l IH]; intros d k Hnd.
  - simpl. rewrite lookup_empty. reflexivity.
  - rewrite fmap_cons in Hnd. apply NoDup_cons in Hnd as [Hnotin Hnd].
    cbn [fst] in Hnotin.
    apply not_elem_of_list_to_map in Hnotin.
    cbn [foldl fst snd].
    rewrite IH by exact Hnd.
    change (list_to_map ((k0, v0) :: l))
      with (<[k0 := v0]> (list_to_map l : gmap string pyval)).
    destruct (decide (k0 = k)) as [->|Hne].
    + rewrite Hnotin. rewrite !lookup_insert_eq. reflexivity.
    + rewrite !(lookup_insert_ne _ k0 k) by exact Hne. reflexivity.
Qed.

(** C7.  On an options manager, [OptionsEditWin.apply_changes] returns
    normally; afterwards the manager's [options_dict] holds every staged
    pair and, under every other key, what it held before; the manager's
    other attributes and every other object are as before; and the
    pending-changes mapping is empty. *)
Theorem options_apply_changes_copies (w : EditWin) (ob : pyobj)
    (d : gmap string pyval) :
  store w !! edit_obj w = Some ob ->
  options_dict ob = Some d ->
  let r := OptionsEditWin.apply_changes w in
  r.1 = Ret tt
  /\ edit_dict r.2 = ∅
  /\ edit_obj r.2 = edit_obj w
  /\ (exists d',
        store r.2 !! edit_obj w = Some (PyObj (attrs ob) (Some d'))
        /\ (forall k v, edit_dict w !! k = Some v -> d' !! k = Some v)
        /\ (forall k, edit_dict w !! k = None -> d' !! k = d !! k))
  /\ (forall o, o ≠ edit_obj w -> store r.2 !! o = store w !! o).
Proof.
  intros Hob Hd. cbv zeta.
  assert (E : OptionsEditWin.apply_changes w
    = (Ret tt,
       set_edit_dict (fun _ => ∅)
         (set_store
            (insert (edit_obj w)
               (PyObj (attrs ob)
                  (Some (foldl (fun d kv => <[kv.1 := kv.2]> d) d
                           (map_to_list (edit_dict w))))))
            w))).
  { unfold OptionsEditWin.apply_changes. unfold bind at 1. unfold get at 1.
    unfold bind at 1.
    rewrite (options_loop (map_to_list (edit_dict w)) w ob d Hob Hd).
    - reflexivity.
    - intros k v Hin. apply elem_of_map_to_list. exact Hin. }
  rewrite E. cbn [fst snd].
  split; [reflexivity|]. split; [reflexivity|]. split; [reflexivity|].
  split.
  - eexists. split.
    + unfold set_edit_dict, set_store. cbn. apply lookup_insert_eq.
    + assert (Hlk : forall k,
        foldl (fun d kv => <[kv.1 := kv.2]> d) d (map_to_list (edit_dict w)) !! k
        = match edit_dict w !! k with Some v => Some v | None => d !! k end).
      { intros k. rewrite foldl_insert_lookup by apply NoDup_fst_map_to_list.
        rewrite list_to_map_to_list. reflexivity. }
      split.
      * intros k v Hk. rewrite Hlk, Hk. reflexivity.
      * intros k Hk. rewrite Hlk, Hk. reflexivity.
  - intros o Hne. unfold set_edit_dict, set_store. cbn.
    apply lookup_insert_ne. congruence.
Qed.

Lemma options_apply_changes_copies_witness :
  (OptionsEditWin.apply_changes example_staged_win).1 = Ret tt
  /\ edit_dict (OptionsEditWin.apply_changes example_staged_win).2 = ∅.
Proof.
  pose proof (options_apply_changes_copies example_staged_win
                (PyObj ∅ (Some example_options_1)) example_options_1
                eq_refl eq_refl) as H.
  cbv zeta in H. destruct H as (H1 & H2 & _). split; assumption.
Defined.

(** ** Unknown names in the download-options window *)

(** C10.  In a download-options window whose options manager has no entry
    for the name, and with nothing staged for it,
    [OptionsEditWin.retrieve_val] returns normally: its value is the result
    of [app_obj.system_error(404, "Unrecognised property name '<name>'")],
    that one call is recorded, and the pending-changes mapping and every
    object are left as they were. *)
Theorem retrieve_val_unrecognised (w : EditWin) (ob : pyobj)
    (d : gmap string pyval) (name : string) :
  store w !! edit_obj w = Some ob ->
  options_dict ob = Some d ->
  edit_dict w !! name = None ->
  d !! name = None ->
  let r := OptionsEditWin.retrieve_val name w in
  let msg := "Unrecognised property name '" +:+ name +:+ "'" in
  r.1 = Ret (system_error (app_obj w) 404 msg)
  /\ system_error_calls r.2 = system_error_calls w ++ [(404, msg)]
  /\ edit_dict r.2 = edit_dict w
  /\ store r.2 = store w
  /\ edit_obj r.2 = edit_obj w.
Proof.
  intros Hob Hd He Hn. cbv zeta.
  unfold OptionsEditWin.retrieve_val, bind, get, OptionsEditWin.get_options_dict.
  rewrite He, Hob, Hd, Hn.
  repeat split.
Qed.

Lemma retrieve_val_unrecognised_witness :
  (OptionsEditWin.retrieve_val "no_such_option" example_staged_win).1 = Ret VNone
  /\ system_error_calls
       (OptionsEditWin.retrieve_val "no_such_option" example_staged_win).2
     = [(404, "Unrecognised property name 'no_such_option'")].
Proof.
  pose proof (retrieve_val_unrecognised example_staged_win
                (PyObj ∅ (Some example_options_1)) example_options_1
                "no_such_option" eq_refl eq_refl eq_refl eq_refl) as H.
  cbv zeta in H. destruct H as (H1 & H2 & _). split; assumption.
Defined.

(** ** Discarding staged changes *)















(** ** The preference window *)

Lemma on_flag_toggled_attrs (cb : SystemPrefWin.flag_callback)
    (b : ToggleButton) (p : PrefWin) :
  app_attrs (SystemPrefWin.on_flag_toggled cb b p).2
  = app_attrs (SystemPrefWin.toggle_flag (SystemPrefWin.flag_attr cb) b p).2.
Proof.
  unfold SystemPrefWin.on_flag_toggled, bind.
  destruct (SystemPrefWin.toggle_flag (SystemPrefWin.flag_attr cb) b p)
    as [[[|]|ex] p1]; destruct cb; reflexivity.
Qed.

Lemma toggle_flag_applies (flag : string) (b : ToggleButton) (p : PrefWin)
    (b0 : bool) :
  app_attrs p !! flag = Some (VBool b0) ->
  app_attrs (SystemPrefWin.toggle_flag flag b p).2 !! flag
  = Some (VBool (get_active b)).
Proof.
  intros H. unfold SystemPrefWin.toggle_flag, bind, SystemPrefWin.app_get.
  rewrite H. destruct b as [[|]], b0; cbn; rewrite ?lookup_insert_eq;
    try reflexivity; exact H.
Qed.

Lemma spin_set_value_other (which : SystemPrefWin.match_spin) (v : pyval)
    (p : PrefWin) (attr : string) :
  attr ≠ "match_first_chars" -> attr ≠ "match_ignore_chars" ->
  app_attrs (SystemPrefWin.spin_set_value which v p).2 !! attr
  = app_attrs p !! attr.
Proof.
  intros H1 H2. unfold SystemPrefWin.spin_set_value.
  destruct (SystemPrefWin.as_float v) as [q|]; [|reflexivity].
  cbv zeta. unfold bind, get.
  destruct (Qeq_bool _ _); [reflexivity|].
  destruct which; cbn; apply lookup_insert_ne; congruence.
Qed.

Lemma spin_set_value_number (which : SystemPrefWin.match_spin) (n : Z)
    (p : PrefWin) :
  (SystemPrefWin.spin_set_value which (VInt n) p).1 = Ret tt.
Proof.
  unfold SystemPrefWin.spin_set_value, bind, get. cbn [SystemPrefWin.as_float].
  cbv zeta. destruct (Qeq_bool _ _); [reflexivity|]. destruct which; reflexivity.
Qed.

Lemma main_win_set_active_widget (outside : Outside) (widget : string)
    (flag : bool) (p : PrefWin) (old : pyval) :
  main_win_widgets p !! widget = Some old ->
  main_win_widgets (SystemPrefWin.main_win_set_active outside widget flag p).2
    !! widget = Some (VBool flag).
Proof.
  intros H. unfold SystemPrefWin.main_win_set_active, bind,
    SystemPrefWin.main_win_get. rewrite H. cbn [modify fst snd].
  destruct (Bool.eqb (truthy old) flag); cbn; apply lookup_insert_eq.
Qed.

Lemma main_win_set_value_widget (outside : Outside) (widget : string)
    (value : Q) (p : PrefWin) (old : pyval) :
  main_win_widgets p !! widget = Some old ->
  main_win_widgets (SystemPrefWin.main_win_set_value outside widget value p).2
    !! widget = Some (VFloat (main_win_clamp outside widget value)).
Proof.
  intros H. unfold SystemPrefWin.main_win_set_value, bind,
    SystemPrefWin.main_win_get. rewrite H. cbv zeta. cbn [modify fst snd].
  destruct (SystemPrefWin.as_float old) as [q|];
    [destruct (Qeq_bool q _)|]; cbn; apply lookup_insert_eq.
Qed.

(** What a limit entry's handler does, by the answers of [isdigit] and
    [int]. *)
Lemma on_limit_changed_result (outside : Outside)
    (cb : SystemPrefWin.limit_callback) (t : Entry) (p : PrefWin) :
  SystemPrefWin.on_limit_changed outside cb t p
  = if SystemPrefWin.isdigit outside (get_text t) then
      match SystemPrefWin.py_int outside (get_text t) with
      | Ret n =>
          if 0 <=? n
          then (Ret tt, set_app_attrs (insert (SystemPrefWin.limit_attr cb) (VInt n)) p)
          else (Ret tt, p)
      | Raise ex => (Raise ex, p)
      end
    else (Ret tt, p).
Proof.
  unfold SystemPrefWin.on_limit_changed. cbv zeta.
  destruct (SystemPrefWin.isdigit outside (get_text t)); [|reflexivity].
  destruct (SystemPrefWin.py_int outside (get_text t)) as [n|ex];
    [|reflexivity].
  destruct (0 <=? n); reflexivity.
Qed.

(** C6, as first stated, fails for the two limit entries: when the user
    clears the entry of the check limit, the handler applies nothing,
    whatever the interpreter and the main window, and the application
    object keeps the limit it had. *)
Lemma cleared_limit_entry_not_applied :
  let e := SystemPrefWin.LimitChanged SystemPrefWin.on_check_limit_changed
             {| get_text := "" |} in
  ready e example_pref_win
  /\ forall outside,
       ~ applied outside e
           (SystemPrefWin.pref_callback outside e example_pref_win).2
       /\ app_attrs (SystemPrefWin.pref_callback outside e example_pref_win).2
            !! "operation_check_limit" = Some (VInt 5).
Proof.
  cbv zeta. split; [exact I|]. intros outside. split.
  - intros [H _]. vm_compute in H. discriminate.
  - reflexivity.
Qed.

(** C6, amended.  In the preference window every widget-change handler
    whose application object is as it expects either applies the widget's
    new value at once to the application object or its main window, or (the
    two limit entries, when the text is not accepted as a number) leaves
    the window and the application object exactly as they were; and the OK
    button applies nothing: it closes the window, which tells the main
    window so, and the application object and the widgets of its main
    window are as before. *)
Theorem pref_changes_apply_at_once (outside : Outside)
    (e : SystemPrefWin.pref_event) (p : PrefWin) :
  ready e p ->
  let p' := (SystemPrefWin.pref_callback outside e p).2 in
  (accepted outside e = true -> applied outside e p')
  /\ (accepted outside e = false -> p' = p)
  /\ let q := (GenericPrefWin.on_button_ok_clicked p).2 in
     (GenericPrefWin.on_button_ok_clicked p).1 = Ret tt
     /\ app_attrs q = app_attrs p
     /\ main_win_widgets q = main_win_widgets p
     /\ main_win_calls q = main_win_calls p ++ [("del_child_window", [])]
     /\ pref_destroyed q = true.
Proof.
  intros Hready. cbv zeta.
  split; [|split; [|repeat split]].
  - intros Hacc.
    destruct e as [cb b|cb s|cb b v|cb b|cb s|cb t|cb c|c|which b|which s];
      unfold SystemPrefWin.pref_callback, applied.
    + destruct Hready as [b0 H0]. rewrite on_flag_toggled_attrs.
      eapply toggle_flag_applies. exact H0.
    + cbn. apply lookup_insert_eq.
    + intros Hb. unfold SystemPrefWin.on_radio_toggled. rewrite Hb. cbn.
      apply lookup_insert_eq.
    + destruct Hready as [b0 H0].
      unfold SystemPrefWin.on_mirror_toggled. unfold bind at 1.
      unfold SystemPrefWin.main_win_get at 1. rewrite H0.
      cbn [truthy].
      destruct b as [[|]], b0; cbn [get_active andb negb];
        first [ eapply main_win_set_active_widget; exact H0 | exact H0 ].
    + destruct Hready as [v0 H0].
      unfold SystemPrefWin.on_mirror_spin_changed.
      eapply main_win_set_value_widget. exact H0.
    + cbn [accepted] in Hacc. apply andb_true_iff in Hacc as [Hd Hn].
      split; [exact Hd|].
      rewrite on_limit_changed_result, Hd.
      destruct (SystemPrefWin.py_int outside (get_text t)) as [n|ex];
        [|discriminate].
      rewrite Hn. exists n. split; [reflexivity|].
      split; [apply Z.leb_le; exact Hn|]. cbn. apply lookup_insert_eq.
    + intros v Hv. unfold SystemPrefWin.on_combo_changed. rewrite Hv. cbn.
      apply lookup_insert_eq.
    + intros v Hv. unfold SystemPrefWin.on_video_res_combo_changed. rewrite Hv.
      cbn. apply last_snoc.
    + intros Hb. destruct Hready as [n Hn].
      unfold SystemPrefWin.on_match_button_toggled. unfold bind at 1.
      unfold SystemPrefWin.app_get at 1. rewrite Hn, Hb.
      destruct which.
      * unfold bind at 1. unfold SystemPrefWin.app_set at 1, modify at 1.
        unfold bind.
        match goal with
        | |- context [SystemPrefWin.spin_set_value SystemPrefWin.Spinbutton (VInt n) ?s] =>
            pose proof (spin_set_value_number SystemPrefWin.Spinbutton n s) as E1;
            pose proof (spin_set_value_other SystemPrefWin.Spinbutton (VInt n) s
                          "match_method" ltac:(discriminate) ltac:(discriminate)) as E2;
            destruct (SystemPrefWin.spin_set_value SystemPrefWin.Spinbutton (VInt n) s)
              as [r1 s1]
        end.
        cbn [fst snd] in E1, E2. subst r1.
        rewrite spin_set_value_other by discriminate.
        rewrite E2. cbn. apply lookup_insert_eq.
      * unfold bind at 1. unfold SystemPrefWin.app_set at 1, modify at 1.
        rewrite spin_set_value_other by discriminate.
        cbn. apply lookup_insert_eq.
      * unfold bind at 1. unfold SystemPrefWin.app_set at 1, modify at 1.
        rewrite spin_set_value_other by discriminate.
        cbn. apply lookup_insert_eq.
    + destruct which; cbn; apply lookup_insert_eq.
  - intros Hacc.
    destruct e as [cb b|cb s|cb b v|cb b|cb s|cb t|cb c|c|which b|which s];
      try discriminate Hacc.
    cbn [accepted] in Hacc. unfold SystemPrefWin.pref_callback.
    rewrite on_limit_changed_result.
    destruct (SystemPrefWin.isdigit outside (get_text t)); [|reflexivity].
    destruct (SystemPrefWin.py_int outside (get_text t)) as [n|ex];
      [|reflexivity].
    cbn [andb] in Hacc. rewrite Hacc. reflexivity.
Qed.

Lemma pref_changes_apply_at_once_witness :
  applied example_outside
    (SystemPrefWin.LimitChanged SystemPrefWin.on_check_limit_changed
       {| get_text := "25" |})
    (SystemPrefWin.pref_callback example_outside
       (SystemPrefWin.LimitChanged SystemPrefWin.on_check_limit_changed
          {| get_text := "25" |})
       example_pref_win).2.
Proof.
  refine (proj1 (pref_changes_apply_at_once example_outside
                   (SystemPrefWin.LimitChanged
                      SystemPrefWin.on_check_limit_changed
                      {| get_text := "25" |})
                   example_pref_win _) eq_refl).
  exact I.
Defined.

(** ** The three format slots *)

Lemma staged_from_refl (w : EditWin) : staged_from w w (edit_dict w).
Proof. repeat split. Qed.

Lemma retrieve_val_peek (w w' : EditWin) (ed : gmap string pyval)
    (name : string) :
  staged_from w w' ed ->
  (OptionsEditWin.retrieve_val name w').1 = peek_with w ed name
  /\ staged_from w (OptionsEditWin.retrieve_val name w').2 ed.
Proof.
  intros (H1 & H2 & H3 & H4 & H5).
  unfold OptionsEditWin.retrieve_val, bind, get, dict_get,
    OptionsEditWin.get_options_dict, OptionsEditWin.call_system_error, peek_with.
  assert (Hs : forall f, staged_from w (set_system_error_calls f w') ed).
  { intros f. repeat split; assumption. }
  assert (Hw : staged_from w w' ed) by (repeat split; assumption).
  rewrite H5. destruct (ed !! name) as [v|]; [split; [reflexivity|exact Hw]|].
  cbv beta. rewrite H2, H4.
  destruct (store w !! edit_obj w) as [ob|]; [|split; [reflexivity|exact Hw]].
  destruct (options_dict ob) as [d|]; [|split; [reflexivity|exact Hw]].
  destruct (d !! name) as [v|]; [split; [reflexivity|exact Hw]|].
  split; [cbn; rewrite H3; reflexivity|apply Hs].
Qed.

Lemma packed_slots_staged (w w' : EditWin) (ed : gmap string pyval) :
  staged_from w w' ed -> OptionsEditWin.packed_slots w' = packed_with w ed.
Proof.
  intros H. unfold OptionsEditWin.packed_slots, OptionsEditWin.slots, packed_with.
  rewrite !(proj1 (retrieve_val_peek w w' ed _ H)). reflexivity.
Qed.

Lemma peek_with_insert (w : EditWin) (ed : gmap string pyval) (k : string)
    (v : pyval) (name : string) :
  peek_with w (<[k := v]> ed) name
  = if decide (k = name) then Ret v else peek_with w ed name.
Proof.
  unfold peek_with. rewrite lookup_insert.
  destruct (decide (k = name)); reflexivity.
Qed.

(** One step of a Formats-tab handler, on a state whose window is [w] with
    [ed] staged. *)
Lemma step_retrieve {A} (name : string)
    (k : pyval -> M (EditWin * OptionsEditWin.FormatsTab) A)
    (s : EditWin * OptionsEditWin.FormatsTab) (w : EditWin)
    (ed : gmap string pyval) :
  staged_from w s.1 ed ->
  exists s', staged_from w s'.1 ed
    /\ bind (OptionsEditWin.on_window (OptionsEditWin.retrieve_val name)) k s
       = match peek_with w ed name with
         | Ret v => k v s'
         | Raise e => (Raise e, s')
         end.
Proof.
  intros H. destruct (retrieve_val_peek w s.1 ed name H) as [E1 E2].
  exists ((OptionsEditWin.retrieve_val name s.1).2, s.2). split; [exact E2|].
  unfold bind, OptionsEditWin.on_window. rewrite <- E1.
  destruct (OptionsEditWin.retrieve_val name s.1) as [[v|e] w1]; reflexivity.
Qed.

Lemma step_stage {A} (key : string) (v : pyval)
    (k : unit -> M (EditWin * OptionsEditWin.FormatsTab) A)
    (s : EditWin * OptionsEditWin.FormatsTab) (w : EditWin)
    (ed : gmap string pyval) :
  staged_from w s.1 ed ->
  exists s', staged_from w s'.1 (<[key := v]> ed)
    /\ bind (OptionsEditWin.on_window (stage key v)) k s = k tt s'.
Proof.
  intros (H1 & H2 & H3 & H4 & H5).
  exists (set_edit_dict (insert key v) s.1, s.2). split.
  - repeat split; try assumption. cbn. rewrite H5. reflexivity.
  - reflexivity.
Qed.

Lemma step_tab {A} (f : OptionsEditWin.FormatsTab -> OptionsEditWin.FormatsTab)
    (k : unit -> M (EditWin * OptionsEditWin.FormatsTab) A)
    (s : EditWin * OptionsEditWin.FormatsTab) (w : EditWin)
    (ed : gmap string pyval) :
  staged_from w s.1 ed ->
  exists s', staged_from w s'.1 ed /\ bind (OptionsEditWin.on_tab f) k s = k tt s'.
Proof.
  intros H. exists (s.1, f s.2). split; [exact H|reflexivity].
Qed.

Lemma zero_not_selected (c : string) (v : pyval) :
  str_eq "0" v = true -> str_eq c v = false -> str_eq "0" (VStr c) = false.
Proof.
  destruct v; try discriminate. unfold str_eq. intros H1 H2.
  apply String.eqb_eq in H1. subst s.
  rewrite String.eqb_sym. exact H2.
Qed.

Lemma selected_is (c : string) (v : pyval) :
  str_eq c v = true -> v = VStr c.
Proof.
  destruct v; try discriminate. unfold str_eq. intros H.
  apply String.eqb_eq in H. congruence.
Qed.

Lemma bind_get {S A} (k : S -> M S A) (s : S) : bind get k s = k s s.
Proof. reflexivity. Qed.

Lemma bind_selected_code {A} (D : gmap string string) (model : list string)
    (row : nat) (k : string * string -> M (EditWin * OptionsEditWin.FormatsTab) A)
    (s : EditWin * OptionsEditWin.FormatsTab) :
  bind (OptionsEditWin.selected_code D model row) k s
  = match model !! row with
    | None => (Raise ValueError, s)
    | Some name =>
        match D !! name with
        | Some c => k (name, c) s
        | None => (Raise KeyError, s)
        end
    end.
Proof.
  unfold OptionsEditWin.selected_code, bind.
  destruct (model !! row) as [name|]; [|reflexivity].
  destruct (D !! name); reflexivity.
Qed.

Ltac step_formats :=
  match goal with
  | H : staged_from ?w (fst ?s) ?ed
    |- context [bind (OptionsEditWin.on_window (OptionsEditWin.retrieve_val ?n)) ?k ?s] =>
      let s' := fresh "s" in let H' := fresh "Hs" in let E := fresh "E" in
      destruct (step_retrieve n k s w ed H) as (s' & H' & E);
      rewrite E; clear E H; cbv beta
  | H : staged_from ?w (fst ?s) ?ed
    |- context [bind (OptionsEditWin.on_window (stage ?key ?v)) ?k ?s] =>
      let s' := fresh "s" in let H' := fresh "Hs" in let E := fresh "E" in
      destruct (step_stage key v k s w ed H) as (s' & H' & E);
      rewrite E; clear E H; cbv beta
  | H : staged_from ?w (fst ?s) ?ed
    |- context [bind (OptionsEditWin.on_tab ?f) ?k ?s] =>
      let s' := fresh "s" in let H' := fresh "Hs" in let E := fresh "E" in
      destruct (step_tab f k s w ed H) as (s' & H' & E);
      rewrite E; clear E H; cbv beta
  end.


Ltac simplify_peeks :=
  repeat (rewrite peek_with_insert;
          match goal with
          | |- context [decide (?a = ?b)] =>
              destruct (decide (a = b)); [try discriminate|try congruence]
          end).

Ltac finish_formats :=
  cbn [fst snd ret raise OptionsEditWin.on_tab modify];
  match goal with
  | H : staged_from ?w (fst ?s) ?ed |- OptionsEditWin.packed_slots (fst ?s) = true =>
      rewrite (packed_slots_staged w _ ed H)
  end;
  unfold packed_with; simplify_peeks.


Ltac close_packed v1 v2 v3 :=
  repeat match goal with
    | Hz : str_eq "0" ?v = true, Hc : str_eq ?c ?v = false |- _ =>
        pose proof (zero_not_selected c v Hz Hc); clear Hc
    end;
  repeat match goal with
    | Hc : str_eq ?c ?v = true |- _ =>
        apply selected_is in Hc; try subst v
    end;
  unfold OptionsEditWin.packed in *;
  change (str_eq "0" (VStr "0")) with true in *;
  repeat match goal with
    | H : str_eq "0" (VStr ?c) = false |- _ => rewrite ?H in *; clear H
    end;
  repeat match goal with
    | H : context [str_eq "0" ?v] |- _ => destruct (str_eq "0" v)
    | |- context [str_eq "0" ?v] => destruct (str_eq "0" v)
    end;
  cbn in *; congruence.

Tactic Notation "start_formats" constr(w) constr(t) hyp(Hp) ident(v1)
    ident(v2) ident(v3) ident(P1) ident(P2) ident(P3) ident(H0) :=
  rewrite (packed_slots_staged w w _ (staged_from_refl w)) in Hp;
  pose proof (staged_from_refl w : staged_from w (w, t).1 (edit_dict w)) as H0;
  unfold packed_with in Hp;
  destruct (peek_with w (edit_dict w) "video_format") as [v1|] eqn:P1;
    try discriminate;
  destruct (peek_with w (edit_dict w) "second_video_format") as [v2|] eqn:P2;
    try discriminate;
  destruct (peek_with w (edit_dict w) "third_video_format") as [v3|] eqn:P3;
    try discriminate.

(** X1.  Removing a format keeps the slots packed. *)
Lemma remove_keeps_packed (D : gmap string string) (L : list string)
    (sel : option nat) (w : EditWin) (t : OptionsEditWin.FormatsTab) :
  OptionsEditWin.packed_slots w = true ->
  OptionsEditWin.packed_slots
    (OptionsEditWin.on_formats_tab_remove_clicked D L sel (w, t)).2.1 = true.
Proof.
  intros Hp. pose proof Hp as Hw.
  start_formats w t Hp v1 v2 v3 P1 P2 P3 H0.
  unfold OptionsEditWin.on_formats_tab_remove_clicked.
  destruct sel as [row|]; [|exact Hw].
  rewrite bind_get. cbv beta. rewrite bind_selected_code.
  destruct (OptionsEditWin.liststore2 (w, t).2 !! row) as [name|]; [|exact Hw].
  destruct (D !! name) as [c|]; [|exact Hw].
  cbn [snd].
  step_formats. rewrite P1. step_formats. rewrite P2. step_formats. rewrite P3.
  destruct (str_eq c v1) eqn:C1;
    [|destruct (str_eq c v2) eqn:C2; [|destruct (str_eq c v3) eqn:C3]].
  - repeat step_formats. simplify_peeks.
    destruct (str_eq "0" v2) eqn:Z2; repeat step_formats; finish_formats;
      try rewrite P1; try rewrite P2; try rewrite P3; close_packed v1 v2 v3.
  - repeat step_formats. simplify_peeks. rewrite P1.
    destruct (str_eq "0" v1) eqn:Z1; repeat step_formats; finish_formats;
      try rewrite P1; try rewrite P2; try rewrite P3; close_packed v1 v2 v3.
  - repeat step_formats. simplify_peeks. rewrite P1.
    destruct (str_eq "0" v1) eqn:Z1; repeat step_formats; finish_formats;
      try rewrite P1; try rewrite P2; try rewrite P3; close_packed v1 v2 v3.
  - finish_formats. rewrite P1, P2, P3. exact Hp.
Qed.

(** X2.  Adding a format keeps the slots packed. *)
Lemma add_keeps_packed (D : gmap string string) (L : list string)
    (sel : option nat) (w : EditWin) (t : OptionsEditWin.FormatsTab) :
  OptionsEditWin.packed_slots w = true ->
  OptionsEditWin.packed_slots
    (OptionsEditWin.on_formats_tab_add_clicked D L sel (w, t)).2.1 = true.
Proof.
  intros Hp. pose proof Hp as Hw.
  start_formats w t Hp v1 v2 v3 P1 P2 P3 H0.
  unfold OptionsEditWin.on_formats_tab_add_clicked.
  destruct sel as [row|]; [|exact Hw].
  rewrite bind_get. cbv beta. rewrite bind_selected_code.
  destruct (OptionsEditWin.liststore (w, t).2 !! row) as [name|]; [|exact Hw].
  destruct (D !! name) as [c|]; [|exact Hw].
  step_formats. rewrite P1. step_formats. rewrite P2. step_formats. rewrite P3.
  destruct (str_eq c v1) eqn:C1; cbn [orb].
  { finish_formats. rewrite P1, P2, P3. exact Hp. }
  destruct (str_eq c v2) eqn:C2; cbn [orb].
  { finish_formats. rewrite P1, P2, P3. exact Hp. }
  destruct (str_eq c v3) eqn:C3; cbn [orb].
  { finish_formats. rewrite P1, P2, P3. exact Hp. }
  destruct (str_eq "0" v1) eqn:Z1;
    [|destruct (str_eq "0" v2) eqn:Z2; [|destruct (str_eq "0" v3) eqn:Z3]].
  - repeat step_formats. simplify_peeks. rewrite P2.
    destruct (str_eq "0" v2) eqn:Z2; repeat step_formats; finish_formats;
      try rewrite P1; try rewrite P2; try rewrite P3; close_packed v1 v2 v3.
  - repeat step_formats. simplify_peeks.
    destruct (str_eq "0" (VStr c)) eqn:Zc; repeat step_formats; finish_formats;
      try rewrite P1; try rewrite P2; try rewrite P3; close_packed v1 v2 v3.
  - repeat step_formats. simplify_peeks. rewrite P2. rewrite Z2.
    finish_formats;
      try rewrite P1; try rewrite P2; try rewrite P3; close_packed v1 v2 v3.
  - finish_formats. rewrite P1, P2, P3. exact Hp.
Qed.

(** X3.  Moving a format up keeps the slots packed, the selected row being
    a format, not ['0']. *)
Lemma up_keeps_packed (D : gmap string string) (sel : option nat)
    (w : EditWin) (t : OptionsEditWin.FormatsTab) :
  (forall row name, sel = Some row ->
     OptionsEditWin.liststore2 t !! row = Some name -> D !! name ≠ Some "0") ->
  OptionsEditWin.packed_slots w = true ->
  OptionsEditWin.packed_slots
    (OptionsEditWin.on_formats_tab_up_clicked D sel (w, t)).2.1 = true.
Proof.
  intros Hsel Hp. pose proof Hp as Hw.
  start_formats w t Hp v1 v2 v3 P1 P2 P3 H0.
  unfold OptionsEditWin.on_formats_tab_up_clicked.
  destruct sel as [row|]; [|exact Hw].
  rewrite bind_get. cbv beta. rewrite bind_selected_code.
  destruct (OptionsEditWin.liststore2 (w, t).2 !! row) as [name|] eqn:Hrow;
    [|exact Hw].
  destruct (D !! name) as [c|] eqn:Hc; [|exact Hw].
  assert (Zc : str_eq "0" (VStr c) = false).
  { unfold str_eq. apply String.eqb_neq. intros <-.
    exact (Hsel row name eq_refl Hrow Hc). }
  cbn [snd].
  step_formats. rewrite P1. step_formats. rewrite P2. step_formats. rewrite P3.
  destruct (str_eq c v1) eqn:C1;
    [|destruct (str_eq c v2) eqn:C2; [|destruct (str_eq c v3) eqn:C3]].
  - finish_formats. rewrite P1, P2, P3. exact Hp.
  - repeat step_formats. rewrite bind_get. cbv beta.
    destruct (OptionsEditWin.get_iter _ (Z.of_nat row));
      [destruct (OptionsEditWin.get_iter _ (Z.of_nat row - 1))|];
      finish_formats; try rewrite P1; try rewrite P2; try rewrite P3;
      close_packed v1 v2 v3.
  - repeat step_formats. rewrite bind_get. cbv beta.
    destruct (OptionsEditWin.get_iter _ (Z.of_nat row));
      [destruct (OptionsEditWin.get_iter _ (Z.of_nat row - 1))|];
      finish_formats; try rewrite P1; try rewrite P2; try rewrite P3;
      close_packed v1 v2 v3.
  - finish_formats. rewrite P1, P2, P3. exact Hp.
Qed.

(** C9 (the code departs from it).  With two formats chosen the slots are
    packed; selecting the second, which is the last of the preference list,
    and clicking "Move down" exchanges it with the empty third slot and then
    raises [ValueError], there being no row below to move after.  The slots
    are left as ['18'], ['0'], ['22']: no longer packed. *)
Theorem move_down_unpacks_slots :
  let r := OptionsEditWin.on_formats_tab_down_clicked example_codes (Some 1%nat)
             (example_options_win, example_tab) in
  OptionsEditWin.packed_slots example_options_win = true
  /\ r.1 = Raise ValueError
  /\ OptionsEditWin.slots r.2.1
     = (Ret (VStr "18"), Ret (VStr "0"), Ret (VStr "22"))
  /\ OptionsEditWin.packed_slots r.2.1 = false.
Proof. vm_compute. repeat split. Qed.

(** * Further properties *)

(** ** The Formats tab *)

Lemma remove_keeps_packed_witness :
  OptionsEditWin.packed_slots
    (OptionsEditWin.on_formats_tab_remove_clicked example_codes []
       (Some 0%nat) (example_options_win, example_tab)).2.1 = true.
Proof.
  apply (remove_keeps_packed example_codes [] (Some 0%nat)
           example_options_win example_tab).
  vm_compute. reflexivity.
Defined.

Lemma add_keeps_packed_witness :
  OptionsEditWin.packed_slots
    (OptionsEditWin.on_formats_tab_add_clicked example_codes []
       (Some 2%nat) (example_options_win, example_tab)).2.1 = true.
Proof.
  apply (add_keeps_packed example_codes [] (Some 2%nat)
           example_options_win example_tab).
  vm_compute. reflexivity.
Defined.

Lemma up_keeps_packed_witness :
  OptionsEditWin.packed_slots
    (OptionsEditWin.on_formats_tab_up_clicked example_codes (Some 1%nat)
       (example_options_win, example_tab)).2.1 = true.
Proof.
  apply (up_keeps_packed example_codes (Some 1%nat) example_options_win
           example_tab).
  - intros row name [= <-] Hrow. vm_compute in Hrow.
    injection Hrow as <-. vm_compute. discriminate.
  - vm_compute. reflexivity.
Defined.

Lemma slots_staged (w w' : EditWin) (ed : gmap string pyval) :
  staged_from w w' ed ->
  OptionsEditWin.slots w'
  = (peek_with w ed "video_format", peek_with w ed "second_video_format",
     peek_with w ed "third_video_format").
Proof.
  intros H. unfold OptionsEditWin.slots.
  rewrite !(proj1 (retrieve_val_peek w w' ed _ H)). reflexivity.
Qed.

Lemma slots_peeks (w : EditWin) (v1 v2 v3 : pyval) :
  OptionsEditWin.slots w = (Ret v1, Ret v2, Ret v3) ->
  peek_with w (edit_dict w) "video_format" = Ret v1
  /\ peek_with w (edit_dict w) "second_video_format" = Ret v2
  /\ peek_with w (edit_dict w) "third_video_format" = Ret v3.
Proof.
  rewrite (slots_staged w w _ (staged_from_refl w)). intros H.
  injection H as H1 H2 H3. auto.
Qed.

Ltac finish_slots :=
  cbn [fst snd ret raise OptionsEditWin.on_tab modify];
  match goal with
  | H : staged_from ?w (fst ?s) ?ed |- OptionsEditWin.slots (fst ?s) = _ =>
      rewrite (slots_staged w _ ed H)
  end;
  simplify_peeks.

(** [formats_tab_count_formats] read off the three slots. *)
Lemma count_of_slots (w : EditWin) (v1 v2 v3 : pyval) :
  OptionsEditWin.slots w = (Ret v1, Ret v2, Ret v3) ->
  (OptionsTabs.formats_tab_count_formats w).1
  = Ret (if str_eq "0" v1 then 0
         else if str_eq "0" v2 then 1
         else if str_eq "0" v3 then 2 else 3)%nat.
Proof.
  intros Hs. apply slots_peeks in Hs as (P1 & P2 & P3).
  pose proof (staged_from_refl w) as H0.
  unfold OptionsTabs.formats_tab_count_formats.
  destruct (retrieve_val_peek w w _ "video_format" H0) as [E1 H1].
  unfold bind at 1.
  destruct (OptionsEditWin.retrieve_val "video_format" w) as [r1 w1].
  cbn [fst snd] in E1, H1. rewrite E1, P1.
  destruct (str_eq "0" v1); [reflexivity|].
  destruct (retrieve_val_peek w w1 _ "second_video_format" H1) as [E2 H2].
  unfold bind at 1.
  destruct (OptionsEditWin.retrieve_val "second_video_format" w1) as [r2 w2].
  cbn [fst snd] in E2, H2. rewrite E2, P2.
  destruct (str_eq "0" v2); [reflexivity|].
  destruct (retrieve_val_peek w w2 _ "third_video_format" H2) as [E3 H3].
  unfold bind at 1.
  destruct (OptionsEditWin.retrieve_val "third_video_format" w2) as [r3 w3].
  cbn [fst snd] in E3, H3. rewrite E3, P3.
  destruct (str_eq "0" v3); reflexivity.
Qed.

Tactic Notation "start_slots" constr(w) constr(t) hyp(Hs) ident(P1) ident(P2)
    ident(P3) ident(H0) :=
  apply slots_peeks in Hs as (P1 & P2 & P3);
  pose proof (staged_from_refl w : staged_from w (w, t).1 (edit_dict w)) as H0.

Ltac done_slots P1 P2 P3 :=
  finish_slots; rewrite ?P1, ?P2, ?P3; reflexivity.

Lemma add_clicked_slots (D : gmap string string) (L : list string)
    (row : nat) (name c : string) (w : EditWin) (t : OptionsEditWin.FormatsTab)
    (v1 v2 v3 : pyval) :
  OptionsEditWin.slots w = (Ret v1, Ret v2, Ret v3) ->
  OptionsEditWin.liststore t !! row = Some name ->
  D !! name = Some c ->
  OptionsEditWin.slots
    (OptionsEditWin.on_formats_tab_add_clicked D L (Some row) (w, t)).2.1
  = if str_eq c v1 || str_eq c v2 || str_eq c v3 then (Ret v1, Ret v2, Ret v3)
    else if str_eq "0" v1 then (Ret (VStr c), Ret v2, Ret v3)
    else if str_eq "0" v2 then (Ret v1, Ret (VStr c), Ret v3)
    else if str_eq "0" v3 then (Ret v1, Ret v2, Ret (VStr c))
    else (Ret v1, Ret v2, Ret v3).
Proof.
  intros Hs Hrow Hc. start_slots w t Hs P1 P2 P3 H0.
  unfold OptionsEditWin.on_formats_tab_add_clicked.
  rewrite bind_get. cbv beta. rewrite bind_selected_code.
  cbn [snd]. rewrite Hrow, Hc.
  step_formats. rewrite P1. step_formats. rewrite P2. step_formats. rewrite P3.
  destruct (str_eq c v1 || str_eq c v2 || str_eq c v3); [done_slots P1 P2 P3|].
  destruct (str_eq "0" v1) eqn:Z1;
    [|destruct (str_eq "0" v2) eqn:Z2; [|destruct (str_eq "0" v3) eqn:Z3]].
  - repeat step_formats. simplify_peeks. rewrite P2.
    destruct (str_eq "0" v2); repeat step_formats; done_slots P1 P2 P3.
  - repeat step_formats. simplify_peeks.
    destruct (str_eq "0" (VStr c)); repeat step_formats; done_slots P1 P2 P3.
  - repeat step_formats. simplify_peeks. rewrite P2, Z2. done_slots P1 P2 P3.
  - done_slots P1 P2 P3.
Qed.

(** X4.  Clicking "Add" on a format whose code is in none of the three
    slots puts the code into the first slot that holds ['0'] and leaves the
    other two alone; a format already chosen, or a fourth format, changes
    nothing. *)
Theorem add_fills_first_free_slot (D : gmap string string) (L : list string)
    (row : nat) (name c : string) (w : EditWin) (t : OptionsEditWin.FormatsTab)
    (v1 v2 v3 : pyval) :
  OptionsEditWin.slots w = (Ret v1, Ret v2, Ret v3) ->
  OptionsEditWin.liststore t !! row = Some name ->
  D !! name = Some c ->
  OptionsEditWin.slots
    (OptionsEditWin.on_formats_tab_add_clicked D L (Some row) (w, t)).2.1
  = if str_eq c v1 || str_eq c v2 || str_eq c v3 then (Ret v1, Ret v2, Ret v3)
    else if str_eq "0" v1 then (Ret (VStr c), Ret v2, Ret v3)
    else if str_eq "0" v2 then (Ret v1, Ret (VStr c), Ret v3)
    else if str_eq "0" v3 then (Ret v1, Ret v2, Ret (VStr c))
    else (Ret v1, Ret v2, Ret v3).
Proof. exact (add_clicked_slots D L row name c w t v1 v2 v3). Qed.

Lemma add_fills_first_free_slot_witness :
  OptionsEditWin.slots
    (OptionsEditWin.on_formats_tab_add_clicked example_codes []
       (Some 2%nat) (example_options_win, example_tab)).2.1
  = (Ret (VStr "18"), Ret (VStr "22"), Ret (VStr "137")).
Proof.
  refine (eq_trans
            (add_fills_first_free_slot example_codes [] 2%nat "mp4 [1080p]"
               "137" example_options_win example_tab
               (VStr "18") (VStr "22") (VStr "0") _ _ _) _);
    vm_compute; reflexivity.
Defined.

Lemma remove_clicked_slots (D : gmap string string) (L : list string)
    (row : nat) (name c : string) (w : EditWin) (t : OptionsEditWin.FormatsTab)
    (v1 v2 v3 : pyval) :
  OptionsEditWin.slots w = (Ret v1, Ret v2, Ret v3) ->
  OptionsEditWin.liststore2 t !! row = Some name ->
  D !! name = Some c ->
  OptionsEditWin.slots
    (OptionsEditWin.on_formats_tab_remove_clicked D L (Some row) (w, t)).2.1
  = if str_eq c v1 then (Ret v2, Ret v3, Ret (VStr "0"))
    else if str_eq c v2 then (Ret v1, Ret v3, Ret (VStr "0"))
    else if str_eq c v3 then (Ret v1, Ret v2, Ret (VStr "0"))
    else (Ret v1, Ret v2, Ret v3).
Proof.
  intros Hs Hrow Hc. start_slots w t Hs P1 P2 P3 H0.
  unfold OptionsEditWin.on_formats_tab_remove_clicked.
  rewrite bind_get. cbv beta. rewrite bind_selected_code.
  cbn [snd]. rewrite Hrow, Hc. cbn [snd].
  step_formats. rewrite P1. step_formats. rewrite P2. step_formats. rewrite P3.
  destruct (str_eq c v1) eqn:C1;
    [|destruct (str_eq c v2) eqn:C2; [|destruct (str_eq c v3) eqn:C3]].
  - repeat step_formats. simplify_peeks.
    destruct (str_eq "0" v2); repeat step_formats; done_slots P1 P2 P3.
  - repeat step_formats. simplify_peeks. rewrite P1.
    destruct (str_eq "0" v1); repeat step_formats; done_slots P1 P2 P3.
  - repeat step_formats. simplify_peeks. rewrite P1.
    destruct (str_eq "0" v1); repeat step_formats; done_slots P1 P2 P3.
  - done_slots P1 P2 P3.
Qed.

(** X5.  Clicking "Remove" on a chosen format takes its code out, moves the
    slots after it one place to the left and sets the last to ['0']; a
    format that is in no slot changes nothing. *)
Theorem remove_shifts_slots_left (D : gmap string string) (L : list string)
    (row : nat) (name c : string) (w : EditWin) (t : OptionsEditWin.FormatsTab)
    (v1 v2 v3 : pyval) :
  OptionsEditWin.slots w = (Ret v1, Ret v2, Ret v3) ->
  OptionsEditWin.liststore2 t !! row = Some name ->
  D !! name = Some c ->
  OptionsEditWin.slots
    (OptionsEditWin.on_formats_tab_remove_clicked D L (Some row) (w, t)).2.1
  = if str_eq c v1 then (Ret v2, Ret v3, Ret (VStr "0"))
    else if str_eq c v2 then (Ret v1, Ret v3, Ret (VStr "0"))
    else if str_eq c v3 then (Ret v1, Ret v2, Ret (VStr "0"))
    else (Ret v1, Ret v2, Ret v3).
Proof. exact (remove_clicked_slots D L row name c w t v1 v2 v3). Qed.

Lemma remove_shifts_slots_left_witness :
  OptionsEditWin.slots
    (OptionsEditWin.on_formats_tab_remove_clicked example_codes []
       (Some 0%nat) (example_options_win, example_tab)).2.1
  = (Ret (VStr "22"), Ret (VStr "0"), Ret (VStr "0")).
Proof.
  refine (eq_trans
            (remove_shifts_slots_left example_codes [] 0%nat "mp4 [360p]"
               "18" example_options_win example_tab
               (VStr "18") (VStr "22") (VStr "0") _ _ _) _);
    vm_compute; reflexivity.
Defined.

Lemma down_slots (D : gmap string string)
    (row : nat) (name c : string) (w : EditWin) (t : OptionsEditWin.FormatsTab)
    (v1 v2 v3 : pyval) :
  OptionsEditWin.slots w = (Ret v1, Ret v2, Ret v3) ->
  OptionsEditWin.liststore2 t !! row = Some name ->
  D !! name = Some c ->
  OptionsEditWin.slots
    (OptionsEditWin.on_formats_tab_down_clicked D (Some row) (w, t)).2.1
  = if str_eq c v3 then (Ret v1, Ret v2, Ret v3)
    else if str_eq c v2 then (Ret v1, Ret v3, Ret v2)
    else if str_eq c v1 then (Ret v2, Ret v1, Ret v3)
    else (Ret v1, Ret v2, Ret v3).
Proof.
  intros Hs Hrow Hc. start_slots w t Hs P1 P2 P3 H0.
  unfold OptionsEditWin.on_formats_tab_down_clicked.
  rewrite bind_get. cbv beta. rewrite bind_selected_code.
  cbn [snd]. rewrite Hrow, Hc. cbn [snd].
  step_formats. rewrite P1. step_formats. rewrite P2. step_formats. rewrite P3.
  destruct (str_eq c v3) eqn:C3;
    [|destruct (str_eq c v2) eqn:C2; [|destruct (str_eq c v1) eqn:C1]].
  - done_slots P1 P2 P3.
  - repeat step_formats. rewrite bind_get. cbv beta.
    destruct (OptionsEditWin.get_iter _ (Z.of_nat row));
      [destruct (OptionsEditWin.get_iter _ (Z.of_nat row + 1))|];
      done_slots P1 P2 P3.
  - repeat step_formats. rewrite bind_get. cbv beta.
    destruct (OptionsEditWin.get_iter _ (Z.of_nat row));
      [destruct (OptionsEditWin.get_iter _ (Z.of_nat row + 1))|];
      done_slots P1 P2 P3.
  - done_slots P1 P2 P3.
Qed.

Lemma up_slots (D : gmap string string)
    (row : nat) (name c : string) (w : EditWin) (t : OptionsEditWin.FormatsTab)
    (v1 v2 v3 : pyval) :
  OptionsEditWin.slots w = (Ret v1, Ret v2, Ret v3) ->
  OptionsEditWin.liststore2 t !! row = Some name ->
  D !! name = Some c ->
  OptionsEditWin.slots
    (OptionsEditWin.on_formats_tab_up_clicked D (Some row) (w, t)).2.1
  = if str_eq c v1 then (Ret v1, Ret v2, Ret v3)
    else if str_eq c v2 then (Ret v2, Ret v1, Ret v3)
    else if str_eq c v3 then (Ret v1, Ret v3, Ret v2)
    else (Ret v1, Ret v2, Ret v3).
Proof.
  intros Hs Hrow Hc. start_slots w t Hs P1 P2 P3 H0.
  unfold OptionsEditWin.on_formats_tab_up_clicked.
  rewrite bind_get. cbv beta. rewrite bind_selected_code.
  cbn [snd]. rewrite Hrow, Hc. cbn [snd].
  step_formats. rewrite P1. step_formats. rewrite P2. step_formats. rewrite P3.
  destruct (str_eq c v1) eqn:C1;
    [|destruct (str_eq c v2) eqn:C2; [|destruct (str_eq c v3) eqn:C3]].
  - done_slots P1 P2 P3.
  - repeat step_formats. rewrite bind_get. cbv beta.
    destruct (OptionsEditWin.get_iter _ (Z.of_nat row));
      [destruct (OptionsEditWin.get_iter _ (Z.of_nat row - 1))|];
      done_slots P1 P2 P3.
  - repeat step_formats. rewrite bind_get. cbv beta.
    destruct (OptionsEditWin.get_iter _ (Z.of_nat row));
      [destruct (OptionsEditWin.get_iter _ (Z.of_nat row - 1))|];
      done_slots P1 P2 P3.
  - done_slots P1 P2 P3.
Qed.

Lemma packed_slots_of (w : EditWin) (v1 v2 v3 : pyval) :
  OptionsEditWin.slots w = (Ret v1, Ret v2, Ret v3) ->
  OptionsEditWin.packed_slots w = OptionsEditWin.packed v1 v2 v3.
Proof. intros H. unfold OptionsEditWin.packed_slots. rewrite H. reflexivity. Qed.

Lemma packed_slots_inv (w : EditWin) :
  OptionsEditWin.packed_slots w = true ->
  exists v1 v2 v3,
    OptionsEditWin.slots w = (Ret v1, Ret v2, Ret v3)
    /\ OptionsEditWin.packed v1 v2 v3 = true.
Proof.
  unfold OptionsEditWin.packed_slots.
  destruct (OptionsEditWin.slots w) as [[[v1|] [v2|]] [v3|]]; try discriminate.
  intros H. exists v1, v2, v3. split; [reflexivity|exact H].
Qed.

Lemma not_zero_code (c : string) : c ≠ "0" -> str_eq "0" (VStr c) = false.
Proof. intros H. unfold str_eq. apply String.eqb_neq. congruence. Qed.

(** Case analysis on which slots hold ['0'] and which hold the code. *)
Ltac slot_cases :=
  repeat match goal with
    | Hz : str_eq "0" ?v = true, Hc : str_eq ?c ?v = false |- _ =>
        pose proof (zero_not_selected c v Hz Hc); clear Hc
    end;
  repeat match goal with
    | Hc : str_eq ?c ?v = true |- _ =>
        apply selected_is in Hc; try subst v
    end;
  unfold OptionsEditWin.packed in *;
  change (str_eq "0" (VStr "0")) with true in *;
  repeat match goal with
    | H : str_eq "0" (VStr ?c) = false |- _ => rewrite ?H in *; clear H
    end;
  repeat match goal with
    | H : context [str_eq "0" ?v] |- _ => destruct (str_eq "0" v)
    | |- context [str_eq "0" ?v] => destruct (str_eq "0" v)
    end;
  cbn in *; try congruence; try lia.

(** X6.  On packed slots [formats_tab_count_formats] is the number of slots
    that hold a format. *)
Theorem count_of_packed_slots (w : EditWin) :
  OptionsEditWin.packed_slots w = true ->
  exists v1 v2 v3,
    OptionsEditWin.slots w = (Ret v1, Ret v2, Ret v3)
    /\ (OptionsTabs.formats_tab_count_formats w).1
       = Ret ((if str_eq "0" v1 then 0 else 1)
              + (if str_eq "0" v2 then 0 else 1)
              + (if str_eq "0" v3 then 0 else 1))%nat.
Proof.
  intros H. apply packed_slots_inv in H as (v1 & v2 & v3 & Hs & Hp).
  exists v1, v2, v3. split; [exact Hs|].
  rewrite (count_of_slots w v1 v2 v3 Hs). f_equal. slot_cases.
Qed.

Lemma count_of_packed_slots_witness :
  exists v1 v2 v3,
    OptionsEditWin.slots example_options_win = (Ret v1, Ret v2, Ret v3)
    /\ (OptionsTabs.formats_tab_count_formats example_options_win).1
       = Ret ((if str_eq "0" v1 then 0 else 1)
              + (if str_eq "0" v2 then 0 else 1)
              + (if str_eq "0" v3 then 0 else 1))%nat.
Proof.
  apply (count_of_packed_slots example_options_win).
  vm_compute. reflexivity.
Defined.

(** X7.  Adding a format that is not yet chosen, to packed slots with room
    left, makes the count of formats one more. *)
Theorem add_increments_count (D : gmap string string) (L : list string)
    (row : nat) (name c : string) (w : EditWin) (t : OptionsEditWin.FormatsTab)
    (v1 v2 v3 : pyval) (n : nat) :
  OptionsEditWin.slots w = (Ret v1, Ret v2, Ret v3) ->
  OptionsEditWin.packed v1 v2 v3 = true ->
  OptionsEditWin.liststore t !! row = Some name ->
  D !! name = Some c ->
  str_eq c v1 || str_eq c v2 || str_eq c v3 = false ->
  (OptionsTabs.formats_tab_count_formats w).1 = Ret n ->
  (n < 3)%nat ->
  (OptionsTabs.formats_tab_count_formats
     (OptionsEditWin.on_formats_tab_add_clicked D L (Some row) (w, t)).2.1).1
  = Ret (S n).
Proof.
  intros Hs Hp Hrow Hc Hnew Hn Hlt.
  pose proof (add_clicked_slots D L row name c w t v1 v2 v3 Hs Hrow Hc)
    as Ha.
  rewrite (count_of_slots w v1 v2 v3 Hs) in Hn. injection Hn as Hn.
  rewrite Hnew in Ha.
  apply orb_false_iff in Hnew as [Hnew C3].
  apply orb_false_iff in Hnew as [C1 C2].
  destruct (str_eq "0" v1) eqn:Z1;
    [|destruct (str_eq "0" v2) eqn:Z2; [|destruct (str_eq "0" v3) eqn:Z3]];
    rewrite (count_of_slots _ _ _ _ Ha); f_equal; subst n; slot_cases.
Qed.

Lemma add_increments_count_witness :
  (OptionsTabs.formats_tab_count_formats
     (OptionsEditWin.on_formats_tab_add_clicked example_codes []
        (Some 2%nat) (example_options_win, example_tab)).2.1).1
  = Ret 3%nat.
Proof.
  apply (add_increments_count example_codes [] 2%nat "mp4 [1080p]" "137"
           example_options_win example_tab
           (VStr "18") (VStr "22") (VStr "0") 2%nat);
    first [lia | vm_compute; reflexivity].
Defined.

(** X8.  Removing a chosen format from packed slots makes the count of
    formats one less. *)
Theorem remove_decrements_count (D : gmap string string) (L : list string)
    (row : nat) (name c : string) (w : EditWin) (t : OptionsEditWin.FormatsTab)
    (v1 v2 v3 : pyval) (n : nat) :
  OptionsEditWin.slots w = (Ret v1, Ret v2, Ret v3) ->
  OptionsEditWin.packed v1 v2 v3 = true ->
  OptionsEditWin.liststore2 t !! row = Some name ->
  D !! name = Some c ->
  c ≠ "0" ->
  str_eq c v1 || str_eq c v2 || str_eq c v3 = true ->
  (OptionsTabs.formats_tab_count_formats w).1 = Ret n ->
  (0 < n)%nat
  /\ (OptionsTabs.formats_tab_count_formats
        (OptionsEditWin.on_formats_tab_remove_clicked D L (Some row) (w, t)).2.1).1
     = Ret (pred n).
Proof.
  intros Hs Hp Hrow Hc Hc0 Hin Hn.
  pose proof (remove_clicked_slots D L row name c w t v1 v2 v3 Hs Hrow Hc)
    as Ha.
  rewrite (count_of_slots w v1 v2 v3 Hs) in Hn. injection Hn as Hn.
  apply not_zero_code in Hc0.
  destruct (str_eq c v1) eqn:C1;
    [|destruct (str_eq c v2) eqn:C2; [|destruct (str_eq c v3) eqn:C3]];
    try discriminate Hin;
    rewrite (count_of_slots _ _ _ _ Ha); subst n;
    (split; [|f_equal]); slot_cases.
Qed.

Lemma remove_decrements_count_witness :
  (0 < 2)%nat
  /\ (OptionsTabs.formats_tab_count_formats
        (OptionsEditWin.on_formats_tab_remove_clicked example_codes []
           (Some 0%nat) (example_options_win, example_tab)).2.1).1
     = Ret 1%nat.
Proof.
  apply (remove_decrements_count example_codes [] 0%nat "mp4 [360p]" "18"
           example_options_win example_tab
           (VStr "18") (VStr "22") (VStr "0") 2%nat);
    try (vm_compute; reflexivity).
  discriminate.
Defined.

Lemma down_without_code (D : gmap string string) (sel : option nat)
    (w : EditWin) (t : OptionsEditWin.FormatsTab) :
  (forall row name, sel = Some row ->
     OptionsEditWin.liststore2 t !! row = Some name -> D !! name = None) ->
  (OptionsEditWin.on_formats_tab_down_clicked D sel (w, t)).2 = (w, t).
Proof.
  intros H. unfold OptionsEditWin.on_formats_tab_down_clicked.
  destruct sel as [row|]; [|reflexivity].
  rewrite bind_get. cbv beta. rewrite bind_selected_code. cbn [snd].
  destruct (OptionsEditWin.liststore2 t !! row) as [name|] eqn:Hrow;
    [|reflexivity].
  rewrite (H row name eq_refl Hrow). reflexivity.
Qed.

(** X9.  With all three slots taken, "Move down" keeps them packed,
    whichever row is selected. *)
Theorem down_keeps_packed_when_full (D : gmap string string)
    (sel : option nat) (w : EditWin) (t : OptionsEditWin.FormatsTab) :
  OptionsEditWin.packed_slots w = true ->
  (OptionsTabs.formats_tab_count_formats w).1 = Ret 3%nat ->
  OptionsEditWin.packed_slots
    (OptionsEditWin.on_formats_tab_down_clicked D sel (w, t)).2.1 = true.
Proof.
  intros Hp Hn. pose proof Hp as Hw.
  apply packed_slots_inv in Hp as (v1 & v2 & v3 & Hs & Hp).
  rewrite (count_of_slots w v1 v2 v3 Hs) in Hn. injection Hn as Hn.
  destruct sel as [row|]; [|exact Hw].
  destruct (OptionsEditWin.liststore2 t !! row) as [name|] eqn:Hrow.
  2:{ rewrite down_without_code; [exact Hw|].
      intros r nm [= <-] Hr. congruence. }
  destruct (D !! name) as [c|] eqn:Hc.
  2:{ rewrite down_without_code; [exact Hw|].
      intros r nm [= <-] Hr. congruence. }
  pose proof (down_slots D row name c w t v1 v2 v3 Hs Hrow Hc) as Hd.
  destruct (str_eq c v3); [|destruct (str_eq c v2); [|destruct (str_eq c v1)]];
    rewrite (packed_slots_of _ _ _ _ Hd); slot_cases.
Qed.

Lemma down_keeps_packed_when_full_witness :
  OptionsEditWin.packed_slots
    (OptionsEditWin.on_formats_tab_down_clicked example_codes (Some 0%nat)
       (example_staged_win, example_full_tab)).2.1 = true.
Proof.
  apply (down_keeps_packed_when_full example_codes (Some 0%nat)
           example_staged_win example_full_tab);
    vm_compute; reflexivity.
Defined.

(** X10.  With one or two formats chosen, "Move down" on the last of them
    exchanges it with the ['0'] of the next slot: the slots are no longer
    packed. *)
Theorem down_unpacks_last_format (D : gmap string string)
    (row : nat) (name c : string) (w : EditWin) (t : OptionsEditWin.FormatsTab)
    (v1 v2 v3 : pyval) (n : nat) :
  OptionsEditWin.slots w = (Ret v1, Ret v2, Ret v3) ->
  OptionsEditWin.packed v1 v2 v3 = true ->
  OptionsEditWin.liststore2 t !! row = Some name ->
  D !! name = Some c ->
  c ≠ "0" ->
  (OptionsTabs.formats_tab_count_formats w).1 = Ret n ->
  (n = 1%nat /\ str_eq c v1 = true) \/ (n = 2%nat /\ str_eq c v2 = true) ->
  OptionsEditWin.packed_slots
    (OptionsEditWin.on_formats_tab_down_clicked D (Some row) (w, t)).2.1 = false.
Proof.
  intros Hs Hp Hrow Hc Hc0 Hn Hlast.
  pose proof (down_slots D row name c w t v1 v2 v3 Hs Hrow Hc) as Hd.
  rewrite (count_of_slots w v1 v2 v3 Hs) in Hn. injection Hn as Hn.
  apply not_zero_code in Hc0.
  destruct (str_eq c v3) eqn:C3;
    [|destruct (str_eq c v2) eqn:C2; [|destruct (str_eq c v1) eqn:C1]];
    rewrite (packed_slots_of _ _ _ _ Hd);
    destruct Hlast as [[-> C]|[-> C]]; try discriminate C; slot_cases.
Qed.

Lemma down_unpacks_last_format_witness :
  OptionsEditWin.packed_slots
    (OptionsEditWin.on_formats_tab_down_clicked example_codes (Some 1%nat)
       (example_options_win, example_tab)).2.1 = false.
Proof.
  apply (down_unpacks_last_format example_codes 1%nat "mp4 [720p]" "22"
           example_options_win example_tab
           (VStr "18") (VStr "22") (VStr "0") 2%nat);
    try (vm_compute; reflexivity).
  - discriminate.
  - right. split; reflexivity.
Defined.

(** X11.  After "Move down" has moved a format, "Move up" on the same format
    puts the three slots back as they were. *)
Theorem up_undoes_down (D : gmap string string) (row row' : nat)
    (name name' c : string) (w : EditWin) (t : OptionsEditWin.FormatsTab)
    (v1 v2 v3 : pyval) :
  OptionsEditWin.slots w = (Ret v1, Ret v2, Ret v3) ->
  OptionsEditWin.liststore2 t !! row = Some name ->
  D !! name = Some c ->
  str_eq c v3 = false ->
  xorb (str_eq c v1) (str_eq c v2) = true ->
  let s := (OptionsEditWin.on_formats_tab_down_clicked D (Some row) (w, t)).2 in
  OptionsEditWin.liststore2 s.2 !! row' = Some name' ->
  D !! name' = Some c ->
  OptionsEditWin.slots
    (OptionsEditWin.on_formats_tab_up_clicked D (Some row') s).2.1
  = OptionsEditWin.slots w.
Proof.
  intros Hs Hrow Hc C3 Hx s Hrow' Hc'.
  pose proof (down_slots D row name c w t v1 v2 v3 Hs Hrow Hc) as Hd.
  fold s in Hd. destruct s as [w1 t1]. cbn [fst snd] in *.
  rewrite C3 in Hd. rewrite Hs.
  destruct (str_eq c v2) eqn:C2; destruct (str_eq c v1) eqn:C1;
    try discriminate Hx;
    rewrite (up_slots D row' name' c w1 t1 _ _ _ Hd Hrow' Hc');
    rewrite ?C1, ?C2, ?C3; reflexivity.
Qed.

Lemma up_undoes_down_witness :
  OptionsEditWin.slots
    (OptionsEditWin.on_formats_tab_up_clicked example_codes (Some 1%nat)
       (OptionsEditWin.on_formats_tab_down_clicked example_codes (Some 0%nat)
          (example_staged_win, example_full_tab)).2).2.1
  = OptionsEditWin.slots example_staged_win.
Proof.
  apply (up_undoes_down example_codes 0%nat 1%nat "mp4 [360p]" "mp4 [360p]"
           "18" example_staged_win example_full_tab
           (VStr "18") (VStr "22") (VStr "137"));
    vm_compute; reflexivity.
Defined.

(** ** Applying and discarding, once more *)

Lemma for_each_nil {S A} (body : A -> M S unit) (s : S) :
  for_each [] body s = (Ret tt, s).
Proof. reflexivity. Qed.

Lemma set_edit_dict_empty (w : EditWin) :
  edit_dict w = ∅ -> set_edit_dict (fun _ => ∅) w = w.
Proof. destruct w. cbn. intros ->. reflexivity. Qed.

(** X12.  With nothing staged the OK button applies nothing and raises
    nothing: it only closes the window. *)
Theorem ok_with_nothing_staged (w : EditWin) :
  edit_dict w = ∅ ->
  GenericEditWin.on_button_ok_clicked w = (Ret tt, set_destroyed true w).
Proof.
  intros He.
  assert (Hg : GenericEditWin.apply_changes w = (Ret tt, w)).
  { unfold GenericEditWin.apply_changes. rewrite bind_get. cbv beta.
    rewrite He, map_to_list_empty. unfold bind. cbn.
    unfold modify. rewrite set_edit_dict_empty by exact He. reflexivity. }
  assert (Ho : OptionsEditWin.apply_changes w = (Ret tt, w)).
  { unfold OptionsEditWin.apply_changes. rewrite bind_get. cbv beta.
    rewrite He, map_to_list_empty. unfold bind. cbn.
    unfold modify. rewrite set_edit_dict_empty by exact He. reflexivity. }
  unfold GenericEditWin.on_button_ok_clicked, GenericEditWin.self_apply_changes.
  unfold bind at 1. rewrite bind_get. cbv beta.
  destruct (win_class w); rewrite ?Hg, ?Ho; reflexivity.
Qed.

Lemma ok_with_nothing_staged_witness :
  GenericEditWin.on_button_ok_clicked example_options_win
  = (Ret tt, set_destroyed true example_options_win).
Proof. apply (ok_with_nothing_staged example_options_win). reflexivity. Defined.

Lemma options_apply_changes_result (w : EditWin) (ob : pyobj)
    (d : gmap string pyval) :
  store w !! edit_obj w = Some ob ->
  options_dict ob = Some d ->
  OptionsEditWin.apply_changes w
  = (Ret tt,
     set_edit_dict (fun _ => ∅)
       (set_store
          (insert (edit_obj w)
             (PyObj (attrs ob)
                (Some (foldl (fun d kv => <[kv.1 := kv.2]> d) d
                         (map_to_list (edit_dict w))))))
          w)).
Proof.
  intros Hob Hd.
  unfold OptionsEditWin.apply_changes. unfold bind at 1. unfold get at 1.
  unfold bind at 1.
  rewrite (options_loop (map_to_list (edit_dict w)) w ob d Hob Hd).
  - reflexivity.
  - intros k v Hin. apply elem_of_map_to_list. exact Hin.
Qed.

(** X14.  In the download-options window applying the staged changes changes
    no value [retrieve_val] shows: what was read from the staged changes is
    afterwards read from the options manager. *)
Theorem apply_changes_keeps_retrieved_values (w : EditWin) (ob : pyobj)
    (d : gmap string pyval) (name : string) :
  store w !! edit_obj w = Some ob ->
  options_dict ob = Some d ->
  (OptionsEditWin.retrieve_val name (OptionsEditWin.apply_changes w).2).1
  = (OptionsEditWin.retrieve_val name w).1.
Proof.
  intros Hob Hd.
  rewrite (options_apply_changes_result w ob d Hob Hd). cbn [snd].
  rewrite (proj1 (retrieve_val_peek w w _ name (staged_from_refl w))).
  set (w' := set_edit_dict _ _).
  rewrite (proj1 (retrieve_val_peek w' w' _ name (staged_from_refl w'))).
  unfold peek_with, w'. cbn. rewrite lookup_empty, lookup_insert_eq, Hob, Hd. cbn.
  rewrite foldl_insert_lookup by apply NoDup_fst_map_to_list.
  rewrite list_to_map_to_list.
  destruct (edit_dict w !! name); reflexivity.
Qed.

Lemma apply_changes_keeps_retrieved_values_witness :
  (OptionsEditWin.retrieve_val "third_video_format"
     (OptionsEditWin.apply_changes example_staged_win).2).1
  = (OptionsEditWin.retrieve_val "third_video_format" example_staged_win).1.
Proof.
  apply (apply_changes_keeps_retrieved_values example_staged_win
           (PyObj ∅ (Some example_options_1)) example_options_1
           "third_video_format");
    reflexivity.
Defined.

(** ** Widget changes and the pending-changes mapping *)

(** A widget change stages at most one value, under its own property. *)
Lemma callback_edit_dict (e : change_event) (w : EditWin) :
  edit_dict (callback e w).2 = edit_dict w
  \/ exists v, edit_dict (callback e w).2 = <[prop_of e := v]> (edit_dict w).
Proof.
  destruct e as [b p|c p|c p|t p|b p v|s p|t p]; unfold callback, prop_of.
  - right. unfold GenericEditWin.on_checkbutton_toggled.
    destruct (negb (get_active b)); eexists; reflexivity.
  - unfold GenericEditWin.on_combo_changed.
    destruct (model_cell c 0); [right; eexists; reflexivity|left; reflexivity].
  - unfold GenericEditWin.on_combo_with_data_changed.
    destruct (model_cell c 1); [right; eexists; reflexivity|left; reflexivity].
  - right. eexists. reflexivity.
  - left. rewrite radiobutton_name_unbound. reflexivity.
  - right. eexists. reflexivity.
  - unfold GenericEditWin.on_textview_changed, bind.
    pose proof (self_retrieve_val_frame p w) as [_ Hd]. cbv zeta in Hd.
    destruct (GenericEditWin.self_retrieve_val p w) as [[old|ex] w1];
      cbn [snd] in Hd.
    + right. destruct old; eexists; cbn; rewrite Hd; reflexivity.
    + left. exact Hd.
Qed.

(** X15.  No sequence of widget changes takes a key out of the
    pending-changes mapping: what is staged stays staged, possibly with a
    newer value. *)
Theorem callbacks_never_unstage (events : list change_event) (w : EditWin)
    (key : string) :
  is_Some (edit_dict w !! key) ->
  is_Some (edit_dict (run_callbacks events w) !! key).
Proof.
  revert w. induction events as [|e events IH]; intros w H; [exact H|].
  cbn [run_callbacks fold_left]. apply IH.
  destruct (callback_edit_dict e w) as [E|[v E]]; rewrite E; [exact H|].
  destruct (decide (prop_of e = key)) as [->|Hne].
  - rewrite lookup_insert_eq. eauto.
  - rewrite lookup_insert_ne by exact Hne. exact H.
Qed.

Lemma callbacks_never_unstage_witness :
  is_Some
    (edit_dict
       (run_callbacks
          [EntryChanged {| get_text := "A video" |} "name";
           CheckbuttonToggled {| get_active := true |} "dl_sim_flag"]
          example_video_win) !! "descrip").
Proof.
  apply (callbacks_never_unstage
           [EntryChanged {| get_text := "A video" |} "name";
            CheckbuttonToggled {| get_active := true |} "dl_sim_flag"]
           example_video_win "descrip").
  exists (VStr "new text"). reflexivity.
Defined.

(** What [retrieve_val] answers depends on the objects and on the entry
    staged under the name. *)
Lemma self_retrieve_val_ext (w w' : EditWin) (name : string) :
  same_objects w w' ->
  edit_dict w' !! name = edit_dict w !! name ->
  (GenericEditWin.self_retrieve_val name w').1
  = (GenericEditWin.self_retrieve_val name w).1.
Proof.
  intros (H1 & H2 & H3 & H4) He.
  unfold GenericEditWin.self_retrieve_val. rewrite !bind_get. cbv beta.
  rewrite H3.
  assert (Hg : (GenericEditWin.retrieve_val name w').1
               = (GenericEditWin.retrieve_val name w).1).
  { unfold GenericEditWin.retrieve_val, dict_get. rewrite !bind_get. cbv beta.
    rewrite He. destruct (edit_dict w !! name); [reflexivity|].
    unfold builtin_getattr. rewrite H1, H2.
    destruct (store w !! edit_obj w) as [ob|]; [|reflexivity].
    destruct (attrs ob !! name); reflexivity. }
  destruct (win_class w); try exact Hg.
  unfold OptionsEditWin.retrieve_val, dict_get. rewrite !bind_get. cbv beta.
  rewrite He. destruct (edit_dict w !! name); [reflexivity|].
  unfold bind, OptionsEditWin.get_options_dict. rewrite H1, H2.
  destruct (store w !! edit_obj w) as [ob|]; [|reflexivity].
  destruct (options_dict ob) as [d|]; [|reflexivity].
  destruct (d !! name); [reflexivity|]. cbn. rewrite H4. reflexivity.
Qed.

(** X16.  A widget change leaves the value [retrieve_val] shows for every
    property other than the widget's own as it was. *)
Theorem callback_keeps_other_properties (e : change_event) (w : EditWin)
    (name : string) :
  name ≠ prop_of e ->
  (GenericEditWin.self_retrieve_val name (callback e w).2).1
  = (GenericEditWin.self_retrieve_val name w).1.
Proof.
  intros Hne. apply self_retrieve_val_ext.
  - apply callback_same_objects.
  - destruct (callback_edit_dict e w) as [E|[v E]]; rewrite E; [reflexivity|].
    apply lookup_insert_ne. congruence.
Qed.

Lemma callback_keeps_other_properties_witness :
  (GenericEditWin.self_retrieve_val "descrip"
     (callback (EntryChanged {| get_text := "A video" |} "name")
        example_video_win).2).1
  = (GenericEditWin.self_retrieve_val "descrip" example_video_win).1.
Proof.
  apply (callback_keeps_other_properties
           (EntryChanged {| get_text := "A video" |} "name")
           example_video_win "descrip").
  discriminate.
Defined.

(** ** Text views and lists *)

Lemma string_app_nil_r (s : string) : s +:+ "" = s.
Proof.
  induction s as [|c s IH]; [reflexivity|].
  change (String c s +:+ "") with (String c (s +:+ "")). f_equal. exact IH.
Qed.

Lemma string_app_assoc (a b c : string) : (a +:+ b) +:+ c = a +:+ (b +:+ c).
Proof.
  induction a as [|x a IH]; [reflexivity|].
  change ((String x a +:+ b) +:+ c) with (String x ((a +:+ b) +:+ c)).
  change (String x a +:+ (b +:+ c)) with (String x (a +:+ (b +:+ c))).
  f_equal. exact IH.
Qed.

(** Whether a white-space character begins a string is settled by the bytes
    of that character: what follows cannot make one. *)
Lemma space_width_app_zero (u r : string) :
  GenericEditWin.space_width (u +:+ r) = 0%nat ->
  GenericEditWin.space_width u = 0%nat.
Proof.
  destruct u as [|a [|b [|c u]]]; [reflexivity| | |].
  - change (String a "" +:+ r) with (String a r).
    unfold GenericEditWin.space_width.
    destruct (GenericEditWin.is_space a); [discriminate|reflexivity].
  - change (String a (String b "") +:+ r) with (String a (String b r)).
    unfold GenericEditWin.space_width.
    destruct (GenericEditWin.is_space a); [discriminate|].
    destruct (GenericEditWin.is_space2 a b); [discriminate|reflexivity].
  - change (String a (String b (String c u)) +:+ r)
      with (String a (String b (String c (u +:+ r)))).
    intros H. exact H.
Qed.

Lemma is_space2_newline (a : ascii) :
  GenericEditWin.is_space2 a (ascii_of_nat 10) = false.
Proof.
  unfold GenericEditWin.is_space2.
  change (nat_of_ascii (ascii_of_nat 10)) with 10%nat.
  cbv zeta. apply andb_false_r.
Qed.

Lemma is_space3_newline_2 (a c : ascii) :
  GenericEditWin.is_space3 a (ascii_of_nat 10) c = false.
Proof.
  unfold GenericEditWin.is_space3.
  change (nat_of_ascii (ascii_of_nat 10)) with 10%nat.
  cbv zeta. generalize (nat_of_ascii a) (nat_of_ascii c). intros x z.
  change (10 =? 154)%nat with false. change (10 =? 128)%nat with false.
  change (10 =? 129)%nat with false.
  rewrite !andb_false_r. reflexivity.
Qed.

Lemma is_space3_newline_3 (a b : ascii) :
  GenericEditWin.is_space3 a b (ascii_of_nat 10) = false.
Proof.
  unfold GenericEditWin.is_space3.
  change (nat_of_ascii (ascii_of_nat 10)) with 10%nat.
  cbv zeta. generalize (nat_of_ascii a) (nat_of_ascii b). intros x y.
  change (10 =? 128)%nat with false. change (128 <=? 10)%nat with false.
  change (10 =? 168)%nat with false. change (10 =? 169)%nat with false.
  change (10 =? 175)%nat with false. change (10 =? 159)%nat with false.
  cbn [andb orb]. rewrite !andb_false_r. reflexivity.
Qed.

(** A newline after a string begins no white-space character inside it. *)
Lemma space_width_newline (u r : string) :
  u ≠ "" ->
  GenericEditWin.space_width u = 0%nat ->
  GenericEditWin.space_width (u +:+ String (ascii_of_nat 10) r) = 0%nat.
Proof.
  intros Hu. destruct u as [|a [|b [|c u]]]; [contradiction| | |].
  - change (String a "" +:+ String (ascii_of_nat 10) r)
      with (String a (String (ascii_of_nat 10) r)).
    unfold GenericEditWin.space_width.
    destruct (GenericEditWin.is_space a); [discriminate|]. intros _.
    rewrite is_space2_newline.
    destruct r as [|c r]; [reflexivity|].
    rewrite is_space3_newline_2. reflexivity.
  - change (String a (String b "") +:+ String (ascii_of_nat 10) r)
      with (String a (String b (String (ascii_of_nat 10) r))).
    unfold GenericEditWin.space_width.
    destruct (GenericEditWin.is_space a); [discriminate|].
    destruct (GenericEditWin.is_space2 a b); [discriminate|]. intros _.
    rewrite is_space3_newline_3. reflexivity.
  - change (String a (String b (String c u)) +:+ String (ascii_of_nat 10) r)
      with (String a (String b (String c (u +:+ String (ascii_of_nat 10) r)))).
    intros H. exact H.
Qed.

Lemma no_space_before_cons (c : ascii) (word rest : string) :
  no_space_before (String c word) rest
  = (GenericEditWin.space_width (String c (word +:+ rest)) =? 0)%nat
    && no_space_before word rest.
Proof. reflexivity. Qed.

Lemma no_space_before_nil (word rest : string) :
  no_space_before word rest = true -> no_space word = true.
Proof.
  unfold no_space. induction word as [|c word IH]; [reflexivity|].
  rewrite !no_space_before_cons. intros H.
  apply andb_true_iff in H as [H1 H2]. apply Nat.eqb_eq in H1.
  rewrite (IH H2), andb_true_r. apply Nat.eqb_eq.
  rewrite string_app_nil_r.
  apply (space_width_app_zero (String c word) rest). exact H1.
Qed.

Lemma no_space_before_newline (word r : string) :
  no_space word = true ->
  no_space_before word (String (ascii_of_nat 10) r) = true.
Proof.
  unfold no_space. induction word as [|c word IH]; [reflexivity|].
  rewrite !no_space_before_cons. intros H.
  apply andb_true_iff in H as [H1 H2]. apply Nat.eqb_eq in H1.
  rewrite (IH H2), andb_true_r. apply Nat.eqb_eq.
  rewrite string_app_nil_r in H1.
  apply (space_width_newline (String c word) r); [discriminate|exact H1].
Qed.

Lemma no_space_before_snoc (word : string) (c : ascii) (s : string) :
  no_space_before word (String c s) = true ->
  GenericEditWin.space_width (String c s) = 0%nat ->
  no_space_before (word +:+ String c "") s = true.
Proof.
  intros Hw Hc. induction word as [|a word IH].
  - change ("" +:+ String c "") with (String c "").
    rewrite no_space_before_cons. change ("" +:+ s) with s.
    rewrite Hc. reflexivity.
  - change (String a word +:+ String c "") with (String a (word +:+ String c "")).
    rewrite no_space_before_cons in *.
    apply andb_true_iff in Hw as [H1 H2].
    rewrite (IH H2), andb_true_r.
    rewrite string_app_assoc. change (String c "" +:+ s) with (String c s).
    exact H1.
Qed.

Lemma split_from_words (s : string) :
  forall skip word,
  no_space_before word s = true -> (skip ≠ 0%nat -> word = "") ->
  Forall is_word (GenericEditWin.split_from s skip word).
Proof.
  induction s as [|c s IH]; intros skip word Hw Hs.
  - cbn [GenericEditWin.split_from].
    destruct (String.eqb word "") eqn:E; [constructor|].
    constructor; [|constructor]. split; [|exact Hw].
    apply String.eqb_neq. exact E.
  - cbn [GenericEditWin.split_from]. destruct skip as [|k].
    + destruct (GenericEditWin.space_width (String c s)) as [|k] eqn:Hc.
      * apply IH; [|intros H; contradiction].
        apply no_space_before_snoc; assumption.
      * destruct (String.eqb word "") eqn:E;
          [apply IH; [reflexivity|reflexivity]|].
        constructor; [|apply IH; [reflexivity|reflexivity]].
        split; [apply String.eqb_neq; exact E|].
        eapply no_space_before_nil. exact Hw.
    + rewrite (Hs ltac:(discriminate)).
      apply IH; [reflexivity|reflexivity].
Qed.

Lemma split_gives_words (text : string) :
  Forall is_word (GenericEditWin.py_split text).
Proof. apply split_from_words; [reflexivity|intros H; contradiction]. Qed.

Lemma split_from_word (word : string) :
  forall rest acc, no_space_before word rest = true ->
  GenericEditWin.split_from (word +:+ rest) 0 acc
  = GenericEditWin.split_from rest 0 (acc +:+ word).
Proof.
  induction word as [|c word IH]; intros rest acc Hw.
  - rewrite string_app_nil_r. reflexivity.
  - rewrite no_space_before_cons in Hw.
    apply andb_true_iff in Hw as [Hc Hw]. apply Nat.eqb_eq in Hc.
    change (String c word +:+ rest) with (String c (word +:+ rest)).
    cbn [GenericEditWin.split_from]. rewrite Hc. rewrite IH by exact Hw.
    rewrite string_app_assoc. reflexivity.
Qed.

Lemma split_joined_words (l : list string) :
  Forall is_word l -> GenericEditWin.py_split (join_lines l) = l.
Proof.
  unfold GenericEditWin.py_split, join_lines.
  induction 1 as [|x l [Hx Hs] Hl IH]; [reflexivity|].
  assert (Ex : String.eqb x "" = false) by (apply String.eqb_neq; exact Hx).
  destruct l as [|y l].
  - cbn [String.concat]. rewrite <- (string_app_nil_r x) at 1.
    rewrite split_from_word by exact Hs. change ("" +:+ x) with x.
    cbn [GenericEditWin.split_from]. rewrite Ex. reflexivity.
  - change (String.concat (String (ascii_of_nat 10) "") (x :: y :: l))
      with (x +:+ String (ascii_of_nat 10)
                    (String.concat (String (ascii_of_nat 10) "") (y :: l))).
    rewrite split_from_word by (apply no_space_before_newline; exact Hs).
    change ("" +:+ x) with x.
    cbn [GenericEditWin.split_from].
    change (GenericEditWin.space_width
              (String (ascii_of_nat 10)
                 (String.concat (String (ascii_of_nat 10) "") (y :: l))))
      with 1%nat.
    cbv iota. rewrite Ex. rewrite IH. reflexivity.
Qed.

(** X18.  Splitting the lines [add_textview] joins gives the list back, when
    every item is a word. *)
Theorem split_of_joined_words (l : list string) :
  Forall is_word l -> GenericEditWin.py_split (join_lines l) = l.
Proof. exact (split_joined_words l). Qed.

Lemma split_of_joined_words_witness :
  GenericEditWin.py_split (join_lines ["music"; "live"]) = ["music"; "live"].
Proof.
  apply (split_of_joined_words ["music"; "live"]).
  repeat constructor; discriminate.
Defined.

(** X17.  For a property that holds a list or a tuple, the text view's handler
    stages a list of words: no item is empty or contains white space, that
    of Unicode included. *)
Theorem textview_stages_words (w : EditWin) (prop text : string)
    (old : pyval) (l0 : list string) :
  (GenericEditWin.self_retrieve_val prop w).1 = Ret old ->
  old = VList l0 \/ old = VTuple l0 ->
  exists l,
    edit_dict (GenericEditWin.on_textview_changed
                 {| buffer_text := text |} prop w).2 !! prop = Some (VList l)
    /\ Forall is_word l.
Proof.
  intros Hr Hold. exists (GenericEditWin.py_split text).
  split; [|apply split_gives_words].
  unfold GenericEditWin.on_textview_changed, bind. cbn [buffer_text].
  destruct (GenericEditWin.self_retrieve_val prop w) as [r w1].
  cbn [fst] in Hr. subst r.
  destruct Hold as [-> | ->]; cbn; apply lookup_insert_eq.
Qed.

Lemma textview_stages_words_witness :
  exists l,
    edit_dict
      (GenericEditWin.on_textview_changed
         {| buffer_text :=
              " music" +:+ String (ascii_of_nat 194) (String (ascii_of_nat 160)
                                                        "live ") |}
         "tags"
         (set_edit_dict (insert "tags" (VList ["old"])) example_video_win)).2
      !! "tags" = Some (VList l)
    /\ Forall is_word l.
Proof.
  apply (textview_stages_words
           (set_edit_dict (insert "tags" (VList ["old"])) example_video_win)
           "tags"
           (" music" +:+ String (ascii_of_nat 194) (String (ascii_of_nat 160)
                                                      "live "))
           (VList ["old"]) ["old"]).
  - reflexivity.
  - left. reflexivity.
Defined.

(** X19.  A text view that shows a list of words, as [add_textview] fills it,
    stages that same list when its [changed] handler runs. *)
Theorem textview_round_trip (w : EditWin) (prop : string) (l : list string)
    (old : pyval) :
  (GenericEditWin.self_retrieve_val prop w).1 = Ret old ->
  old = VList l \/ old = VTuple l ->
  Forall is_word l ->
  let r := GenericEditWin.on_textview_changed
             {| buffer_text := join_lines l |} prop w in
  r.1 = Ret tt /\ edit_dict r.2 !! prop = Some (VList l).
Proof.
  intros Hr Hold Hl. cbv zeta.
  unfold GenericEditWin.on_textview_changed, bind. cbn [buffer_text].
  destruct (GenericEditWin.self_retrieve_val prop w) as [r w1].
  cbn [fst] in Hr. subst r.
  rewrite (split_joined_words l Hl).
  destruct Hold as [-> | ->]; cbn; rewrite lookup_insert_eq; split; reflexivity.
Qed.

Lemma textview_round_trip_witness :
  let w := set_edit_dict (insert "tags" (VList ["music"; "live"]))
             example_video_win in
  let r := GenericEditWin.on_textview_changed
             {| buffer_text := join_lines ["music"; "live"] |} "tags" w in
  r.1 = Ret tt /\ edit_dict r.2 !! "tags" = Some (VList ["music"; "live"]).
Proof.
  apply (textview_round_trip
           (set_edit_dict (insert "tags" (VList ["music"; "live"]))
              example_video_win)
           "tags" ["music"; "live"] (VList ["music"; "live"])).
  - reflexivity.
  - left. reflexivity.
  - repeat constructor; discriminate.
Defined.

(** ** Subtitles *)

(** X20.  A radio button of the Subtitles tab either changes nothing or stages
    the three subtitle flags together: automatic or all subtitles imply
    [write_subs], the two exclude each other, and the language combo is
    sensitive for ['subs_lang'] only.  No object is modified. *)
Theorem subtitles_flags_consistent (radiobutton : ToggleButton) (prop : string)
    (s : EditWin * bool) :
  let r := OptionsTabs.on_subtitles_toggled radiobutton prop s in
  r.1 = Ret tt
  /\ store r.2.1 = store s.1
  /\ (r.2 = s
      \/ exists subs auto all : bool,
           edit_dict r.2.1 !! "write_subs" = Some (VBool subs)
           /\ edit_dict r.2.1 !! "write_auto_subs" = Some (VBool auto)
           /\ edit_dict r.2.1 !! "write_all_subs" = Some (VBool all)
           /\ (auto || all = true -> subs = true)
           /\ auto && all = false
           /\ r.2.2 = String.eqb prop "subs_lang").
Proof.
  cbv zeta. unfold OptionsTabs.on_subtitles_toggled. destruct s as [w b].
  destruct (get_active radiobutton); [|split; [|split]; [reflexivity..|left; reflexivity]].
  destruct (String.eqb prop "write_subs") eqn:E1;
    [|destruct (String.eqb prop "write_auto_subs") eqn:E2;
      [|destruct (String.eqb prop "write_all_subs") eqn:E3;
        [|destruct (String.eqb prop "subs_lang") eqn:E4]]];
    (split; [reflexivity|split; [reflexivity|]]);
    try (left; reflexivity);
    right; cbn.
  - exists false, false, false.
    apply String.eqb_eq in E1. subst prop.
    repeat split; try discriminate;
      try (rewrite ?lookup_insert_eq; reflexivity);
      (repeat (rewrite lookup_insert_ne by discriminate));
      apply lookup_insert_eq.
  - exists true, true, false.
    apply String.eqb_eq in E2. subst prop.
    repeat split; try discriminate;
      try (rewrite ?lookup_insert_eq; reflexivity);
      (repeat (rewrite lookup_insert_ne by discriminate));
      apply lookup_insert_eq.
  - exists true, false, true.
    apply String.eqb_eq in E3. subst prop.
    repeat split; try discriminate;
      try (rewrite ?lookup_insert_eq; reflexivity);
      (repeat (rewrite lookup_insert_ne by discriminate));
      apply lookup_insert_eq.
  - exists true, false, false.
    repeat split; try discriminate;
      try (rewrite ?lookup_insert_eq; reflexivity);
      (repeat (rewrite lookup_insert_ne by discriminate));
      apply lookup_insert_eq.
Qed.

(** ** Switching between simple and advanced options *)

(** X21.  With changes staged, switching between simple and advanced
    options calls the setter of the flag, shows the message and, when that
    returns, relabels the button, and that is all: the tab builders are not
    called, and no page, no staged change and no object is touched. *)
Theorem simple_options_keeps_staged_changes
    (set_flag : bool -> TartubeApp -> TartubeApp)
    (show_msg_dialogue : string -> result unit)
    (setup_tabs : M EditWin unit) (s : EditWin * string) :
  edit_dict s.1 ≠ ∅ ->
  let simple := simple_options_flag (app_obj s.1) in
  let w' := set_app_obj (set_flag (negb simple) (app_obj s.1)) s.1 in
  let msg :=
    "When the window is re-opened, " +:+ (if simple then "all" else "some")
    +:+ String (ascii_of_nat 10) "download options will "
    +:+ (if simple then "bevisible" else "be hidden") in
  OptionsTabs.on_simple_options_clicked set_flag show_msg_dialogue setup_tabs s
  = match show_msg_dialogue msg with
    | Ret _ =>
        (Ret tt,
         (w', if simple
              then "Hide advanced download options (when window re-opens)"
              else "Show advanced download options (when window re-opens)"))
    | Raise ex => (Raise ex, (w', s.2))
    end.
Proof.
  intros Hne. cbv zeta. destruct s as [w b]. cbn [fst snd] in *.
  unfold OptionsTabs.on_simple_options_clicked.
  rewrite bind_get. cbv beta. cbn [fst snd].
  destruct (simple_options_flag (app_obj w)); cbn [negb];
    unfold bind, get, on_fst, on_snd, modify;
    cbn [fst snd edit_dict set_app_obj];
    (case_bool_decide as He; [contradiction|]);
    repeat match goal with
    | |- context [show_msg_dialogue (String.append ?a ?b)] =>
        let m' := eval vm_compute in (String.append a b) in
        change (String.append a b) with m'
    end;
    match goal with
    | |- context [show_msg_dialogue ?m] =>
        destruct (show_msg_dialogue m) as [[]|ex]
    end; reflexivity.
Qed.

Lemma simple_options_keeps_staged_changes_witness :
  let set_flag := fun (flag : bool) (a : TartubeApp) =>
                    {| system_error := system_error a;
                       simple_options_flag := flag |} in
  OptionsTabs.on_simple_options_clicked set_flag (fun _ => Ret tt)
    example_setup_tabs
    (example_staged_win, "Hide advanced download options")
  = (Ret tt,
     (set_app_obj (set_flag true example_app) example_staged_win,
      "Show advanced download options (when window re-opens)")).
Proof.
  apply (simple_options_keeps_staged_changes
           (fun (flag : bool) (a : TartubeApp) =>
              {| system_error := system_error a; simple_options_flag := flag |})
           (fun _ => Ret tt)
           example_setup_tabs
           (example_staged_win, "Hide advanced download options")).
  apply insert_non_empty.
Defined.

(** ** Combo boxes *)

Lemma list_index_Some (l : list string) (val : pyval) (i : nat) :
  EditWidgets.list_index l val = Some i ->
  exists s, l !! i = Some s /\ val = VStr s.
Proof.
  revert i. induction l as [|x l IH]; intros i; [discriminate|].
  cbn [EditWidgets.list_index].
  destruct (str_eq x val) eqn:E.
  - intros [= <-]. exists x. split; [reflexivity|]. apply selected_is. exact E.
  - destruct (EditWidgets.list_index l val) as [j|]; [|discriminate].
    intros [= <-]. destruct (IH j eq_refl) as (s & Hs & Hv). exists s. auto.
Qed.

Lemma list_index_None (l : list string) (val : pyval) :
  (forall s, s ∈ l -> val ≠ VStr s) -> EditWidgets.list_index l val = None.
Proof.
  induction l as [|x l IH]; intros H; [reflexivity|].
  cbn [EditWidgets.list_index].
  destruct (str_eq x val) eqn:E.
  - apply selected_is in E. exfalso. apply (H x); [left|exact E].
  - rewrite IH; [reflexivity|]. intros s Hs. apply H. right. exact Hs.
Qed.

Lemma list_index_found (l : list string) (s : string) :
  s ∈ l -> exists i, EditWidgets.list_index l (VStr s) = Some i.
Proof.
  induction l as [|x l IH]; intros Hs; [inversion Hs|].
  cbn [EditWidgets.list_index].
  destruct (str_eq x (VStr s)) eqn:E; [eauto|].
  apply elem_of_cons in Hs as [->|Hs].
  - unfold str_eq in E. rewrite String.eqb_refl in E. discriminate.
  - destruct (IH Hs) as [i Hi]. rewrite Hi. eauto.
Qed.

(** X22.  [add_combo] for a property raises [ValueError] when the property's
    value is not in the list; when it is, a combo is returned whose active
    row shows that value, so that its [changed] handler would stage the
    value itself. *)
Theorem add_combo_shows_current_value (combo_list : list string)
    (prop : string) (w : EditWin) (val : pyval) :
  (GenericEditWin.self_retrieve_val prop w).1 = Ret val ->
  let r := EditWidgets.add_combo combo_list (Some prop) w in
  ((forall s, s ∈ combo_list -> val ≠ VStr s) -> r.1 = Raise ValueError)
  /\ ((exists s, s ∈ combo_list /\ val = VStr s) ->
      exists combo,
        r.1 = Ret combo
        /\ model_cell combo 0 = Ret val
        /\ edit_dict (GenericEditWin.on_combo_changed combo prop r.2).2 !! prop
           = Some val).
Proof.
  intros Hv. cbv zeta. unfold EditWidgets.add_combo, bind.
  destruct (GenericEditWin.self_retrieve_val prop w) as [r w1].
  cbn [fst] in Hv. subst r. split.
  - intros H. rewrite (list_index_None _ _ H). reflexivity.
  - intros (s0 & Hs0 & ->).
    destruct (list_index_found combo_list s0 Hs0) as [i Hi]. rewrite Hi.
    cbn [fst snd ret]. eexists. split; [reflexivity|].
    destruct (list_index_Some _ _ _ Hi) as (s & Hs & E).
    assert (Hc : model_cell
              {| get_model := (fun s => [VStr s]) <$> combo_list;
                 get_active_iter := Some i |} 0 = Ret (VStr s)).
    { unfold model_cell. cbn [get_active_iter get_model].
      rewrite list_lookup_fmap, Hs. reflexivity. }
    rewrite E. split; [exact Hc|].
    unfold GenericEditWin.on_combo_changed. rewrite Hc. cbn.
    apply lookup_insert_eq.
Qed.

Lemma add_combo_shows_current_value_witness :
  let r := EditWidgets.add_combo ["old text"; "new text"] (Some "descrip")
             example_video_win in
  exists combo,
    r.1 = Ret combo
    /\ model_cell combo 0 = Ret (VStr "new text")
    /\ edit_dict (GenericEditWin.on_combo_changed combo "descrip" r.2).2
         !! "descrip"
       = Some (VStr "new text").
Proof.
  apply (add_combo_shows_current_value ["old text"; "new text"] "descrip"
           example_video_win (VStr "new text")).
  - reflexivity.
  - exists "new text". split; [|reflexivity].
    apply list_elem_of_further, list_elem_of_here.
Defined.

(** X23.  [add_combo_with_data] for a property raises [ValueError] when no
    pair of the list stands for the property's value; when one does, a
    combo is returned that has a pair for that value active, and its
    [changed] handler would stage the value itself. *)
Theorem add_combo_with_data_shows_current_value
    (combo_list : list (string * string)) (prop : string) (w : EditWin)
    (val : pyval) :
  (GenericEditWin.self_retrieve_val prop w).1 = Ret val ->
  let r := EditWidgets.add_combo_with_data combo_list (Some prop) w in
  ((forall m, m ∈ combo_list -> val ≠ VStr m.2) -> r.1 = Raise ValueError)
  /\ ((exists m, m ∈ combo_list /\ val = VStr m.2) ->
      exists combo,
        r.1 = Ret combo
        /\ model_cell combo 1 = Ret val
        /\ (exists shown data,
              (shown, data) ∈ combo_list /\ val = VStr data
              /\ model_cell combo 0 = Ret (VStr shown))
        /\ edit_dict
             (GenericEditWin.on_combo_with_data_changed combo prop r.2).2 !! prop
           = Some val).
Proof.
  intros Hv. cbv zeta. unfold EditWidgets.add_combo_with_data, bind.
  destruct (GenericEditWin.self_retrieve_val prop w) as [r w1].
  cbn [fst] in Hv. subst r. split.
  - intros H. rewrite list_index_None; [reflexivity|].
    intros s Hs. apply list_elem_of_fmap in Hs as (m & -> & Hm). apply H, Hm.
  - intros (m0 & Hm0 & ->).
    destruct (list_index_found (snd <$> combo_list) m0.2) as [i Hi].
    { apply list_elem_of_fmap. exists m0. split; [reflexivity|exact Hm0]. }
    rewrite Hi. cbn [fst snd ret]. eexists. split; [reflexivity|].
    destruct (list_index_Some _ _ _ Hi) as (s & Hs & E).
    rewrite list_lookup_fmap in Hs.
    destruct (combo_list !! i) as [[shown data]|] eqn:Hm; [|discriminate].
    cbn in Hs. injection Hs as <-. rewrite E.
    assert (Hc : forall col v, [VStr shown; VStr data] !! col = Some v ->
              model_cell
                {| get_model := (fun m => [VStr m.1; VStr m.2]) <$> combo_list;
                   get_active_iter := Some i |} col = Ret v).
    { intros col v Hcol. unfold model_cell. cbn [get_active_iter get_model].
      rewrite list_lookup_fmap, Hm. cbn [fmap option_fmap option_map fst snd].
      rewrite Hcol. reflexivity. }
    split; [apply Hc; reflexivity|]. split.
    + exists shown, data. split; [|split; [reflexivity|apply Hc; reflexivity]].
      apply list_elem_of_lookup. eauto.
    + unfold GenericEditWin.on_combo_with_data_changed.
      rewrite (Hc 1%nat (VStr data) eq_refl). cbn. apply lookup_insert_eq.
Qed.

Lemma add_combo_with_data_shows_current_value_witness :
  let combo_list := [("Old", "old text"); ("New", "new text")] in
  let r := EditWidgets.add_combo_with_data combo_list (Some "descrip")
             example_video_win in
  exists combo,
    r.1 = Ret combo
    /\ model_cell combo 1 = Ret (VStr "new text")
    /\ (exists shown data,
          (shown, data) ∈ combo_list /\ VStr "new text" = VStr data
          /\ model_cell combo 0 = Ret (VStr shown))
    /\ edit_dict
         (GenericEditWin.on_combo_with_data_changed combo "descrip" r.2).2
         !! "descrip"
       = Some (VStr "new text").
Proof.
  apply (add_combo_with_data_shows_current_value
           [("Old", "old text"); ("New", "new text")] "descrip"
           example_video_win (VStr "new text")).
  - reflexivity.
  - exists ("New", "new text"). split; [|reflexivity].
    apply list_elem_of_further, list_elem_of_here.
Defined.

(** ** The Files tab *)

Lemma bind_on_fst_stage {T A} (p : string) (v : pyval)
    (k : unit -> M (EditWin * T) A) (w : EditWin) (f : T) :
  bind (on_fst (stage p v)) k (w, f) = k tt (set_edit_dict (insert p v) w, f).
Proof. reflexivity. Qed.

Lemma bind_on_snd {T A} (g : T -> T) (k : unit -> M (EditWin * T) A)
    (w : EditWin) (f : T) :
  bind (on_snd g) k (w, f) = k tt (w, g f).
Proof. reflexivity. Qed.

Lemma bind_on_fst {T A B} (c : M EditWin A) (k : A -> M (EditWin * T) B)
    (w : EditWin) (f : T) :
  bind (on_fst c) k (w, f)
  = match (c w).1 with
    | Ret a => k a ((c w).2, f)
    | Raise e => (Raise e, ((c w).2, f))
    end.
Proof.
  unfold bind, on_fst. cbn [fst snd]. destruct (c w) as [[a|e] w']; reflexivity.
Qed.

Lemma template_set_text_str (t : string) (w : EditWin)
    (f : OptionsTabs.FilesTab) :
  OptionsTabs.template_set_text (Some (VStr t)) (w, f)
  = if String.eqb (OptionsTabs.template_entry f) t then (Ret tt, (w, f))
    else if OptionsTabs.template_flag f
         then (Ret tt, (set_edit_dict (insert "output_template" (VStr t)) w,
                        OptionsTabs.MkFilesTab true
                          (OptionsTabs.template_widgets f) t))
         else (Ret tt, (w, OptionsTabs.MkFilesTab false
                             (OptionsTabs.template_widgets f) t)).
Proof.
  unfold OptionsTabs.template_set_text. rewrite bind_get. cbv beta.
  cbn [snd]. destruct (String.eqb (OptionsTabs.template_entry f) t);
    [reflexivity|].
  rewrite bind_on_snd. unfold OptionsTabs.on_file_tab_entry_changed.
  rewrite bind_get. cbv beta. cbn [snd OptionsTabs.template_flag].
  destruct (OptionsTabs.template_flag f); reflexivity.
Qed.

(** X24.  Choosing a preset file-name format stages the format number and
    nothing else: the template it writes into the entry is not staged, and
    no object is modified. *)
Theorem preset_format_never_stages_template
    (D : gmap Z (option string)) (row_id : Z) (name : string)
    (s : EditWin * OptionsTabs.FilesTab) :
  row_id ≠ 3 ->
  let r := OptionsTabs.on_file_tab_combo_changed D (Some (row_id, name)) s in
  edit_dict r.2.1 = <["output_format" := VInt row_id]> (edit_dict s.1)
  /\ OptionsTabs.template_flag r.2.2 = false
  /\ store r.2.1 = store s.1.
Proof.
  intros Hne. cbv zeta. destruct s as [w f].
  unfold OptionsTabs.on_file_tab_combo_changed.
  apply Z.eqb_neq in Hne. rewrite Hne.
  rewrite bind_on_fst_stage. unfold OptionsTabs.file_tab_sensitise_widgets.
  rewrite bind_on_snd.
  destruct (D !! row_id) as [[t|]|]; cbn [fmap option_fmap option_map];
    try (repeat split; reflexivity).
  rewrite template_set_text_str. cbn [OptionsTabs.template_entry
    OptionsTabs.template_flag].
  destruct (String.eqb (OptionsTabs.template_entry f) t);
    repeat split; reflexivity.
Qed.

Lemma preset_format_never_stages_template_witness :
  let s := (example_options_win, OptionsTabs.MkFilesTab true true "%(id)s") in
  let r := OptionsTabs.on_file_tab_combo_changed
             {[ 0 := Some "%(title)s.%(ext)s" ]} (Some (0, "Title")) s in
  edit_dict r.2.1 = <["output_format" := VInt 0]> (edit_dict s.1)
  /\ OptionsTabs.template_flag r.2.2 = false
  /\ store r.2.1 = store s.1.
Proof.
  apply (preset_format_never_stages_template
           {[ 0 := Some "%(title)s.%(ext)s" ]} 0 "Title"
           (example_options_win, OptionsTabs.MkFilesTab true true "%(id)s")).
  lia.
Defined.

(** X25.  Choosing the custom file-name format (number 3) stages the number,
    makes the template entry editable and shows the current template in it;
    the template [retrieve_val] shows stays the same. *)
Theorem custom_format_keeps_template
    (D : gmap Z (option string)) (name tpl : string)
    (s : EditWin * OptionsTabs.FilesTab) :
  (OptionsEditWin.retrieve_val "output_template" s.1).1 = Ret (VStr tpl) ->
  let r := OptionsTabs.on_file_tab_combo_changed D (Some (3, name)) s in
  r.1 = Ret tt
  /\ OptionsTabs.template_flag r.2.2 = true
  /\ OptionsTabs.template_entry r.2.2 = tpl
  /\ edit_dict r.2.1 !! "output_format" = Some (VInt 3)
  /\ (OptionsEditWin.retrieve_val "output_template" r.2.1).1 = Ret (VStr tpl).
Proof.
  intros Hr. cbv zeta. destruct s as [w f]. cbn [fst] in Hr.
  rewrite (proj1 (retrieve_val_peek w w _ _ (staged_from_refl w))) in Hr.
  unfold OptionsTabs.on_file_tab_combo_changed.
  change (3 =? 3) with true. cbv iota.
  rewrite bind_on_fst_stage. unfold OptionsTabs.file_tab_sensitise_widgets.
  rewrite bind_on_snd.
  set (w1 := set_edit_dict (insert "output_format" (VInt 3)) w).
  assert (H1 : staged_from w w1 (<["output_format" := VInt 3]> (edit_dict w))).
  { repeat split. }
  assert (P2 : peek_with w (<["output_format" := VInt 3]> (edit_dict w))
                 "output_template" = Ret (VStr tpl)).
  { rewrite peek_with_insert.
    destruct (decide ("output_format" = "output_template")) as [?|_];
      [discriminate|exact Hr]. }
  destruct (retrieve_val_peek w w1 _ "output_template" H1) as [E2 H2].
  rewrite P2 in E2.
  rewrite bind_on_fst, E2.
  set (w2 := (OptionsEditWin.retrieve_val "output_template" w1).2) in *.
  rewrite template_set_text_str.
  cbn [OptionsTabs.template_entry OptionsTabs.template_flag
       OptionsTabs.template_widgets].
  destruct H2 as (A1 & A2 & A3 & A4 & Hd).
  destruct (String.eqb (OptionsTabs.template_entry f) tpl) eqn:Et.
  - apply String.eqb_eq in Et. cbn [fst snd].
    split; [reflexivity|]. split; [reflexivity|]. split; [exact Et|].
    split.
    + rewrite Hd. apply lookup_insert_eq.
    + rewrite (proj1 (retrieve_val_peek w w2 _ _
                        ltac:(repeat split; try assumption; exact Hd))).
      try rewrite Hd. exact P2.
  - cbn [fst snd OptionsTabs.template_flag OptionsTabs.template_entry].
    split; [reflexivity|]. split; [reflexivity|]. split; [reflexivity|].
    split.
    + cbn. rewrite Hd. rewrite lookup_insert_ne by discriminate.
      apply lookup_insert_eq.
    + set (w3 := set_edit_dict _ w2).
      assert (H3 : staged_from w w3
                (<["output_template" := VStr tpl]>
                   (<["output_format" := VInt 3]> (edit_dict w)))).
      { repeat split; try assumption. unfold w3. cbn. rewrite Hd. reflexivity. }
      rewrite (proj1 (retrieve_val_peek w w3 _ _ H3)).
      rewrite peek_with_insert. rewrite decide_True by reflexivity. reflexivity.
Qed.

Lemma custom_format_keeps_template_witness :
  let s := (set_edit_dict (insert "output_template" (VStr "%(id)s"))
              example_options_win,
            OptionsTabs.MkFilesTab false false "%(title)s.%(ext)s") in
  let r := OptionsTabs.on_file_tab_combo_changed ∅ (Some (3, "Custom")) s in
  r.1 = Ret tt
  /\ OptionsTabs.template_flag r.2.2 = true
  /\ OptionsTabs.template_entry r.2.2 = "%(id)s"
  /\ edit_dict r.2.1 !! "output_format" = Some (VInt 3)
  /\ (OptionsEditWin.retrieve_val "output_template" r.2.1).1
     = Ret (VStr "%(id)s").
Proof.
  apply (custom_format_keeps_template ∅ "Custom" "%(id)s"
           (set_edit_dict (insert "output_template" (VStr "%(id)s"))
              example_options_win,
            OptionsTabs.MkFilesTab false false "%(title)s.%(ext)s")).
  reflexivity.
Defined.

(** ** The date button *)

Lemma all_digits_app (a b : string) :
  SystemPrefWin.all_digits (a +:+ b)
  = SystemPrefWin.all_digits a && SystemPrefWin.all_digits b.
Proof.
  induction a as [|c a IH]; [reflexivity|].
  change (String c a +:+ b) with (String c (a +:+ b)).
  cbn [SystemPrefWin.all_digits]. rewrite IH. apply andb_assoc.
Qed.

Lemma int_from_app (a b : string) (acc : Z) :
  SystemPrefWin.int_from (a +:+ b) acc
  = SystemPrefWin.int_from b (SystemPrefWin.int_from a acc).
Proof.
  revert acc. induction a as [|c a IH]; intros acc; [reflexivity|].
  change (String c a +:+ b) with (String c (a +:+ b)).
  cbn [SystemPrefWin.int_from]. apply IH.
Qed.

Lemma int_from_shift (t : string) (acc : Z) :
  SystemPrefWin.int_from t acc
  = acc * 10 ^ Z.of_nat (String.length t) + SystemPrefWin.int_from t 0.
Proof.
  revert acc. induction t as [|c t IH]; intros acc.
  - cbn. lia.
  - cbn [SystemPrefWin.int_from String.length].
    rewrite (IH (10 * acc + _)), (IH (10 * 0 + _)).
    rewrite Nat2Z.inj_succ, Z.pow_succ_r by lia. ring.
Qed.

Lemma string_length_app (a b : string) :
  String.length (a +:+ b) = (String.length a + String.length b)%nat.
Proof.
  induction a as [|c a IH]; [reflexivity|].
  change (String c a +:+ b) with (String c (a +:+ b)).
  cbn [String.length]. rewrite IH. reflexivity.
Qed.

Lemma four_digit_texts :
  forallb (fun y =>
      (String.length (zfill 4 (str_nat y)) =? 4)%nat
      && SystemPrefWin.all_digits (zfill 4 (str_nat y))
      && (SystemPrefWin.int_from (zfill 4 (str_nat y)) 0 =? Z.of_nat y))
    (seq 0 (100 * 100)) = true.
Proof. vm_compute. reflexivity. Qed.

Lemma two_digit_texts :
  forallb (fun y =>
      (String.length (zfill 2 (str_nat y)) =? 2)%nat
      && SystemPrefWin.all_digits (zfill 2 (str_nat y))
      && (SystemPrefWin.int_from (zfill 2 (str_nat y)) 0 =? Z.of_nat y))
    (seq 0 100) = true.
Proof. vm_compute. reflexivity. Qed.

Lemma digit_text (width bound y : nat) :
  forallb (fun y =>
      (String.length (zfill width (str_nat y)) =? width)%nat
      && SystemPrefWin.all_digits (zfill width (str_nat y))
      && (SystemPrefWin.int_from (zfill width (str_nat y)) 0 =? Z.of_nat y))
    (seq 0 bound) = true ->
  (y < bound)%nat ->
  String.length (zfill width (str_nat y)) = width
  /\ SystemPrefWin.all_digits (zfill width (str_nat y)) = true
  /\ SystemPrefWin.int_from (zfill width (str_nat y)) 0 = Z.of_nat y.
Proof.
  intros Hall Hy. rewrite forallb_forall in Hall.
  specialize (Hall y ltac:(apply in_seq; lia)).
  apply andb_prop in Hall as [Hall H3]. apply andb_prop in Hall as [H1 H2].
  apply Nat.eqb_eq in H1. apply Z.eqb_eq in H3. auto.
Qed.

Lemma all_digits_is_ascii (t : string) :
  SystemPrefWin.all_digits t = true -> SystemPrefWin.is_ascii t = true.
Proof.
  induction t as [|c t IH]; [reflexivity|].
  cbn [SystemPrefWin.all_digits SystemPrefWin.is_ascii]. intros H.
  apply andb_true_iff in H as [Hc Ht]. rewrite (IH Ht), andb_true_r.
  unfold SystemPrefWin.is_digit in Hc. apply andb_true_iff in Hc as [_ Hc].
  apply Nat.leb_le in Hc. apply Nat.ltb_lt. lia.
Qed.

Lemma entry_set_text_shows {text : string} (s : EditWin * EntryBox) :
  entry_text (entry_set_text text s).2.2 = text.
Proof.
  destruct s as [w e]. unfold entry_set_text. rewrite bind_get. cbv beta.
  cbn [snd]. destruct (String.eqb (entry_text e) text) eqn:E.
  - apply String.eqb_eq in E. exact E.
  - rewrite bind_on_snd. destruct (entry_prop e); [|reflexivity].
    unfold on_fst. cbn [fst snd].
    destruct (GenericEditWin.on_entry_changed _ _ w). reflexivity.
Qed.

(** X26.  The date button writes the chosen date as eight decimal digits, year,
    month (counted from 1) and day, whatever the entry showed before (and
    whatever the interpreter makes of other texts). *)
Theorem set_date_writes_eight_digits (outside : Outside)
    (year month day : nat) (prop : string)
    (s : EditWin * EntryBox) (v : pyval) :
  Z.of_nat year <= 9999 -> (month <= 11)%nat -> (day <= 31)%nat ->
  (OptionsEditWin.retrieve_val prop s.1).1 = Ret v ->
  let r := OptionsTabs.on_button_set_date_clicked
             (Some (year, month, day)) prop s in
  let t := entry_text r.2.2 in
  String.length t = 8%nat
  /\ SystemPrefWin.isdigit outside t = true
  /\ SystemPrefWin.py_int outside t
     = Ret (Z.of_nat year * 10000 + (Z.of_nat month + 1) * 100 + Z.of_nat day).
Proof.
  intros Hy Hm Hd Hv. cbv zeta. destruct s as [w e]. cbn [fst] in Hv.
  unfold OptionsTabs.on_button_set_date_clicked.
  rewrite bind_on_fst, Hv, entry_set_text_shows.
  destruct (digit_text 4 (100 * 100) year four_digit_texts ltac:(lia))
    as (L1 & D1 & I1).
  destruct (digit_text 2 100 (month + 1) two_digit_texts ltac:(lia))
    as (L2 & D2 & I2).
  destruct (digit_text 2 100 day two_digit_texts ltac:(lia))
    as (L3 & D3 & I3).
  set (a := zfill 4 (str_nat year)) in *.
  set (b := zfill 2 (str_nat (month + 1))) in *.
  set (c := zfill 2 (str_nat day)) in *.
  assert (L : String.length (a +:+ b +:+ c) = 8%nat).
  { rewrite !string_length_app, L1, L2, L3. reflexivity. }
  assert (D : SystemPrefWin.all_digits (a +:+ b +:+ c) = true).
  { rewrite !all_digits_app, D1, D2, D3. reflexivity. }
  assert (A : SystemPrefWin.ascii_digits (a +:+ b +:+ c) = true).
  { unfold SystemPrefWin.ascii_digits. rewrite D.
    destruct (String.eqb (a +:+ b +:+ c) "") eqn:E; [|reflexivity].
    apply String.eqb_eq in E. rewrite E in L. discriminate. }
  split; [exact L|]. split.
  - unfold SystemPrefWin.isdigit.
    rewrite (all_digits_is_ascii _ D). exact A.
  - unfold SystemPrefWin.py_int. rewrite A, L. cbn [andb].
    change (8 <=? 4300)%nat with true. cbv iota. f_equal.
    rewrite !int_from_app.
    rewrite (int_from_shift c), (int_from_shift b), L2, L3, I1, I2, I3.
    change (10 ^ Z.of_nat 2) with 100. lia.
Qed.

Lemma set_date_writes_eight_digits_witness :
  let r := OptionsTabs.on_button_set_date_clicked
             (Some (2011, 0, 5)%nat) "video_format"
             (example_options_win, MkEntryBox "" None) in
  let t := entry_text r.2.2 in
  String.length t = 8%nat
  /\ SystemPrefWin.isdigit example_outside t = true
  /\ SystemPrefWin.py_int example_outside t = Ret 20110105.
Proof.
  apply (set_date_writes_eight_digits example_outside 2011 0 5 "video_format"
           (example_options_win, MkEntryBox "" None) (VStr "18")).
  - lia.
  - lia.
  - lia.
  - reflexivity.
Defined.

(** X27.  Leaving the calendar without a date empties the entry. *)
Theorem set_date_cancelled_empties_entry (prop : string)
    (s : EditWin * EntryBox) (v : pyval) :
  (OptionsEditWin.retrieve_val prop s.1).1 = Ret v ->
  entry_text (OptionsTabs.on_button_set_date_clicked None prop s).2.2 = "".
Proof.
  intros Hv. destruct s as [w e]. cbn [fst] in Hv.
  unfold OptionsTabs.on_button_set_date_clicked.
  rewrite bind_on_fst, Hv. apply entry_set_text_shows.
Qed.

Lemma set_date_cancelled_empties_entry_witness :
  entry_text
    (OptionsTabs.on_button_set_date_clicked None "video_format"
       (example_options_win, MkEntryBox "20110105" None)).2.2 = "".
Proof.
  apply (set_date_cancelled_empties_entry "video_format"
           (example_options_win, MkEntryBox "20110105" None) (VStr "18")).
  reflexivity.
Defined.

(** ** The preference window *)

Lemma clamp_spin_idempotent (q : Q) :
  Qeq_bool (clamp (inject_Z 1) (inject_Z 999) q)
    (clamp (inject_Z 1) (inject_Z 999) q) = true.
Proof. apply Qeq_bool_iff. reflexivity. Qed.

Lemma spin_set_value_int (which : SystemPrefWin.match_spin) (n : Z)
    (p : PrefWin) :
  let r := SystemPrefWin.spin_set_value which (VInt n) p in
  let shown := clamp (inject_Z 1) (inject_Z 999) (inject_Z n) in
  r.1 = Ret tt
  /\ (forall name, name ≠ "match_first_chars" -> name ≠ "match_ignore_chars" ->
      app_attrs r.2 !! name = app_attrs p !! name)
  /\ match which with
     | SystemPrefWin.Spinbutton =>
         Qeq_bool (spinbutton r.2) shown = true
         /\ spinbutton2 r.2 = spinbutton2 p
     | SystemPrefWin.Spinbutton2 =>
         Qeq_bool (spinbutton2 r.2) shown = true
         /\ spinbutton r.2 = spinbutton p
     end.
Proof.
  cbv zeta. split; [apply spin_set_value_number|].
  split; [intros; apply spin_set_value_other; assumption|].
  unfold SystemPrefWin.spin_set_value. cbn [SystemPrefWin.as_float].
  cbv zeta. rewrite bind_get. cbv beta.
  destruct which.
  - destruct (Qeq_bool (spinbutton p) _) eqn:E; [split; [exact E|reflexivity]|].
    cbn. split; [|reflexivity]. apply clamp_spin_idempotent.
  - destruct (Qeq_bool (spinbutton2 p) _) eqn:E; [split; [exact E|reflexivity]|].
    cbn. split; [|reflexivity]. apply clamp_spin_idempotent.
Qed.

Lemma on_match_button_toggled_active (which : SystemPrefWin.match_radio)
    (b : ToggleButton) (p : PrefWin) (n : Z) :
  get_active b = true ->
  app_attrs p !! "match_default_chars" = Some (VInt n) ->
  SystemPrefWin.on_match_button_toggled which b p
  = match which with
    | SystemPrefWin.Radiobutton =>
        (do! SystemPrefWin.spin_set_value SystemPrefWin.Spinbutton (VInt n) in
         SystemPrefWin.spin_set_value SystemPrefWin.Spinbutton2 (VInt n))
          (set_app_attrs (insert "match_method" (VStr "exact_match")) p)
    | SystemPrefWin.Radiobutton2 =>
        SystemPrefWin.spin_set_value SystemPrefWin.Spinbutton2 (VInt n)
          (set_app_attrs (insert "match_method" (VStr "match_first")) p)
    | SystemPrefWin.Radiobutton3 =>
        SystemPrefWin.spin_set_value SystemPrefWin.Spinbutton (VInt n)
          (set_app_attrs (insert "match_method" (VStr "ignore_last")) p)
    end.
Proof.
  intros Hb Hd. unfold SystemPrefWin.on_match_button_toggled.
  unfold bind at 1. unfold SystemPrefWin.app_get at 1. rewrite Hd, Hb.
  destruct which; reflexivity.
Qed.

(** X29.  Choosing a matching method records it and sets the spin button of
    every other method to the default number of characters, as far as the
    range of the spin buttons, 1 to 999, allows: a default below 1 shows as
    1, one above 999 as 999. *)
Theorem match_button_resets_spinbuttons (which : SystemPrefWin.match_radio)
    (b : ToggleButton) (p : PrefWin) (n : Z) :
  get_active b = true ->
  app_attrs p !! "match_default_chars" = Some (VInt n) ->
  let r := SystemPrefWin.on_match_button_toggled which b p in
  let shown := inject_Z (if n <? 1 then 1 else if 999 <? n then 999 else n) in
  r.1 = Ret tt
  /\ app_attrs r.2 !! "match_method"
     = Some (VStr match which with
                  | SystemPrefWin.Radiobutton => "exact_match"
                  | SystemPrefWin.Radiobutton2 => "match_first"
                  | SystemPrefWin.Radiobutton3 => "ignore_last"
                  end)
  /\ (which ≠ SystemPrefWin.Radiobutton2 ->
      Qeq_bool (spinbutton r.2) shown = true)
  /\ (which ≠ SystemPrefWin.Radiobutton3 ->
      Qeq_bool (spinbutton2 r.2) shown = true).
Proof.
  intros Hb Hd. cbv zeta.
  assert (Hc : forall q,
             Qeq_bool q (clamp (inject_Z 1) (inject_Z 999) (inject_Z n)) = true ->
             Qeq_bool q (inject_Z (if n <? 1 then 1
                                   else if 999 <? n then 999 else n)) = true).
  { intros q Hq. apply Qeq_bool_iff. apply Qeq_bool_iff in Hq.
    rewrite Hq. unfold clamp.
    destruct (Qle_bool (inject_Z n) (inject_Z 1)) eqn:E1.
    - apply Qle_bool_iff in E1. rewrite <- Zle_Qle in E1.
      destruct (n <? 1) eqn:F1; [reflexivity|].
      apply Z.ltb_ge in F1. assert (n = 1) by lia. subst n.
      reflexivity.
    - assert (F1 : (n <? 1) = false).
      { apply Z.ltb_ge. destruct (Z.le_gt_cases 1 n) as [G|G]; [exact G|].
        assert (Qle_bool (inject_Z n) (inject_Z 1) = true)
          by (apply Qle_bool_iff; rewrite <- Zle_Qle; lia).
        congruence. }
      rewrite F1.
      destruct (Qle_bool (inject_Z 999) (inject_Z n)) eqn:E2.
      + apply Qle_bool_iff in E2. rewrite <- Zle_Qle in E2.
        destruct (999 <? n) eqn:F2; [reflexivity|].
        apply Z.ltb_ge in F2. assert (n = 999) by lia. subst n.
        reflexivity.
      + assert (F2 : (999 <? n) = false).
        { apply Z.ltb_ge. destruct (Z.le_gt_cases n 999) as [G|G]; [exact G|].
          assert (Qle_bool (inject_Z 999) (inject_Z n) = true)
            by (apply Qle_bool_iff; rewrite <- Zle_Qle; lia).
          congruence. }
        rewrite F2. reflexivity. }
  rewrite (on_match_button_toggled_active which b p n Hb Hd).
  destruct which.
  - set (p1 := set_app_attrs (insert "match_method" (VStr "exact_match")) p).
    unfold bind.
    destruct (spin_set_value_int SystemPrefWin.Spinbutton n p1) as (R1 & F1 & S1 & T1).
    destruct (SystemPrefWin.spin_set_value SystemPrefWin.Spinbutton (VInt n) p1)
      as [r1 p2]. cbn [fst snd] in *. subst r1.
    destruct (spin_set_value_int SystemPrefWin.Spinbutton2 n p2) as (R2 & F2 & S2 & T2).
    destruct (SystemPrefWin.spin_set_value SystemPrefWin.Spinbutton2 (VInt n) p2)
      as [r2 p3]. cbn [fst snd] in *. subst r2.
    split; [reflexivity|]. split.
    + rewrite F2, F1 by discriminate. apply lookup_insert_eq.
    + split; intros _; apply Hc; [rewrite T2; exact S1|exact S2].
  - set (p1 := set_app_attrs (insert "match_method" (VStr "match_first")) p).
    destruct (spin_set_value_int SystemPrefWin.Spinbutton2 n p1) as (R1 & F1 & S1 & T1).
    split; [exact R1|]. split.
    + rewrite F1 by discriminate. apply lookup_insert_eq.
    + split; [intros H; contradiction|intros _; apply Hc; exact S1].
  - set (p1 := set_app_attrs (insert "match_method" (VStr "ignore_last")) p).
    destruct (spin_set_value_int SystemPrefWin.Spinbutton n p1) as (R1 & F1 & S1 & T1).
    split; [exact R1|]. split.
    + rewrite F1 by discriminate. apply lookup_insert_eq.
    + split; [intros _; apply Hc; exact S1|intros H; contradiction].
Qed.

Lemma match_button_resets_spinbuttons_witness :
  let p := set_app_attrs (insert "match_default_chars" (VInt 5000))
             example_pref_win in
  let r := SystemPrefWin.on_match_button_toggled SystemPrefWin.Radiobutton
             {| get_active := true |} p in
  r.1 = Ret tt
  /\ app_attrs r.2 !! "match_method" = Some (VStr "exact_match")
  /\ (SystemPrefWin.Radiobutton ≠ SystemPrefWin.Radiobutton2 ->
      Qeq_bool (spinbutton r.2) (inject_Z 999) = true)
  /\ (SystemPrefWin.Radiobutton ≠ SystemPrefWin.Radiobutton3 ->
      Qeq_bool (spinbutton2 r.2) (inject_Z 999) = true).
Proof.
  apply (match_button_resets_spinbuttons SystemPrefWin.Radiobutton
           {| get_active := true |}
           (set_app_attrs (insert "match_default_chars" (VInt 5000))
              example_pref_win)
           5000);
    reflexivity.
Defined.
